(** * PricePointPME: the data pipeline and the opportunity ranker

    A shallow embedding of the decision logic of [data_fetch.py],
    [data_filterPM.py], [startt.py], [telegram.py] and [bot.py], and the
    properties of the specification that concern it.

    Python values are modelled as the code has them: JSON objects are finite
    maps from keys to values, a value is [None], a number or a string, and a
    number is an IEEE binary64 float (Python's [float]; a Python [int] of
    magnitude at most 2^53 behaves as the float of the same value in the
    operations that decide what the pipeline does with a record: [float()],
    [<], [>], [<=], [>=], truthiness; the text that [str], the csv writer
    and an f-string give to a number is that of the float). A string is the
    sequence of the bytes of its UTF-8 encoding. Booleans, arrays and
    nested objects do not occur as field values of the records of the
    pipeline and are left out. What the code obtains from outside (the
    analytics service, the browser page, the clock) is a parameter of the
    function that uses it.

    The definitions come in two layers. The first gives what each function
    computes: the value it returns when it returns. The second, the module
    [Run], adds the calls to the libraries that can raise on what they are
    given ([console.print], [time.sleep], the start of the browser), and
    with them whether the function returns at all. *)

From Stdlib Require Import ZArith Floats Ascii String DecimalString List Permutation.
From stdpp Require Import gmap strings list sorting.

Local Open Scope string_scope.

(** ** Python strings *)

(** [c.upper()] on one character: ASCII letters only; no other character has
    an upper case that is an ASCII letter of ["N/A"]. *)
Definition upper_ascii (c : ascii) : ascii :=
  let n := nat_of_ascii c in
  if (97 <=? n)%nat && (n <=? 122)%nat then ascii_of_nat (n - 32) else c.

(** [s.upper()] *)
Fixpoint upper (s : string) : string :=
  match s with
  | EmptyString => EmptyString
  | String c s' => String (upper_ascii c) (upper s')
  end.

(** [s.replace(c, "")] for a one-character [c] *)
Fixpoint remove_char (c : ascii) (s : string) : string :=
  match s with
  | EmptyString => EmptyString
  | String a s' => if Ascii.eqb a c then remove_char c s' else String a (remove_char c s')
  end.

(** [s.replace(c, d)] for one-character [c] and [d] *)
Fixpoint replace_char (c d : ascii) (s : string) : string :=
  match s with
  | EmptyString => EmptyString
  | String a s' => String (if Ascii.eqb a c then d else a) (replace_char c d s')
  end.

(** [c in s] for a one-character [c] *)
Fixpoint contains_char (c : ascii) (s : string) : bool :=
  match s with
  | EmptyString => false
  | String a s' => Ascii.eqb a c || contains_char c s'
  end.

(** The characters with [c.isspace()] that take one byte. *)
Definition is_space (c : ascii) : bool :=
  let n := nat_of_ascii c in
  ((9 <=? n)%nat && (n <=? 13)%nat) || ((28 <=? n)%nat && (n <=? 32)%nat).

(** Those that take two bytes, U+0085 and U+00A0. *)
Definition is_space2 (b1 b2 : ascii) : bool :=
  let n1 := nat_of_ascii b1 in
  let n2 := nat_of_ascii b2 in
  (n1 =? 194)%nat && ((n2 =? 133)%nat || (n2 =? 160)%nat).

(** Those that take three bytes: U+1680, U+2000 to U+200A, U+2028, U+2029,
    U+202F, U+205F and U+3000. *)
Definition is_space3 (b1 b2 b3 : ascii) : bool :=
  let n1 := nat_of_ascii b1 in
  let n2 := nat_of_ascii b2 in
  let n3 := nat_of_ascii b3 in
  ((n1 =? 225)%nat && (n2 =? 154)%nat && (n3 =? 128)%nat)
  || ((n1 =? 226)%nat && (n2 =? 128)%nat
      && (((128 <=? n3)%nat && (n3 <=? 138)%nat)
          || (n3 =? 168)%nat || (n3 =? 169)%nat || (n3 =? 175)%nat))
  || ((n1 =? 226)%nat && (n2 =? 129)%nat && (n3 =? 159)%nat)
  || ((n1 =? 227)%nat && (n2 =? 128)%nat && (n3 =? 128)%nat).

(** Drops the leading white space; [single] says which single-byte
    characters count. *)
Fixpoint lstrip_with (single : ascii -> bool) (s : string) : string :=
  match s with
  | EmptyString => EmptyString
  | String b1 s1 =>
      if single b1 then lstrip_with single s1
      else
        match s1 with
        | EmptyString => s
        | String b2 s2 =>
            if is_space2 b1 b2 then lstrip_with single s2
            else
              match s2 with
              | EmptyString => s
              | String b3 s3 =>
                  if is_space3 b1 b2 b3 then lstrip_with single s3 else s
              end
        end
  end.

(** The same from the end, on the bytes in reverse order: the last byte of
    a character comes first. *)
Fixpoint rstrip_reversed (single : ascii -> bool) (s : string) : string :=
  match s with
  | EmptyString => EmptyString
  | String b1 s1 =>
      if single b1 then rstrip_reversed single s1
      else
        match s1 with
        | EmptyString => s
        | String b2 s2 =>
            if is_space2 b2 b1 then rstrip_reversed single s2
            else
              match s2 with
              | EmptyString => s
              | String b3 s3 =>
                  if is_space3 b3 b2 b1 then rstrip_reversed single s3 else s
              end
        end
  end.

Definition rstrip_with (single : ascii -> bool) (s : string) : string :=
  String.rev (rstrip_reversed single (String.rev s)).

Definition lstrip (s : string) : string := lstrip_with is_space s.
Definition rstrip (s : string) : string := rstrip_with is_space s.

(** [s.strip()] *)
Definition strip (s : string) : string := rstrip (lstrip s).

(** ** Python values and the runtime *)

Inductive value : Type :=
  | VNone
  | VNum (x : float)
  | VStr (s : string).

(** The built-in conversions whose results depend on the text of a number.
    They belong to the Python runtime, not to the repository, and the
    pipeline is stated over any runtime; [python] below is the one
    used to run the pipeline on concrete inputs. *)
Class PyRuntime : Type := {
  (** [float(s)] for a string [s]; [None] when it raises [ValueError] *)
  float_of_string : string -> option float;
  (** [str(x)] for a float [x] *)
  str_of_float : float -> string;
  (** [f"{x:.2f}"] *)
  format_2f : float -> string
}.

(** A JSON object / Python [dict] with string keys. *)
Abbreviation record := (gmap string value).

(** [d.get(k, dflt)] *)
Definition dict_get (d : record) (k : string) (dflt : value) : value :=
  default dflt (d !! k).

(** [k in d] *)
Definition dict_has (d : record) (k : string) : bool :=
  match d !! k with Some _ => true | None => false end.

(** [v == s] for a string literal [s] *)
Definition value_is_str (v : value) (s : string) : bool :=
  match v with
  | VStr t => String.eqb t s
  | _ => false
  end.

(** [v is None] *)
Definition is_none (v : value) : bool :=
  match v with VNone => true | _ => false end.

(** Truthiness of a value, as [if v:] tests it. *)
Definition truthy (v : value) : bool :=
  match v with
  | VNone => false
  | VNum x => negb (PrimFloat.eqb x 0)
  | VStr s => negb (String.eqb s "")
  end.

(** [x / y] on floats; [None] when it raises [ZeroDivisionError]. *)
Definition py_truediv (x y : float) : option float :=
  if PrimFloat.eqb y 0 then None else Some (PrimFloat.div x y).

(** [float(n)] for an integer [n]: the nearest float, ties to even. *)
Definition float_of_Z (n : Z) : float :=
  SF2Prim (binary_normalize prec emax n 0 false).

(** [x / n] for a float [x] and an integer [n], which is converted to a
    float first; it raises [ZeroDivisionError] exactly when [n] is [0]. *)
Definition py_truediv_int (x : float) (n : Z) : option float :=
  if (n =? 0)%Z then None else Some (PrimFloat.div x (float_of_Z n)).

Section Conversions.
Context `{PyRuntime}.

(** [str(v)] *)
Definition py_str (v : value) : string :=
  match v with
  | VNone => "None"
  | VNum x => str_of_float x
  | VStr s => s
  end.

(** [float(v)]; [None] when it raises ([TypeError] on [None],
    [ValueError] on a string that is not a number) *)
Definition py_float (v : value) : option float :=
  match v with
  | VNone => None
  | VNum x => Some x
  | VStr s => float_of_string s
  end.
End Conversions.

Definition SENTINEL : string := "__DYNAMIC_SCRAPE_STATS__".
Definition PCT : string := "premarket_change_percent".

(** [stock.get("symbol") == "__DYNAMIC_SCRAPE_STATS__"] *)
Definition is_sentinel (stock : record) : bool :=
  value_is_str (dict_get stock "symbol" VNone) SENTINEL.

(** ["error" in stock] *)
Definition has_error (stock : record) : bool := dict_has stock "error".

(** ** data_filterPM.py: the premarket normalizer *)

Section FilterPremarket.
Context `{PyRuntime}.

(** [str(stock.get(k, "N/A")).replace(",", "")] *)
Definition stripped_field (stock : record) (k : string) : string :=
  remove_char "," (py_str (dict_get stock k (VStr "N/A"))).

(** One iteration of the loop of [filter_premarket_data]: [Some s] when
    [s] is appended to [filtered], [None] when the iteration ends in
    [continue] without appending, which is also what the [except] branch
    does with an exception of [float] or of the division once it has
    printed its line. [Run.normalize_stock] has the print, which can
    raise. *)
Definition normalize_stock (stock : record) : option record :=
  if is_sentinel stock then Some stock
  else if has_error stock then None
  else
    let price_str := stripped_field stock "price" in
    let change_str := stripped_field stock "premarket_change" in
    if String.eqb (upper price_str) "N/A" || String.eqb (upper change_str) "N/A"
    then Some (<[PCT := VStr "N/A"]> stock)
    else
      match float_of_string price_str with
      | None => None
      | Some price =>
          match float_of_string change_str with
          | None => None
          | Some change =>
              if negb (PrimFloat.eqb price 0)
              then
                match py_truediv change price with
                | None => None
                | Some quotient => Some (<[PCT := VNum (PrimFloat.mul quotient 100)]> stock)
                end
              else Some (<[PCT := VStr "N/A"]> stock)
          end
      end.

(** The loop of [filter_premarket_data] over the loaded [data], with the
    list [filtered] it builds when no print of the handler raises. *)
Definition filter_premarket_data (data : list record) : list record :=
  foldl (fun (filtered : list record) stock =>
           match normalize_stock stock with
           | Some s => (filtered ++ [s])%list
           | None => filtered
           end) [] data.
End FilterPremarket.

(** ** data_filterPM.py: the opportunity ranker *)

(** The thresholds of [config], with the defaults of [config.get]. *)
Definition rsi_long_max (config : gmap string float) : float :=
  default 70%float (config !! "RSI_LONG_MAX").
Definition rsi_short_min (config : gmap string float) : float :=
  default 30%float (config !! "RSI_SHORT_MIN").
Definition min_pm_change (config : gmap string float) : float :=
  default 2%float (config !! "MIN_PREMARKET_CHANGE_PERCENT").

(** [a < b] on two sort keys; [None] when Python raises [TypeError]
    (a number against a string, or [None] against anything). Strings compare
    by code point, which is the order of their UTF-8 bytes. *)
Definition py_lt (a b : value) : option bool :=
  match a, b with
  | VNum x, VNum y => Some (PrimFloat.ltb x y)
  | VStr s, VStr t => Some (String.ltb s t)
  | _, _ => None
  end.

(** The [key] of both calls of [sorted]:
    [x[PCT] if x[PCT] != "N/A" else 0]; [None] is [KeyError]. *)
Definition sort_key (x : record) : option value :=
  match x !! PCT with
  | None => None
  | Some v => Some (if value_is_str v "N/A" then VNum 0 else v)
  end.

(** Puts [x] after every element that is not greater than it. *)
Fixpoint insert_keyed (x : value * record) (l : list (value * record))
  : option (list (value * record)) :=
  match l with
  | [] => Some [x]
  | y :: l' =>
      match py_lt (fst x) (fst y) with
      | None => None
      | Some true => Some (x :: y :: l')
      | Some false =>
          match insert_keyed x l' with
          | None => None
          | Some r => Some (y :: r)
          end
      end
  end.

(** A stable sort that only uses [<], as [list.sort] does. On keys of one
    kind that [<] orders totally (strings; floats none of which is NaN) every
    such sort returns the same list; on keys of both kinds every sort
    compares a number with a string and raises. *)
Definition sort_keyed (l : list (value * record)) : option (list (value * record)) :=
  foldl (fun acc x => match acc with None => None | Some s => insert_keyed x s end)
        (Some []) l.

(** [sorted(l, key=sort_key, reverse=reversed)]: the keys are computed
    first; with [reverse=True] the list is reversed before and after a stable
    ascending sort. [None] when the call raises. *)
Definition py_sorted (reversed : bool) (l : list record) : option (list record) :=
  match mapM (fun x => match sort_key x with None => None | Some k => Some (k, x) end) l with
  | None => None
  | Some keyed =>
      match sort_keyed (if reversed then reverse keyed else keyed) with
      | None => None
      | Some s => Some (snd <$> (if reversed then reverse s else s))
      end
  end.

Section FilterOpportunities.
Context `{PyRuntime}.
Variable config : gmap string float.

(** The body of the loop of [filter_opportunities] for one [stock]: whether
    it is appended to [long_candidates] and whether to [short_candidates].
    [and] evaluates its second operand only when the first holds, and an
    exception ends the iteration after what was already appended. *)
Definition classify_stock (stock : record) : bool * bool :=
  if is_sentinel stock then (false, false)
  else if has_error stock then (false, false)
  else
    let rsi := dict_get stock "rsi" VNone in
    let pmchg_pct := dict_get stock PCT VNone in
    if negb (is_none rsi) && negb (is_none pmchg_pct) && negb (value_is_str pmchg_pct "N/A")
    then
      match py_float rsi with
      | None => (false, false)
      | Some r =>
          match (if PrimFloat.ltb r (rsi_short_min config)
                 then option_map (fun p => PrimFloat.leb (min_pm_change config) p) (py_float pmchg_pct)
                 else Some false) with
          | None => (false, false)
          | Some is_long =>
              match (if PrimFloat.ltb (rsi_long_max config) r
                     then option_map (fun p => PrimFloat.leb p (PrimFloat.opp (min_pm_change config)))
                                     (py_float pmchg_pct)
                     else Some false) with
              | None => (is_long, false)
              | Some is_short => (is_long, is_short)
              end
          end
      end
    else (false, false).

(** The two lists the loop leaves, before they are sorted. *)
Definition candidates (filtered_data : list record) : list record * list record :=
  foldl (fun '(long, short) stock =>
           let '(is_long, is_short) := classify_stock stock in
           ((if is_long then long ++ [stock] else long)%list,
            (if is_short then short ++ [stock] else short)%list))
        ([], []) filtered_data.

Definition long_candidates (filtered_data : list record) : list record :=
  fst (candidates filtered_data).
Definition short_candidates (filtered_data : list record) : list record :=
  snd (candidates filtered_data).

(** [filter_opportunities(filtered_data, config)]: the pair
    [(result["long"], result["short"])], or [None] when a [sorted] call
    raises. *)
Definition filter_opportunities (filtered_data : list record)
  : option (list record * list record) :=
  match py_sorted true (long_candidates filtered_data) with
  | None => None
  | Some long =>
      match py_sorted false (short_candidates filtered_data) with
      | None => None
      | Some short => Some (long, short)
      end
  end.
End FilterOpportunities.

(** ** data_fetch.py: symbol variants and the indicator fetch *)

(** [get_symbol_variants(symbol)] *)
Definition get_symbol_variants (symbol : string) : list string :=
  if contains_char "-" symbol
  then [symbol; replace_char "-" "." symbol]
  else [symbol].

(** What one [TA_Handler(...).get_analysis()] call does. *)
Inductive lookup : Type :=
  | Analysis (indicators : record)  (** returns; [analysis.indicators] *)
  | NotFound                        (** raises "Exchange or symbol not found" *)
  | Failure.                        (** raises anything else (logged) *)

Definition EXCHANGES : list string := ["NASDAQ"; "NYSE"].

Section FetchStatic.
(** The analytics service: the outcome of a lookup of a variant on an
    exchange. *)
Variable get_analysis : string -> string -> lookup.

(** The body of the [try] for one variant and exchange, on the variables
    [(rsi, sma)]; the flag is [found]. *)
Definition try_exchange (variant exchange : string) (st : value * value)
  : value * value * bool :=
  match get_analysis variant exchange with
  | Analysis indicators =>
      let rsi := dict_get indicators "RSI" VNone in
      let sma := dict_get indicators "SMA20" VNone in
      (rsi, sma, negb (is_none rsi) && negb (is_none sma))
  | NotFound => (st, false)
  | Failure => (st, false)
  end.

(** [for exchange in ["NASDAQ", "NYSE"]], left by [break] once [found]. *)
Fixpoint exchange_loop (variant : string) (exchanges : list string)
  (st : value * value) : value * value * bool :=
  match exchanges with
  | [] => (st, false)
  | exchange :: rest =>
      let '(st', found) := try_exchange variant exchange st in
      if found then (st', true) else exchange_loop variant rest st'
  end.

(** [for variant in variants], left by [break] once [found]. *)
Fixpoint variant_loop (variants : list string) (st : value * value)
  : value * value :=
  match variants with
  | [] => st
  | variant :: rest =>
      let '(st', found) := exchange_loop variant EXCHANGES st in
      if found then st' else variant_loop rest st'
  end.

(** The entry stored for [symbol]: [{"rsi": rsi, "sma": sma}]. *)
Definition static_entry (symbol : string) : record :=
  let '(rsi, sma) := variant_loop (get_symbol_variants symbol) (VNone, VNone) in
  {[ "rsi" := rsi; "sma" := sma ]}.

(** [fetch_static_data(stock_list)] *)
Definition fetch_static_data (stock_list : list string) : gmap string record :=
  foldl (fun static_results symbol => <[symbol := static_entry symbol]> static_results)
        ∅ stock_list.

(** The attempts made for a list of variants, in the order of the two
    loops, and the two loops as one loop over them. *)
Definition attempts (variants : list string) : list (string * string) :=
  variant ← variants; (fun exchange => (variant, exchange)) <$> EXCHANGES.

Fixpoint attempt_loop (tries : list (string * string)) (st : value * value)
  : value * value * bool :=
  match tries with
  | [] => (st, false)
  | (variant, exchange) :: rest =>
      let '(st', found) := try_exchange variant exchange st in
      if found then (st', true) else attempt_loop rest st'
  end.

(** The attempt returned an analysis with both indicator values. *)
Definition returned_both (try : string * string) : bool :=
  match get_analysis (fst try) (snd try) with
  | Analysis indicators =>
      negb (is_none (dict_get indicators "RSI" VNone))
      && negb (is_none (dict_get indicators "SMA20" VNone))
  | _ => false
  end.
End FetchStatic.

(** ** data_fetch.py: the scraper *)

Definition SEL_PRICE : string := "span.price-qWcO4bp9".
Definition SEL_PM_PRICE : string := "span.price-d1N3lNBX".
Definition SEL_PM_PERCENT : string := "span.changePercent-d1N3lNBX".

(** [el.inner_text().strip() if el else "N/A"], for the result [el] of
    [page.query_selector]: the text of the first matching element, or [None]
    when there is none. *)
Definition text_or_na (el : option string) : value :=
  match el with
  | Some inner_text => VStr (strip inner_text)
  | None => VStr "N/A"
  end.

(** The entry [dynamic_results[symbol]] built from the page as it is after
    the symbol was typed; [query_selector] is [page.query_selector]. *)
Definition scrape_record (query_selector : string -> option string) : record :=
  let real_time_price := query_selector SEL_PRICE in
  let pre_market_price := query_selector SEL_PM_PRICE in
  let pre_market_change_percent := query_selector SEL_PM_PERCENT in
  {[ "price" := text_or_na real_time_price;
     "premarket_price" := text_or_na pre_market_price;
     "premarket_change" := VStr "N/A";
     PCT := text_or_na pre_market_change_percent ]}.

Section FetchDynamic.
(** The browser session: what [page.query_selector] finds in iteration
    [idx], after [symbol] was typed; and the clock: the [k]-th value
    [time.time()] returns during the call. The run is taken with the
    session established (its failure is fatal and gives no result), every
    line printed and every pause made: [Run.fetch_dynamic_data] has the
    start of the session, the prints and the pauses, which can raise. *)
Variable page : nat -> string -> string -> option string.
Variable clock : nat -> float.

(** [for idx, symbol in enumerate(stock_list, start=1)], on
    [(dynamic_results, total_fetch_time)] and the number of clock
    readings made so far. *)
Fixpoint scrape_loop (idx : nat) (stock_list : list string)
  (st : gmap string record * float * nat) : gmap string record * float * nat :=
  match stock_list with
  | [] => st
  | symbol :: rest =>
      let '(dynamic_results, total_fetch_time, reads) := st in
      let start_time_per_stock := clock reads in
      let entry := scrape_record (page idx symbol) in
      let stock_time := PrimFloat.sub (clock (S reads)) start_time_per_stock in
      scrape_loop (S idx) rest
        (<[symbol := entry]> dynamic_results,
         PrimFloat.add total_fetch_time stock_time,
         S (S reads))
  end.

(** What [fetch_dynamic_data(stock_list, cookies, wait_time)] computes:
    [(dynamic_results, overall_time, avg_time_per_stock)], or [None] when
    the division raises. *)
Definition fetch_dynamic_data (stock_list : list string)
  : option (gmap string record * float * float) :=
  let overall_start_time := clock 0 in
  let '(dynamic_results, total_fetch_time, reads) :=
    scrape_loop 1 stock_list (∅, 0%float, 1%nat) in
  let overall_time := PrimFloat.sub (clock reads) overall_start_time in
  match (match stock_list with
         | [] => Some 0%float
         | _ :: _ => py_truediv_int total_fetch_time (Z.of_nat (length stock_list))
         end) with
  | None => None
  | Some avg_time_per_stock => Some (dynamic_results, overall_time, avg_time_per_stock)
  end.
End FetchDynamic.

(** ** data_fetch.py and startt.py: merging the two sources *)

Section Merge.
Context `{PyRuntime}.

(** The [position] both merge loops compute from [price] and [sma]. An
    exception inside the [try] (a [price] that is not a string has no
    [replace]; [float] fails) leaves ["N/A"]. *)
Definition position_of (price sma : value) : string :=
  if negb (value_is_str price "N/A") && truthy sma then
    match price with
    | VStr p =>
        match float_of_string (remove_char "," p) with
        | None => "N/A"
        | Some price_val =>
            match float_of_string (remove_char "," (py_str sma)) with
            | None => "N/A"
            | Some sma_val =>
                if PrimFloat.ltb sma_val price_val then "Above SMA" else "Below SMA"
            end
        end
    | _ => "N/A"
    end
  else "N/A".

(** The [record] both merge loops build for [symbol] from its entries in
    the static and in the dynamic results. *)
Definition merged_record (symbol : string) (sdata ddata : record) : record :=
  let price := dict_get ddata "price" (VStr "N/A") in
  let sma := dict_get sdata "sma" VNone in
  {[ "symbol" := VStr symbol;
     "rsi" := dict_get sdata "rsi" VNone;
     "sma" := sma;
     "position" := VStr (position_of price sma);
     "price" := price;
     "premarket_price" := dict_get ddata "premarket_price" (VStr "N/A");
     "premarket_change" := dict_get ddata "premarket_change" (VStr "N/A");
     PCT := dict_get ddata PCT (VStr "N/A") ]}.

(** [for symbol in stock_list: ... final_results.append(record)], with
    [static.get(symbol, {})] and [dynamic.get(symbol, {})]. *)
Definition merge_results (stock_list : list string)
  (static_results dynamic_data : gmap string record) : list record :=
  foldl (fun (final_results : list record) symbol =>
           (final_results ++
              [merged_record symbol (default ∅ (static_results !! symbol))
                                    (default ∅ (dynamic_data !! symbol))])%list)
        [] stock_list.

(** The record appended after the loop by [fetch_all_stocks]. *)
Definition stats_record (dyn_total dyn_avg : float) : record :=
  {[ "symbol" := VStr SENTINEL;
     "dynamic_scrape_total_seconds" := VStr (format_2f dyn_total);
     "dynamic_scrape_avg_seconds" := VStr (format_2f dyn_avg) ]}.

Variable get_analysis : string -> string -> lookup.
Variable page : nat -> string -> string -> option string.
Variable clock : nat -> float.

(** What [fetch_all_stocks(stock_list, cookies, wait_time)] computes;
    [None] when the division of the scrape raises. *)
Definition fetch_all_stocks (stock_list : list string) : option (list record) :=
  let static_data := fetch_static_data get_analysis stock_list in
  match fetch_dynamic_data page clock stock_list with
  | None => None
  | Some (dynamic_data, dyn_total, dyn_avg) =>
      Some (merge_results stock_list static_data dynamic_data
              ++ [stats_record dyn_total dyn_avg])%list
  end.

(** What [run_dynamic_analysis()] computes from the scrape to the ranking,
    for the selected [stock_list] and the thresholds of [config];
    [static_results] is the content of [static_results.json], empty when it
    cannot be read. The result is [final_results], which is what
    [dump_data_to_csv] and [dump_data_to_json] receive, and
    [opportunities], which is what [send_opportunity_message] receives;
    [None] when the division of the scrape or the ranking raises. The dumps
    and the messages are not part of it. *)
Definition run_dynamic_analysis (config : gmap string float)
  (stock_list : list string) (static_results : gmap string record)
  : option (list record * (list record * list record)) :=
  match fetch_dynamic_data page clock stock_list with
  | None => None
  | Some (dynamic_data, dyn_total, dyn_avg) =>
      let final_results := merge_results stock_list static_results dynamic_data in
      match filter_opportunities config final_results with
      | None => None
      | Some opportunities => Some (final_results, opportunities)
      end
  end.
End Merge.

(** ** What the specification says of the ranker *)

(** [stock] is in [long] exactly when [is_long], in [short] exactly when
    [is_short]. *)
Definition placed_in (stock : record) (long short : list record)
  (is_long is_short : Prop) : Prop :=
  (stock ∈ long <-> is_long) /\ (stock ∈ short <-> is_short).

(** The same of the lists the loop of [filter_opportunities] builds and of
    every pair of lists the function returns. *)
Definition ranked `{PyRuntime} (config : gmap string float) (data : list record)
  (stock : record) (is_long is_short : Prop) : Prop :=
  placed_in stock (long_candidates config data) (short_candidates config data)
            is_long is_short
  /\ forall long short,
      filter_opportunities config data = Some (long, short) ->
      placed_in stock long short is_long is_short.

(** The number of records of a collection that are the sentinel. *)
Definition count_sentinel (records : list record) : nat :=
  length (List.filter is_sentinel records).

(** The percent of a record when it is stored as a number. *)
Definition percent_number (x : record) : option float :=
  match x !! PCT with
  | Some (VNum p) => Some p
  | _ => None
  end.

(** [a] may come right before [b] in a list that descends, or ascends, by
    percent. *)
Definition descends (a b : record) : Prop :=
  exists p q, percent_number a = Some p /\ percent_number b = Some q
              /\ PrimFloat.leb q p = true.
Definition ascends (a b : record) : Prop :=
  exists p q, percent_number a = Some p /\ percent_number b = Some q
              /\ PrimFloat.leb p q = true.

(** A keyed record whose key is its percent, a number that is not NaN, and
    the order of two of them. *)
Definition key_le (a b : value * record) : Prop :=
  exists p q,
    fst a = VNum p /\ percent_number (snd a) = Some p
    /\ fst b = VNum q /\ percent_number (snd b) = Some q
    /\ PrimFloat.leb p q = true.

(** ** The Python runtime on concrete inputs

    [float()] on a string, [str()] of a float and the [.2f] format, written
    out from the language reference so that the pipeline can be run on
    concrete records: the grammar of [float] (a sign, digits with an optional
    point and exponent, [inf], [infinity], [nan], white space around, single
    underscores between digits) with correct rounding to binary64; the
    shortest decimal that reads back as the same float, in the layout of
    [repr]; the value rounded to two decimals. Digits other than [0]-[9] are
    not covered. *)
Module PyRun.

Definition is_digit (c : ascii) : bool :=
  let n := nat_of_ascii c in (48 <=? n)%nat && (n <=? 57)%nat.

Definition digit_val (c : ascii) : Z := Z.of_nat (nat_of_ascii c - 48).

Definition lower_ascii (c : ascii) : ascii :=
  let n := nat_of_ascii c in
  if (65 <=? n)%nat && (n <=? 90)%nat then ascii_of_nat (n + 32) else c.

Fixpoint lower (s : string) : string :=
  match s with
  | EmptyString => EmptyString
  | String c s' => String (lower_ascii c) (lower s')
  end.

(** [digit (["_"] digit)*] after its first digit: the value read so far,
    the number of digits, and what is left. *)
Fixpoint digits_rest (acc : Z) (n : Z) (s : string) : Z * Z * string :=
  match s with
  | String c s' =>
      if is_digit c then digits_rest (10 * acc + digit_val c) (n + 1) s'
      else if Ascii.eqb c "_" then
        match s' with
        | String c' s'' =>
            if is_digit c' then digits_rest (10 * acc + digit_val c') (n + 1) s''
            else (acc, n, s)
        | EmptyString => (acc, n, s)
        end
      else (acc, n, s)
  | EmptyString => (acc, n, s)
  end.

(** [digitpart], continuing the value [acc]; [None] when there is no
    digit. *)
Definition digitpart (acc : Z) (s : string) : option (Z * Z * string) :=
  match s with
  | String c s' => if is_digit c then Some (digits_rest (10 * acc + digit_val c) 1 s') else None
  | EmptyString => None
  end.

(** An optional sign: whether it is [-], and what is left. *)
Definition sign (s : string) : bool * string :=
  match s with
  | String c s' =>
      if Ascii.eqb c "-" then (true, s')
      else if Ascii.eqb c "+" then (false, s')
      else (false, s)
  | EmptyString => (false, s)
  end.

(** [[exponent]] up to the end of the string. *)
Definition exponent (s : string) : option Z :=
  match s with
  | EmptyString => Some 0%Z
  | String c s' =>
      if Ascii.eqb (lower_ascii c) "e" then
        let '(neg, s'') := sign s' in
        match digitpart 0 s'' with
        | Some (e, _, EmptyString) => Some (if neg then (- e)%Z else e)
        | _ => None
        end
      else None
  end.

(** [number [exponent]] as a decimal [d * 10^k]. *)
Definition floatnumber (s : string) : option (Z * Z) :=
  match digitpart 0 s with
  | Some (d, _, rest) =>
      match rest with
      | String "." rest' =>
          match digitpart d rest' with
          | Some (d', n, rest'') =>
              match exponent rest'' with Some e => Some (d', (e - n)%Z) | None => None end
          | None =>
              match exponent rest' with Some e => Some (d, e) | None => None end
          end
      | _ => match exponent rest with Some e => Some (d, e) | None => None end
      end
  | None =>
      match s with
      | String "." rest' =>
          match digitpart 0 rest' with
          | Some (d', n, rest'') =>
              match exponent rest'' with Some e => Some (d', (e - n)%Z) | None => None end
          | None => None
          end
      | _ => None
      end
  end.

(** The binary64 float nearest to [d * 10^k] for [d >= 0], ties to even. *)
Definition float_of_decimal (d k : Z) : float :=
  match d with
  | Zpos p =>
      if (0 <=? k)%Z
      then SF2Prim (binary_normalize prec emax (d * 10 ^ k) 0 false)
      else SF2Prim (SFdiv prec emax (S754_finite false p 0)
                                    (S754_finite false (Z.to_pos (10 ^ (- k))) 0))
  | _ => 0%float
  end.

(** The single-byte white space of C, which [float] and [int] skip at
    both ends; the white space of more than one byte is skipped as well. *)
Definition is_c_space (c : ascii) : bool :=
  let n := nat_of_ascii c in ((9 <=? n)%nat && (n <=? 13)%nat) || (n =? 32)%nat.

Definition strip_number (s : string) : string :=
  rstrip_with is_c_space (lstrip_with is_c_space s).

(** [float(s)] *)
Definition float_of_string (s : string) : option float :=
  let '(neg, body) := sign (strip_number s) in
  let signed (x : float) := if neg then PrimFloat.opp x else x in
  let name := lower body in
  if String.eqb name "inf" || String.eqb name "infinity" then Some (signed infinity)
  else if String.eqb name "nan" then Some nan
  else
    match floatnumber body with
    | Some (d, k) => Some (signed (float_of_decimal d k))
    | None => None
    end.

(** A finite nonzero float as a sign and the fraction [num / den] of its
    absolute value. *)
Definition exact (x : float) : option (bool * Z * Z) :=
  match Prim2SF x with
  | S754_finite s m e =>
      Some (if (0 <=? e)%Z then (s, Zpos m * 2 ^ e, 1) else (s, Zpos m, 2 ^ (- e)))%Z
  | _ => None
  end.

(** [10^p <= num / den] *)
Definition pow10_le (p num den : Z) : bool :=
  if (0 <=? p)%Z then (10 ^ p * den <=? num)%Z else (den <=? num * 10 ^ (- p))%Z.

Fixpoint lower_until (fuel : nat) (p num den : Z) : Z :=
  match fuel with
  | O => p
  | S fuel' => if pow10_le p num den then p else lower_until fuel' (p - 1) num den
  end.

Fixpoint raise_while (fuel : nat) (p num den : Z) : Z :=
  match fuel with
  | O => p
  | S fuel' => if pow10_le (p + 1) num den then raise_while fuel' (p + 1) num den else p
  end.

(** The largest [p] with [10^p <= num / den], from the bit lengths. *)
Definition ilog10 (num den : Z) : Z :=
  let guess := ((Z.log2 num - Z.log2 den - 1) * 30103 / 100000 - 1)%Z in
  raise_while 8 (lower_until 8 guess num den) num den.

(** [num / den / 10^k] as its integer part and how the rest compares to one
    half. *)
Definition scaled (num den k : Z) : Z * comparison :=
  let '(n, d) := if (0 <=? k)%Z then (num, den * 10 ^ k)%Z else (num * 10 ^ (- k), den)%Z in
  ((n / d)%Z, (2 * (n mod d) ?= d)%Z).

Definition round_half_even (qc : Z * comparison) : Z :=
  match snd qc with
  | Lt => fst qc
  | Gt => (fst qc + 1)%Z
  | Eq => if Z.even (fst qc) then fst qc else (fst qc + 1)%Z
  end.

(** The shortest decimal [d * 10^k] with at least [n] digits that reads
    back as [x], the nearest to [x] of its length; [x > 0] is
    [num / den] and [p] is its [ilog10]. *)
Fixpoint shortest (fuel : nat) (n : Z) (x : float) (num den p : Z) : Z * Z :=
  let k := (p - (n - 1))%Z in
  let qc := scaled num den k in
  let lo := fst qc in
  let hi := (lo + 1)%Z in
  match fuel with
  | O => (round_half_even qc, k)
  | S fuel' =>
      match PrimFloat.eqb (float_of_decimal lo k) x, PrimFloat.eqb (float_of_decimal hi k) x with
      | true, true => (round_half_even qc, k)
      | true, false => (lo, k)
      | false, true => (hi, k)
      | false, false => shortest fuel' (n + 1) x num den p
      end
  end.

Fixpoint drop_zeros (fuel : nat) (d k : Z) : Z * Z :=
  match fuel with
  | O => (d, k)
  | S fuel' => if ((d mod 10 =? 0) && (0 <? d))%Z then drop_zeros fuel' (d / 10)%Z (k + 1)%Z else (d, k)
  end.

Definition decimal (n : Z) : string := NilZero.string_of_uint (N.to_uint (Z.to_N n)).

Fixpoint zeros (n : nat) : string :=
  match n with O => "" | S n' => String "0" (zeros n') end.

(** The layout of [repr] for the digits [ds] with the decimal point after
    [decpt] of them: exponent form when [decpt <= -4] or [decpt > 16]. *)
Definition layout (ds : string) (decpt : Z) : string :=
  let len := Z.of_nat (String.length ds) in
  if ((decpt <=? -4) || (16 <? decpt))%Z then
    let e := (decpt - 1)%Z in
    let mant := match ds with
                | String c EmptyString => String c EmptyString
                | String c rest => String c ("." ++ rest)
                | EmptyString => EmptyString
                end in
    let es := decimal (Z.abs e) in
    mant ++ "e" ++ (if (e <? 0)%Z then "-" else "+")
         ++ (if (Z.abs e <? 10)%Z then "0" ++ es else es)
  else if (decpt <=? 0)%Z then "0." ++ zeros (Z.to_nat (- decpt)) ++ ds
  else if (len <=? decpt)%Z then ds ++ zeros (Z.to_nat (decpt - len)) ++ ".0"
  else substring 0 (Z.to_nat decpt) ds ++ "."
       ++ substring (Z.to_nat decpt) (Z.to_nat (len - decpt)) ds.

(** [str(x)], which is [repr(x)] *)
Definition str_of_float (x : float) : string :=
  match Prim2SF x with
  | S754_nan => "nan"
  | S754_infinity s => if s then "-inf" else "inf"
  | S754_zero s => if s then "-0.0" else "0.0"
  | S754_finite s _ _ =>
      match exact x with
      | Some (_, num, den) =>
          let '(d, k) := shortest 16 1 (abs x) num den (ilog10 num den) in
          let '(d', k') := drop_zeros 20 d k in
          let ds := decimal d' in
          (if s then "-" else "") ++ layout ds (Z.of_nat (String.length ds) + k')
      | None => ""
      end
  end.

(** [f"{x:.2f}"] *)
Definition format_2f (x : float) : string :=
  match Prim2SF x with
  | S754_nan => "nan"
  | S754_infinity s => if s then "-inf" else "inf"
  | S754_zero s => if s then "-0.00" else "0.00"
  | S754_finite s _ _ =>
      match exact x with
      | Some (_, num, den) =>
          let n := round_half_even (scaled num den (-2)) in
          let frac := decimal (n mod 100) in
          (if s then "-" else "") ++ decimal (n / 100) ++ "."
            ++ (if (n mod 100 <? 10)%Z then "0" ++ frac else frac)
      | None => ""
      end
  end.

End PyRun.

(** The runtime used on concrete inputs. *)
#[global] Instance python : PyRuntime :=
  Build_PyRuntime PyRun.float_of_string PyRun.str_of_float PyRun.format_2f.

(** ** Sample inputs *)

Module Samples.
(** A scraped record with a price and a premarket change. *)
Definition apple : record :=
  {[ "symbol" := VStr "AAPL"; "price" := VStr "150.00"; "premarket_change" := VStr "3.00" ]}.

(** A record flagged as errored. *)
Definition broken : record :=
  {[ "symbol" := VStr "XYZ"; "error" := VStr "timeout" ]}.

(** The sentinel as [fetch_all_stocks] writes it. *)
Definition stats : record :=
  {[ "symbol" := VStr SENTINEL;
     "dynamic_scrape_total_seconds" := VStr "12.50";
     "dynamic_scrape_avg_seconds" := VStr "2.50" ]}.

(** The three records of the specification's ranking example. *)
Definition low : record :=
  {[ "symbol" := VStr "LOW"; "rsi" := VNum 25; PCT := VNum 5 ]}.
Definition high : record :=
  {[ "symbol" := VStr "HIGH"; "rsi" := VNum 80; PCT := VNum (-3) ]}.
Definition mid : record :=
  {[ "symbol" := VStr "MID"; "rsi" := VNum 50; PCT := VNum 5 ]}.
Definition ranking_input : list record := [low; high; mid].

(** Two records whose percent is a string that reads as a number, and one
    whose percent is the number. *)
Definition ten : record :=
  {[ "symbol" := VStr "TEN"; "rsi" := VNum 25; PCT := VStr "10.0" ]}.
Definition nine : record :=
  {[ "symbol" := VStr "NINE"; "rsi" := VNum 25; PCT := VStr "9.0" ]}.
Definition eight : record :=
  {[ "symbol" := VStr "EIGHT"; "rsi" := VNum 25; PCT := VNum 8 ]}.

(** Three long candidates and three short candidates with known percents. *)
Definition up3 : record := {[ "symbol" := VStr "U3"; "rsi" := VNum 20; PCT := VNum 3 ]}.
Definition up7 : record := {[ "symbol" := VStr "U7"; "rsi" := VNum 20; PCT := VNum 7 ]}.
Definition up5 : record := {[ "symbol" := VStr "U5"; "rsi" := VNum 20; PCT := VNum 5 ]}.
Definition down3 : record := {[ "symbol" := VStr "D3"; "rsi" := VNum 90; PCT := VNum (-3) ]}.
Definition down7 : record := {[ "symbol" := VStr "D7"; "rsi" := VNum 90; PCT := VNum (-7) ]}.
Definition down5 : record := {[ "symbol" := VStr "D5"; "rsi" := VNum 90; PCT := VNum (-5) ]}.

(** Records with a price of zero, a missing price and an unreadable price. *)
Definition free : record :=
  {[ "symbol" := VStr "FREE"; "price" := VStr "0"; "premarket_change" := VStr "1.00" ]}.
Definition unpriced : record :=
  {[ "symbol" := VStr "NOPX"; "price" := VStr "N/A"; "premarket_change" := VStr "1.00" ]}.
Definition garbled : record :=
  {[ "symbol" := VStr "GARB"; "price" := VStr "abc"; "premarket_change" := VStr "1.00" ]}.

(** An errored record that still carries indicator fields. *)
Definition stale : record :=
  {[ "symbol" := VStr "OLD"; "error" := VStr "stale";
     "rsi" := VNum 25; PCT := VNum 5 ]}.

(** Thresholds whose oscillator bands overlap and whose minimum move is
    zero, and a record in the overlap that did not move. *)
Definition loose : gmap string float :=
  {[ "RSI_LONG_MAX" := 40%float; "RSI_SHORT_MIN" := 60%float;
     "MIN_PREMARKET_CHANGE_PERCENT" := 0%float ]}.
Definition flat : record :=
  {[ "symbol" := VStr "FLAT"; "rsi" := VNum 50; PCT := VNum 0 ]}.

(** Indicator entries with a moving average of zero and of 1000.25, and
    scrape entries with a price of 5.00 and of 1,105.50. *)
Definition zero_average : record := {[ "rsi" := VNum 50; "sma" := VNum 0 ]}.
Definition some_average : record := {[ "rsi" := VNum 50; "sma" := VNum 1000.25 ]}.
Definition five_dollars : record :=
  {[ "price" := VStr "5.00"; "premarket_price" := VStr "N/A";
     "premarket_change" := VStr "N/A"; PCT := VStr "N/A" ]}.
Definition four_digits : record :=
  {[ "price" := VStr "1,105.50"; "premarket_price" := VStr "N/A";
     "premarket_change" := VStr "N/A"; PCT := VStr "N/A" ]}.

(** An analytics service that knows one recently listed symbol, on one
    exchange, with an oscillator value and no 20-day average yet. *)
Definition newco_service (variant exchange : string) : lookup :=
  if String.eqb variant "NEWCO" && String.eqb exchange "NASDAQ"
  then Analysis {[ "RSI" := VNum 55; "SMA20" := VNone ]}
  else NotFound.

(** A page on which every queried element is present. *)
Definition full_page (idx : nat) (symbol selector : string) : option string :=
  Some " 1.50 ".

(** A page that shows the live price only. *)
Definition price_only_page (idx : nat) (symbol selector : string) : option string :=
  if String.eqb selector SEL_PRICE then Some " 189.84 " else None.

(** A clock that advances one second per reading. *)
Definition steady_clock (k : nat) : float := float_of_Z (Z.of_nat k).
End Samples.

(** ** telegram.py: the opportunity message *)

Definition NEWLINE : string := String (ascii_of_nat 10) EmptyString.

Section Telegram.
Context `{PyRuntime}.

(** [f"{stock[k]:.2f}" if stock.get(k) is not None else "N/A"]; [None]
    when the format raises: only a number has the [f] format. *)
Definition number_or_na (stock : record) (k : string) : option string :=
  match dict_get stock k VNone with
  | VNone => Some "N/A"
  | VNum x => Some (format_2f x)
  | VStr _ => None
  end.

(** The [line] built for one [stock] in either loop of
    [send_opportunity_message]; [None] when building it raises
    ([KeyError] on [stock['symbol']] or [stock['price']], or the format). *)
Definition opportunity_line (stock : record) : option string :=
  match number_or_na stock "rsi" with
  | None => None
  | Some rsi_val =>
      match number_or_na stock "sma" with
      | None => None
      | Some sma_val =>
          let pmc_val := dict_get stock PCT (VStr "N/A") in
          match stock !! "symbol", stock !! "price" with
          | Some symbol, Some price =>
              Some (py_str symbol ++ " | Price: " ++ py_str price
                      ++ " | RSI: " ++ rsi_val ++ " | SMA: " ++ sma_val
                      ++ " | PreMkt%: " ++ py_str pmc_val)
          | _, _ => None
          end
      end
  end.

(** The lines appended for one of the two lists, which the code builds with
    the same statements: a header and one line per stock, or the line that
    says none was found. *)
Definition side_lines (header none_found : string) (stocks : list record)
  : option (list string) :=
  match stocks with
  | [] => Some [none_found]
  | _ :: _ =>
      match mapM opportunity_line stocks with
      | None => None
      | Some lines => Some (header :: lines)
      end
  end.

(** The list [lines] of [send_opportunity_message] for
    [opportunities = {"long": long, "short": short}]. *)
Definition opportunity_lines (long short : list record) : option (list string) :=
  match side_lines "**LONG Positions:**" "No LONG opportunities found." long with
  | None => None
  | Some long_lines =>
      match side_lines "**SHORT Positions:**" "No SHORT opportunities found." short with
      | None => None
      | Some short_lines =>
          Some ("Top Opportunities:" :: long_lines ++ "" :: short_lines)%list
      end
  end.

(** [message = "\n".join(lines)] *)
Definition opportunity_message (long short : list record) : option string :=
  String.concat NEWLINE <$> opportunity_lines long short.
End Telegram.

(** A record all of whose fields [send_opportunity_message] can print: it
    has a symbol and a price, and its [rsi] and [sma] are numbers or
    [None]. *)
Definition printable (stock : record) : Prop :=
  is_Some (stock !! "symbol") /\ is_Some (stock !! "price")
  /\ (forall s, dict_get stock "rsi" VNone <> VStr s)
  /\ (forall s, dict_get stock "sma" VNone <> VStr s).

(** ** startt.py: the two timers *)

(** A naive [datetime] is counted in microseconds; a day has this many. *)
Definition DAY : Z := 86400000000.

(** The time of day [hour:minute:00] in microseconds after midnight. *)
Definition time_of_day (hour minute : Z) : Z :=
  ((hour * 3600 + minute * 60) * 1000000)%Z.

(** [now.replace(hour=hour, minute=minute, second=0, microsecond=0)];
    [None] when it raises [ValueError]. *)
Definition replace_time (now hour minute : Z) : option Z :=
  if ((0 <=? hour) && (hour <? 24) && (0 <=? minute) && (minute <? 60))%Z
  then Some (now / DAY * DAY + time_of_day hour minute)%Z
  else None.

(** The delay [schedule_run] computes for one run, in microseconds
    ([total_seconds()] is this number divided by [10**6]): the time of the
    run today, or tomorrow [if run_time <= now]. *)
Definition run_delay (now hour minute : Z) : option Z :=
  match replace_time now hour minute with
  | None => None
  | Some run_time =>
      let run_time := if (run_time <=? now)%Z then (run_time + DAY)%Z else run_time in
      Some (run_time - now)%Z
  end.

(** What [schedule_run] does: both runs at once, or the timers it starts,
    in order, each with its delay, and whether it raised after them. *)
Inductive schedule : Type :=
  | RunBothNow
  | Timers (delays : list Z) (raised : bool).

(** [config.get("STATIC_ANALYSIS_HOUR", 9)] and the three other times. *)
Definition static_hour (config : gmap string Z) : Z :=
  default 9%Z (config !! "STATIC_ANALYSIS_HOUR").
Definition static_minute (config : gmap string Z) : Z :=
  default 0%Z (config !! "STATIC_ANALYSIS_MINUTE").
Definition dynamic_hour (config : gmap string Z) : Z :=
  default 14%Z (config !! "DYNAMIC_ANALYSIS_HOUR").
Definition dynamic_minute (config : gmap string Z) : Z :=
  default 15%Z (config !! "DYNAMIC_ANALYSIS_MINUTE").

(** [schedule_run()] at the time [now], for the [DEV_MODE] flag and the
    hours and minutes of [config]. *)
Definition schedule_run (dev_mode : bool) (config : gmap string Z) (now : Z) : schedule :=
  if dev_mode then RunBothNow
  else
    match run_delay now (static_hour config) (static_minute config) with
    | None => Timers [] true
    | Some static_delay =>
        match run_delay now (dynamic_hour config) (dynamic_minute config) with
        | None => Timers [static_delay] true
        | Some dynamic_delay => Timers [static_delay; dynamic_delay] false
        end
    end.

(** An hour and a minute that [replace] accepts. *)
Definition on_the_clock (hour minute : Z) : Prop :=
  (0 <= hour < 24)%Z /\ (0 <= minute < 60)%Z.

(** ** data_fetch.py: the rows of the CSV dump *)

Definition CSV_FIELDNAMES : list string :=
  ["symbol"; "price"; "rsi"; "sma"; "position";
   "premarket_price"; "premarket_change"; PCT;
   "dynamic_scrape_total_seconds"; "dynamic_scrape_avg_seconds"].

(** Every key of the row is a column. *)
Definition known_fields (row : record) : bool :=
  bool_decide (dom row ⊆ (list_to_set CSV_FIELDNAMES : gset string)).

Section DumpCsv.
Context `{PyRuntime}.

(** The text the csv writer gives a cell, before the quoting of the
    dialect: nothing for [None], [str] for a number, which is a float here
    (an [int] is written without the fraction). *)
Definition csv_field (v : value) : string :=
  match v with
  | VNone => ""
  | VNum x => str_of_float x
  | VStr s => s
  end.

(** [rowdict.get(key, self.restval) for key in self.fieldnames], each as
    the text of its cell. *)
Definition csv_cells (row : record) : list string :=
  (fun key => csv_field (dict_get row key (VStr ""))) <$> CSV_FIELDNAMES.

(** [DictWriter._dict_to_list] and the cells of the row: a key that is not
    a column raises [ValueError] ([None]), a missing column is empty. *)
Definition csv_row (row : record) : option (list string) :=
  if known_fields row then Some (csv_cells row) else None.

(** [writer.writerows(data)]: the rows written, in order, and whether a row
    raised; the rows before it are written, it and the rows after it are
    not. *)
Fixpoint writerows (data : list record) : list (list string) * bool :=
  match data with
  | [] => ([], false)
  | row :: rest =>
      match csv_row row with
      | None => ([], true)
      | Some cells =>
          let '(rows, raised) := writerows rest in (cells :: rows, raised)
      end
  end.

(** What [dump_data_to_csv(data)] writes: the header and the rows written
    to the file, and whether the [except] branch was taken. The file is
    taken to open and to be written without an error of the system.
    [Run.dump_data_to_csv] has the prints, which can raise. *)
Definition dump_data_to_csv (data : list record) : list (list string) * bool :=
  let '(rows, raised) := writerows data in (CSV_FIELDNAMES :: rows, raised).
End DumpCsv.

(** ** bot.py: the /set_config command *)

(** A value of the configuration file: a boolean, an integer, a float, a
    string, or anything else (null, an array, an object) by its JSON text. *)
Inductive jvalue : Type :=
  | JBool (b : bool)
  | JInt (n : Z)
  | JFloat (x : float)
  | JStr (s : string)
  | JOther (json : string).

Inductive reply : Type :=
  | Usage
  | Updated
  | PathNotFound
  | UpdateFailed
  | ParameterNotFound.

(** The new value has the kind of the old one; a value that is not a
    boolean, an integer or a float is replaced by a string. *)
Definition same_kind (current new : jvalue) : Prop :=
  match current, new with
  | JBool _, JBool _ => True
  | JInt _, JInt _ => True
  | JFloat _, JFloat _ => True
  | JStr _, JStr _ => True
  | JOther _, JStr _ => True
  | _, _ => False
  end.

Section SetConfig.
Context `{PyRuntime}.
(** [int(s)] for a string [s]; [None] when it raises [ValueError]. *)
Variable int_of_string : string -> option Z.

(** The value assigned to [config[param]], by the type of the current one;
    [None] when [int] or [float] raises. *)
Definition converted (current_value : jvalue) (value : string) : option jvalue :=
  match current_value with
  | JBool _ => Some (JBool (String.eqb (PyRun.lower value) "true"))
  | JInt _ => JInt <$> int_of_string value
  | JFloat _ => JFloat <$> float_of_string value
  | _ => Some (JStr value)
  end.

(** [set_config(update, context)] for [context.args = args], the loaded
    [config] and whether [get_stored_config_path()] finds a path: the
    configuration written to the file, if any, and the reply. The file is
    taken to open and to be written without an error of the system. *)
Definition set_config (args : list string) (config : gmap string jvalue)
  (path_found : bool) : option (gmap string jvalue) * reply :=
  match args with
  | [param; value] =>
      match config !! param with
      | Some current_value =>
          match converted current_value value with
          | None => (None, UpdateFailed)
          | Some new_value =>
              if path_found
              then (Some (<[param := new_value]> config), Updated)
              else (None, PathNotFound)
          end
      | None => (None, ParameterNotFound)
      end
  | _ => (None, Usage)
  end.
End SetConfig.

(** [int(s)] on concrete strings: white space around, a sign, decimal
    digits with single underscores between them. *)
Definition python_int (s : string) : option Z :=
  let '(neg, body) := PyRun.sign (PyRun.strip_number s) in
  match PyRun.digitpart 0 body with
  | Some (n, _, EmptyString) => Some (if neg then (- n)%Z else n)
  | _ => None
  end.

(** ** More sample inputs *)

Module MoreSamples.
(** An analytics service that knows a class-A share only under its dotted
    name, on the second exchange; the dotted name fails on the first
    exchange for another reason. *)
Definition brk_service (variant exchange : string) : lookup :=
  if String.eqb variant "BRK.A" && String.eqb exchange "NYSE"
  then Analysis {[ "RSI" := VNum 61.5; "SMA20" := VNum 480000 ]}
  else if String.eqb variant "BRK.A" then Failure
  else NotFound.

(** The same service, which also answers for an exchange that is never
    asked. *)
Definition brk_service_elsewhere (variant exchange : string) : lookup :=
  if String.eqb exchange "LSE" then Analysis {[ "RSI" := VNum 1; "SMA20" := VNum 1 ]}
  else brk_service variant exchange.

(** A page whose live price depends on the iteration that reads it. *)
Definition ticking_page (idx : nat) (symbol selector : string) : option string :=
  if String.eqb selector SEL_PRICE
  then Some (if Nat.eqb idx 1 then "100.00" else "101.00")
  else None.

(** A page that shows a premarket percent the way the chart prints it. *)
Definition percent_page (idx : nat) (symbol selector : string) : option string :=
  if String.eqb selector SEL_PM_PERCENT then Some " +1.23% "
  else if String.eqb selector SEL_PRICE then Some "189.84"
  else None.

(** A page that shows a premarket percent without a sign or a unit. *)
Definition plain_percent_page (idx : nat) (symbol selector : string) : option string :=
  if String.eqb selector SEL_PM_PERCENT then Some "5.10"
  else if String.eqb selector SEL_PRICE then Some "189.84"
  else None.

(** A long candidate as the ranker passes it on, and the lines of the
    message that lists it alone. *)
Definition long_pick : record :=
  {[ "symbol" := VStr "AAPL"; "price" := VStr "189.84"; "rsi" := VNum 25;
     "sma" := VNone; PCT := VStr "5.10" ]}.
Definition long_pick_lines : list string :=
  ["Top Opportunities:";
   "**LONG Positions:**";
   "AAPL | Price: 189.84 | RSI: 25.00 | SMA: N/A | PreMkt%: 5.10";
   "";
   "No SHORT opportunities found."].

(** A configuration file with a value of each kind. *)
Definition settings : gmap string jvalue :=
  {[ "DEV_MODE" := JBool false; "RSI_LONG_MAX" := JInt 70;
     "MIN_PREMARKET_CHANGE_PERCENT" := JFloat 2; "TELEGRAM_CHAT_ID" := JStr "42";
     "STOCK_LISTS" := JOther "{}" ]}.

(** Ten in the morning, in microseconds after midnight. *)
Definition ten_o_clock : Z := 36000000000.
End MoreSamples.

(** * The calls that can raise *)

(** What the functions ask of the libraries around them, where the answer
    decides whether they return: the text of an exception they print, the
    pause, and the console. rich reads the text it is given as markup, so
    that [console.print] raises [MarkupError] on a text with a closing tag
    that closes nothing; [time.sleep] raises on a negative number and on a
    value that is not a number. The functions are stated over any such
    library. *)
Class Library : Type := {
  (** [str(e)] for the [ValueError] that [float(s)] raises *)
  float_error : string -> string;
  (** [str(e)] for the [ValueError] that [DictWriter] raises on a row with
      a field that is not a column *)
  fields_error : record -> string;
  (** whether [time.sleep(secs)] returns *)
  sleep : value -> bool;
  (** [console.print(text)]: [None] when it returns, [Some message] when it
      raises a [MarkupError] [e] with [str(e) = message] *)
  console_print : string -> option string
}.

(** [console.print(text)] returns. *)
Definition prints `{Library} (text : string) : bool :=
  match console_print text with None => true | Some _ => false end.

(** [str(n)] for a length or an index. *)
Definition str_of_nat (n : nat) : string := NilZero.string_of_uint (Nat.to_uint n).

Module Run.

(** ** data_filterPM.py: the loop of the normalizer, with its handler *)

Section FilterPremarket.
Context `{PyRuntime} `{Library}.

(** The line the [except] branch prints for [stock] when [float] raised on
    [text]. *)
Definition handler_line (stock : record) (text : string) : string :=
  "[red]Error filtering " ++ py_str (dict_get stock "symbol" VNone) ++ ": "
    ++ float_error text ++ "[/red]".

(** One iteration of the loop: [Some (Some s)] when [s] is appended,
    [Some None] when the iteration ends in [continue] without appending,
    [None] when the print of the handler raises, which ends the loop and
    the function. Of the statements of the [try] only [float] can raise. *)
Definition normalize_stock (stock : record) : option (option record) :=
  if is_sentinel stock then Some (Some stock)
  else if has_error stock then Some None
  else
    let price_str := stripped_field stock "price" in
    let change_str := stripped_field stock "premarket_change" in
    if String.eqb (upper price_str) "N/A" || String.eqb (upper change_str) "N/A"
    then Some (Some (<[PCT := VStr "N/A"]> stock))
    else
      match float_of_string price_str with
      | None => if prints (handler_line stock price_str) then Some None else None
      | Some price =>
          match float_of_string change_str with
          | None => if prints (handler_line stock change_str) then Some None else None
          | Some change =>
              if negb (PrimFloat.eqb price 0)
              then Some (Some (<[PCT := VNum (PrimFloat.mul (PrimFloat.div change price) 100)]>
                                 stock))
              else Some (Some (<[PCT := VStr "N/A"]> stock))
          end
      end.

(** [for stock in data], on the list [filtered]. *)
Fixpoint filter_loop (data filtered : list record) : option (list record) :=
  match data with
  | [] => Some filtered
  | stock :: rest =>
      match normalize_stock stock with
      | None => None
      | Some None => filter_loop rest filtered
      | Some (Some s) => filter_loop rest (filtered ++ [s])
      end
  end.

(** Lines 22 to 45 of [filter_premarket_data], on the loaded [data]: the
    list [filtered] at the end of the loop, or [None] when the loop
    raises. *)
Definition filter_premarket_data (data : list record) : option (list record) :=
  filter_loop data [].
End FilterPremarket.

(** ** data_fetch.py: the scraper, with its session, prints and pauses *)

Section FetchDynamic.
Context `{PyRuntime} `{Library} {Cookies : Type}.
(** The session: the page opened with the cookies, as what
    [page.query_selector] finds in iteration [idx] after [symbol] was typed,
    or [None] when starting the browser, adding the cookies or loading the
    chart raises; the calls on the opened page are taken to return. *)
Variable launch : Cookies -> option (nat -> string -> string -> option string).
Variable clock : nat -> float.

(** The line printed after a symbol is scraped. *)
Definition progress_line (idx total : nat) (symbol : string) (entry : record)
  (stock_time : float) : string :=
  "(" ++ str_of_nat idx ++ "/" ++ str_of_nat total ++ ") " ++ symbol
    ++ " => Price: " ++ py_str (dict_get entry "price" VNone)
    ++ ", PM: " ++ py_str (dict_get entry "premarket_price" VNone)
    ++ ", PM%: " ++ py_str (dict_get entry PCT VNone)
    ++ ", Time: " ++ format_2f stock_time ++ "s".

(** [for idx, symbol in enumerate(stock_list, start=1)], on
    [(dynamic_results, total_fetch_time)] and the number of clock readings
    made so far; [total] is [len(stock_list)]. [None] when the print or the
    pause of an iteration raises. *)
Fixpoint scrape_loop (page : nat -> string -> string -> option string)
  (wait_time : value) (total idx : nat) (stock_list : list string)
  (st : gmap string record * float * nat) : option (gmap string record * float * nat) :=
  match stock_list with
  | [] => Some st
  | symbol :: rest =>
      let '(dynamic_results, total_fetch_time, reads) := st in
      let start_time_per_stock := clock reads in
      let entry := scrape_record (page idx symbol) in
      let stock_time := PrimFloat.sub (clock (S reads)) start_time_per_stock in
      if prints (progress_line idx total symbol entry stock_time) then
        if sleep wait_time then
          scrape_loop page wait_time total (S idx) rest
            (<[symbol := entry]> dynamic_results,
             PrimFloat.add total_fetch_time stock_time,
             S (S reads))
        else None
      else None
  end.

(** The two lines printed after the loop. *)
Definition summary_lines (total : nat) (overall_time avg_time_per_stock : float)
  : list string :=
  ["[green]Analyzed " ++ str_of_nat total ++ " stocks in " ++ format_2f overall_time
     ++ " seconds total.[/green]";
   "[green]Average fetch time per stock: " ++ format_2f avg_time_per_stock
     ++ "s[/green]"].

(** The lines the loop prints when none of them and no pause raises, from
    iteration [idx] and [reads] clock readings on. *)
Fixpoint progress_lines (page : nat -> string -> string -> option string)
  (total idx : nat) (stock_list : list string) (reads : nat) : list string :=
  match stock_list with
  | [] => []
  | symbol :: rest =>
      progress_line idx total symbol (scrape_record (page idx symbol))
        (PrimFloat.sub (clock (S reads)) (clock reads))
      :: progress_lines page total (S idx) rest (S (S reads))
  end.

(** All the lines of a scrape that returns: those of the loop and the two
    after it. *)
Definition printed_lines (page : nat -> string -> string -> option string)
  (stock_list : list string) : list string :=
  (progress_lines page (length stock_list) 1 stock_list 1
   ++ match fetch_dynamic_data page clock stock_list with
      | Some (_, overall_time, avg_time_per_stock) =>
          summary_lines (length stock_list) overall_time avg_time_per_stock
      | None => []
      end)%list.

(** [fetch_dynamic_data(stock_list, cookies, wait_time)]:
    [(dynamic_results, overall_time, avg_time_per_stock)], or [None] when
    it raises. *)
Definition fetch_dynamic_data (stock_list : list string) (cookies : Cookies)
  (wait_time : value) : option (gmap string record * float * float) :=
  let overall_start_time := clock 0 in
  match launch cookies with
  | None => None
  | Some page =>
      match scrape_loop page wait_time (length stock_list) 1 stock_list
              (∅, 0%float, 1%nat) with
      | None => None
      | Some (dynamic_results, total_fetch_time, reads) =>
          let overall_time := PrimFloat.sub (clock reads) overall_start_time in
          match (match stock_list with
                 | [] => Some 0%float
                 | _ :: _ => py_truediv_int total_fetch_time (Z.of_nat (length stock_list))
                 end) with
          | None => None
          | Some avg_time_per_stock =>
              if forallb prints
                   (summary_lines (length stock_list) overall_time avg_time_per_stock)
              then Some (dynamic_results, overall_time, avg_time_per_stock)
              else None
          end
      end
  end.

Variable get_analysis : string -> string -> lookup.

(** [fetch_all_stocks(stock_list, cookies, wait_time)]; [None] when the
    scrape raises. *)
Definition fetch_all_stocks (stock_list : list string) (cookies : Cookies)
  (wait_time : value) : option (list record) :=
  let static_data := fetch_static_data get_analysis stock_list in
  match fetch_dynamic_data stock_list cookies wait_time with
  | None => None
  | Some (dynamic_data, dyn_total, dyn_avg) =>
      Some (merge_results stock_list static_data dynamic_data
              ++ [stats_record dyn_total dyn_avg])%list
  end.
End FetchDynamic.

(** ** data_fetch.py: the CSV dump, with its prints *)

Section DumpCsv.
Context `{PyRuntime} `{Library}.

(** [writer.writerows(data)]: the rows written, in order, and the row on
    which [ValueError] was raised, if any; the rows before it are written,
    it and the rows after it are not. *)
Fixpoint writerows (data : list record) : list (list string) * option record :=
  match data with
  | [] => ([], None)
  | row :: rest =>
      match csv_row row with
      | None => ([], Some row)
      | Some cells =>
          let '(rows, bad) := writerows rest in (cells :: rows, bad)
      end
  end.

(** The print of the [except] branch for an exception [e] with
    [str(e) = message]. *)
Definition handler_prints (message : string) : bool :=
  prints ("[red]Error dumping CSV: " ++ message ++ "[/red]").

(** [dump_data_to_csv(data, filename)]: the header and the rows written to
    the file, and whether the function returns; it raises when the print
    of its handler does. The print of the success is inside the [try], so
    that its [MarkupError] goes to the handler too. The file is taken to
    open and to be written without an error of the system. *)
Definition dump_data_to_csv (data : list record) (filename : string)
  : list (list string) * bool :=
  let '(rows, bad) := writerows data in
  (CSV_FIELDNAMES :: rows,
   match bad with
   | Some row => handler_prints (fields_error row)
   | None =>
       match console_print ("[green]Data dumped to CSV: " ++ filename ++ "[/green]") with
       | None => true
       | Some message => handler_prints message
       end
   end).
End DumpCsv.
End Run.

(** ** Sample libraries, pages and records *)

Module RunSamples.
(** The text of the [ValueError] of [float] for a string without quotes,
    backslashes or control characters. *)
Definition float_error (s : string) : string :=
  "could not convert string to float: '" ++ s ++ "'".

(** The text of the [ValueError] of [DictWriter] for a row with one field
    that is not a column. *)
Definition fields_error (row : record) : string :=
  "dict contains fields not in fieldnames: "
    ++ String.concat ", "
         ((fun key => "'" ++ key ++ "'")
            <$> elements (dom row ∖ (list_to_set CSV_FIELDNAMES : gset string))).

(** A pause that returns for a number that is not negative. *)
Definition sleep (secs : value) : bool :=
  match secs with
  | VNum x => PrimFloat.leb 0 x
  | _ => false
  end.

(** A console that raises, as that of rich does, on the closing tag [[/x]]
    in a text that opens no tag [[x]], and prints every other text of
    these samples. *)
Definition console_print (text : string) : option string :=
  match index 0 "[/x]" text with
  | Some position =>
      Some ("closing tag '[/x]' at position " ++ str_of_nat position
              ++ " doesn't match any open tag")
  | None => None
  end.

#[global] Instance library : Library :=
  Build_Library float_error fields_error sleep console_print.

(** A browser that opens whatever the cookies, on the given page. *)
Definition launch (page : nat -> string -> string -> option string) (cookies : unit)
  : option (nat -> string -> string -> option string) := Some page.

(** A browser that does not start. *)
Definition no_browser (cookies : unit)
  : option (nat -> string -> string -> option string) := None.

(** A no-break space, U+00A0, in UTF-8. *)
Definition NBSP : string := String (ascii_of_nat 194) (String (ascii_of_nat 160) "").

(** A page whose price is set between no-break spaces and whose premarket
    percent ends in a line feed; it shows no premarket price. *)
Definition padded_page (idx : nat) (symbol selector : string) : option string :=
  if String.eqb selector SEL_PRICE then Some (NBSP ++ "189.84" ++ NBSP)
  else if String.eqb selector SEL_PM_PERCENT then Some (" +1.23%" ++ NEWLINE)
  else None.

(** A page whose price reads as a closing tag. *)
Definition markup_page (idx : nat) (symbol selector : string) : option string :=
  if String.eqb selector SEL_PRICE then Some "[/x]" else None.

(** A record whose price reads as a closing tag. *)
Definition markup : record :=
  {[ "symbol" := VStr "MRK"; "price" := VStr "[/x]"; "premarket_change" := VStr "1.00" ]}.

(** A record with a field that is no column and reads as a closing tag. *)
Definition tagged : record :=
  {[ "symbol" := VStr "TAG"; "[/x]" := VStr "1" ]}.

(** A price with a thousands separator, and a change that is a sixty-fourth
    of it. *)
Definition thousand : record :=
  {[ "symbol" := VStr "BKNG"; "price" := VStr "1,024.00";
     "premarket_change" := VStr "16.00" ]}.

(** A change spelled in lower case. *)
Definition lower_case : record :=
  {[ "symbol" := VStr "QT"; "price" := VStr "10.00"; "premarket_change" := VStr "n/a" ]}.
End RunSamples.

(** * Properties *)

(** ** The runtime and the pipeline on the examples of the specification *)

Example float_of_string_examples :
  PyRun.float_of_string "150.00" = Some 150%float
  /\ PyRun.float_of_string " 1,105.50" = None
  /\ PyRun.float_of_string "1105.50" = Some 1105.5%float
  /\ PyRun.float_of_string "-2.5e-1" = Some (-0.25)%float
  /\ PyRun.float_of_string "abc" = None
  /\ PyRun.float_of_string "N/A" = None
  /\ PyRun.float_of_string "+1.23%" = None.
Proof. repeat split; vm_compute; reflexivity. Qed.

Example str_of_float_examples :
  PyRun.str_of_float 0 = "0.0"
  /\ PyRun.str_of_float 1000.25 = "1000.25"
  /\ option_map PyRun.str_of_float (PyRun.float_of_string "0.1") = Some "0.1"
  /\ PyRun.str_of_float 1e22 = "1e+22"
  /\ option_map PyRun.format_2f (PyRun.float_of_string "12.345") = Some "12.35"
  /\ PyRun.format_2f 0 = "0.00".
Proof. repeat split; vm_compute; reflexivity. Qed.

(** Price 150.00 and change 3.00 give 2.0; a price of zero and a price of
    ["N/A"] give ["N/A"]; an unreadable price drops the record. *)
Example filter_premarket_data_examples :
  filter_premarket_data [Samples.apple; Samples.free; Samples.unpriced; Samples.garbled]
  = [<[PCT := VNum 2]> Samples.apple;
     <[PCT := VStr "N/A"]> Samples.free;
     <[PCT := VStr "N/A"]> Samples.unpriced].
Proof. reflexivity. Qed.

(** With the default thresholds: oscillator 25 and percent 5.0 is long,
    oscillator 80 and percent -3.0 is short, oscillator 50 is neither. *)
Example filter_opportunities_examples :
  filter_opportunities ∅ Samples.ranking_input = Some ([Samples.low], [Samples.high]).
Proof. reflexivity. Qed.

(** Three records of known percents on each side: long descends, short
    ascends. *)
Example filter_opportunities_order_examples :
  filter_opportunities ∅ [Samples.up3; Samples.down3; Samples.up7;
                          Samples.down7; Samples.up5; Samples.down5]
  = Some ([Samples.up7; Samples.up5; Samples.up3],
          [Samples.down7; Samples.down5; Samples.down3]).
Proof. reflexivity. Qed.

(** ** The premarket normalizer *)

Section FilterPremarketFacts.
Context `{PyRuntime}.

Lemma filter_premarket_loop (data filtered : list record) :
  foldl (fun (filtered : list record) stock =>
           match normalize_stock stock with
           | Some s => (filtered ++ [s])%list
           | None => filtered
           end) filtered data
  = (filtered ++ omap normalize_stock data)%list.
Proof.
  revert filtered.
  induction data as [|stock data IH]; intros filtered; simpl.
  - by rewrite app_nil_r.
  - rewrite IH. destruct (normalize_stock stock); [|done].
    by rewrite <- app_assoc.
Qed.

(** The output is the list of what the iterations append, in order. *)
Lemma filter_premarket_data_omap (data : list record) :
  filter_premarket_data data = omap normalize_stock data.
Proof. unfold filter_premarket_data. by rewrite filter_premarket_loop. Qed.

Lemma filter_premarket_data_kept (pre post : list record) (stock s : record) :
  normalize_stock stock = Some s ->
  filter_premarket_data (pre ++ stock :: post)
  = (filter_premarket_data pre ++ s :: filter_premarket_data post)%list.
Proof.
  intros Hs. rewrite !filter_premarket_data_omap, omap_app. simpl.
  by rewrite Hs.
Qed.

Lemma filter_premarket_data_dropped (pre post : list record) (stock : record) :
  normalize_stock stock = None ->
  filter_premarket_data (pre ++ stock :: post)
  = (filter_premarket_data pre ++ filter_premarket_data post)%list.
Proof.
  intros Hs. rewrite !filter_premarket_data_omap, omap_app. simpl.
  by rewrite Hs.
Qed.

End FilterPremarketFacts.

(** C5, as stated, fails: an errored record is not in the output. *)
Lemma errored_record_not_passed_through :
  ~ (forall (data : list record) (stock : record),
        stock ∈ data ->
        is_sentinel stock = true \/ has_error stock = true ->
        stock ∈ filter_premarket_data data).
Proof.
  intros Hclaim.
  specialize (Hclaim [Samples.broken] Samples.broken).
  assert (Hout : filter_premarket_data [Samples.broken] = []) by reflexivity.
  rewrite Hout in Hclaim.
  eapply not_elem_of_nil, Hclaim.
  - apply list_elem_of_here.
  - right. reflexivity.
Qed.

Section FilterPremarketSkips.
Context `{PyRuntime}.

(** C5, amended. The sentinel is in the output, unchanged, at its place;
    an errored record that is not the sentinel is left out. *)
Theorem filter_premarket_data_skips (pre post : list record) (stock : record) :
  (is_sentinel stock = true ->
   filter_premarket_data (pre ++ stock :: post)
   = (filter_premarket_data pre ++ stock :: filter_premarket_data post)%list)
  /\ (is_sentinel stock = false -> has_error stock = true ->
      filter_premarket_data (pre ++ stock :: post)
      = (filter_premarket_data pre ++ filter_premarket_data post)%list).
Proof.
  split.
  - intros Hsent. apply filter_premarket_data_kept.
    unfold normalize_stock. by rewrite Hsent.
  - intros Hsent Herr. apply filter_premarket_data_dropped.
    unfold normalize_stock. by rewrite Hsent, Herr.
Qed.
End FilterPremarketSkips.

(** The sentinel followed by an errored record: the sentinel stays. *)
Lemma filter_premarket_data_skips_witness :
  filter_premarket_data [Samples.stats; Samples.broken] = [Samples.stats].
Proof.
  destruct (filter_premarket_data_skips [] [Samples.broken] Samples.stats) as [Hsent _].
  simpl app in Hsent. rewrite Hsent by reflexivity.
  destruct (filter_premarket_data_skips [] [] Samples.broken) as [_ Herr].
  simpl app in Herr. rewrite Herr; reflexivity.
Defined.

(** ** Order of binary64 floats *)

Ltac cmp_specs :=
  repeat match goal with
    | H : context [Z.compare ?a ?b] |- _ => destruct (Z.compare_spec a b); simpl in H
    | |- context [Z.compare ?a ?b] => destruct (Z.compare_spec a b); simpl
    | H : context [Pos.compare_cont Eq ?a ?b] |- _ =>
        change (Pos.compare_cont Eq a b) with (Pos.compare a b) in H;
        destruct (Pos.compare_spec a b); simpl in H
    | |- context [Pos.compare_cont Eq ?a ?b] =>
        change (Pos.compare_cont Eq a b) with (Pos.compare a b);
        destruct (Pos.compare_spec a b); simpl
    end.

Ltac sf_cases :=
  unfold SFltb, SFleb, SFcompare in *;
  repeat match goal with
    | b : bool |- _ => destruct b
    end;
  simpl in *; try discriminate; try reflexivity;
  cmp_specs; try discriminate; try reflexivity; try lia.

Lemma SFltb_leb_trans (x y z : spec_float) :
  SFltb x y = true -> SFleb y z = true -> SFltb x z = true.
Proof. destruct x, y, z; intros Hxy Hyz; sf_cases. Qed.

Lemma SFleb_trans (x y z : spec_float) :
  SFleb x y = true -> SFleb y z = true -> SFleb x z = true.
Proof. destruct x, y, z; intros Hxy Hyz; sf_cases. Qed.

Lemma SFltb_irrefl (x : spec_float) : SFltb x x = false.
Proof. destruct x; sf_cases. Qed.

Lemma SFltb_leb (x y : spec_float) : SFltb x y = true -> SFleb x y = true.
Proof. destruct x, y; intros Hxy; sf_cases. Qed.

Lemma SFleb_total (x y : spec_float) :
  SFleb x x = true -> SFleb y y = true -> SFltb x y = false -> SFleb y x = true.
Proof. destruct x, y; intros Hx Hy Hxy; sf_cases. Qed.

Lemma SFleb_refl_l (x y : spec_float) : SFleb x y = true -> SFleb x x = true.
Proof. destruct x, y; intros Hxy; sf_cases. Qed.

Lemma SFleb_refl_r (x y : spec_float) : SFleb x y = true -> SFleb y y = true.
Proof. destruct x, y; intros Hxy; sf_cases. Qed.

(** No float is at least a positive float and at most its opposite. *)
Lemma SFleb_between_opp (m p : spec_float) :
  SFltb (S754_zero false) m = true -> SFleb m p = true -> SFleb p (SFopp m) = true -> False.
Proof. destruct m, p; intros Hm Hmp Hpm; sf_cases. Qed.

Lemma ltb_leb_trans (x y z : float) :
  PrimFloat.ltb x y = true -> PrimFloat.leb y z = true -> PrimFloat.ltb x z = true.
Proof. rewrite !ltb_spec, leb_spec. apply SFltb_leb_trans. Qed.

Lemma leb_trans (x y z : float) :
  PrimFloat.leb x y = true -> PrimFloat.leb y z = true -> PrimFloat.leb x z = true.
Proof. rewrite !leb_spec. apply SFleb_trans. Qed.

Lemma ltb_irrefl (x : float) : PrimFloat.ltb x x = false.
Proof. rewrite ltb_spec. apply SFltb_irrefl. Qed.

Lemma ltb_leb (x y : float) : PrimFloat.ltb x y = true -> PrimFloat.leb x y = true.
Proof. rewrite ltb_spec, leb_spec. apply SFltb_leb. Qed.

(** Two floats that are not NaN compare one way or the other. *)
Lemma leb_total (x y : float) :
  PrimFloat.leb x x = true -> PrimFloat.leb y y = true ->
  PrimFloat.ltb x y = false -> PrimFloat.leb y x = true.
Proof. rewrite ltb_spec, !leb_spec. apply SFleb_total. Qed.

Lemma leb_refl_l (x y : float) : PrimFloat.leb x y = true -> PrimFloat.leb x x = true.
Proof. rewrite !leb_spec. apply SFleb_refl_l. Qed.

Lemma leb_refl_r (x y : float) : PrimFloat.leb x y = true -> PrimFloat.leb y y = true.
Proof. rewrite !leb_spec. apply SFleb_refl_r. Qed.

Lemma leb_between_opp (m p : float) :
  PrimFloat.ltb 0 m = true -> PrimFloat.leb m p = true ->
  PrimFloat.leb p (PrimFloat.opp m) = true -> False.
Proof.
  rewrite ltb_spec, !leb_spec, opp_spec.
  change (Prim2SF 0) with (S754_zero false).
  apply SFleb_between_opp.
Qed.

(** ** The opportunity ranker *)

Lemma insert_keyed_Permutation (x : value * record) (l r : list (value * record)) :
  insert_keyed x l = Some r -> r ≡ₚ x :: l.
Proof.
  revert r. induction l as [|y l IH]; intros r; simpl.
  - by intros [= <-].
  - destruct (py_lt x.1 y.1) as [[]|]; [by intros [= <-] | | done].
    destruct (insert_keyed x l) as [r'|]; [|done].
    intros [= <-]. rewrite (IH r' eq_refl). apply Permutation_swap.
Qed.

Lemma sort_keyed_loop_Permutation (l s r : list (value * record)) :
  foldl (fun acc x => match acc with None => None | Some s => insert_keyed x s end)
        (Some s) l = Some r ->
  r ≡ₚ s ++ l.
Proof.
  revert s. induction l as [|x l IH]; intros s; simpl.
  - intros [= <-]. by rewrite app_nil_r.
  - destruct (insert_keyed x s) as [s'|] eqn:Hins.
    + intros Hr. rewrite (IH _ Hr), (insert_keyed_Permutation _ _ _ Hins).
      simpl. apply Permutation_middle.
    + intros Hr. exfalso. clear -Hr. induction l; simpl in Hr; [done | auto].
Qed.

Lemma sort_keyed_Permutation (l r : list (value * record)) :
  sort_keyed l = Some r -> r ≡ₚ l.
Proof. apply sort_keyed_loop_Permutation. Qed.

Lemma keyed_records (l : list record) (keyed : list (value * record)) :
  mapM (fun x => match sort_key x with None => None | Some k => Some (k, x) end) l
  = Some keyed ->
  snd <$> keyed = l.
Proof.
  intros Hk. apply mapM_Some_1 in Hk.
  induction Hk as [|x y l k Hxy _ IH]; [done|].
  rewrite fmap_cons, IH. f_equal.
  destruct (sort_key x); [|done]. by injection Hxy as <-.
Qed.

(** What [sorted] returns has the elements of its argument. *)
Lemma py_sorted_Permutation (reversed : bool) (l r : list record) :
  py_sorted reversed l = Some r -> r ≡ₚ l.
Proof.
  unfold py_sorted.
  destruct (mapM _ l) as [keyed|] eqn:Hk; [|done].
  destruct (sort_keyed _) as [s|] eqn:Hs; [|done].
  intros [= <-]. apply sort_keyed_Permutation in Hs.
  rewrite <- (keyed_records _ _ Hk).
  apply fmap_Permutation.
  destruct reversed; [|done].
  by rewrite reverse_Permutation, Hs, reverse_Permutation.
Qed.

Section FilterOpportunitiesFacts.
Context `{PyRuntime}.
Variable config : gmap string float.

Lemma candidates_loop (data long short : list record) :
  foldl (fun '(long, short) stock =>
           let '(is_long, is_short) := classify_stock config stock in
           ((if is_long then long ++ [stock] else long)%list,
            (if is_short then short ++ [stock] else short)%list))
        (long, short) data
  = ((long ++ List.filter (fun s => fst (classify_stock config s)) data)%list,
     (short ++ List.filter (fun s => snd (classify_stock config s)) data)%list).
Proof.
  revert long short.
  induction data as [|stock data IH]; intros long short; simpl.
  - by rewrite !app_nil_r.
  - destruct (classify_stock config stock) as [[] []]; simpl;
      rewrite IH, <- ?app_assoc; reflexivity.
Qed.

Lemma elem_of_long_candidates (data : list record) (stock : record) :
  stock ∈ long_candidates config data
  <-> stock ∈ data /\ fst (classify_stock config stock) = true.
Proof.
  unfold long_candidates, candidates. rewrite candidates_loop. simpl.
  by rewrite !list_elem_of_In, filter_In.
Qed.

Lemma elem_of_short_candidates (data : list record) (stock : record) :
  stock ∈ short_candidates config data
  <-> stock ∈ data /\ snd (classify_stock config stock) = true.
Proof.
  unfold short_candidates, candidates. rewrite candidates_loop. simpl.
  by rewrite !list_elem_of_In, filter_In.
Qed.

(** The returned lists are the candidate lists, reordered. *)
Lemma filter_opportunities_Permutation (data long short : list record) :
  filter_opportunities config data = Some (long, short) ->
  long ≡ₚ long_candidates config data /\ short ≡ₚ short_candidates config data.
Proof.
  unfold filter_opportunities.
  destruct (py_sorted true _) as [l|] eqn:Hl; [|done].
  destruct (py_sorted false _) as [s|] eqn:Hs; [|done].
  intros [= <- <-]. eauto using py_sorted_Permutation.
Qed.

Lemma classify_stock_numeric (stock : record) (r p : float) :
  is_sentinel stock = false ->
  has_error stock = false ->
  py_float (dict_get stock "rsi" VNone) = Some r ->
  value_is_str (dict_get stock PCT VNone) "N/A" = false ->
  py_float (dict_get stock PCT VNone) = Some p ->
  classify_stock config stock
  = (PrimFloat.ltb r (rsi_short_min config) && PrimFloat.leb (min_pm_change config) p,
     PrimFloat.ltb (rsi_long_max config) r
     && PrimFloat.leb p (PrimFloat.opp (min_pm_change config))).
Proof.
  intros Hsent Herr Hr Hna Hp. unfold classify_stock.
  rewrite Hsent, Herr, Hr, Hna, Hp.
  destruct (dict_get stock "rsi" VNone) eqn:Hrsi; [done | |];
    (destruct (dict_get stock PCT VNone) eqn:Hpct; [done | |]); simpl;
    by destruct (PrimFloat.ltb r _), (PrimFloat.ltb _ r).
Qed.

Lemma classify_stock_excluded (stock : record) :
  is_none (dict_get stock "rsi" VNone) = true
  \/ is_none (dict_get stock PCT VNone) = true
  \/ value_is_str (dict_get stock PCT VNone) "N/A" = true
  \/ py_float (dict_get stock PCT VNone) = None ->
  classify_stock config stock = (false, false).
Proof.
  intros Hex. unfold classify_stock.
  destruct (is_sentinel stock); [done|]. destruct (has_error stock); [done|].
  destruct Hex as [-> | [-> | [-> | Hp]]]; simpl; rewrite ?andb_false_r; try done.
  rewrite Hp. simpl.
  destruct (_ && _); [|done].
  destruct (py_float (dict_get stock "rsi" VNone)) as [r|]; [|done].
  destruct (PrimFloat.ltb r _); [done|].
  by destruct (PrimFloat.ltb _ r).
Qed.

Lemma ranked_by_classify (data : list record) (stock : record) (is_long is_short : Prop) :
  (stock ∈ data /\ fst (classify_stock config stock) = true <-> is_long) ->
  (stock ∈ data /\ snd (classify_stock config stock) = true <-> is_short) ->
  ranked config data stock is_long is_short.
Proof.
  intros Hlong Hshort. split.
  - split; [by rewrite elem_of_long_candidates | by rewrite elem_of_short_candidates].
  - intros long short [Hl Hs]%filter_opportunities_Permutation.
    split; [rewrite Hl | rewrite Hs];
      [by rewrite elem_of_long_candidates | by rewrite elem_of_short_candidates].
Qed.

(** C2, amended. A record of the input that is neither the sentinel nor
    errored, whose oscillator value reads as the float [r] and whose
    premarket percent is not ["N/A"] and reads as the float [p], is a long
    candidate exactly when [r < rsi_short_min] and
    [p >= min_premarket_change_percent], and a short candidate exactly when
    [r > rsi_long_max] and [p <= -min_premarket_change_percent]. A record
    whose oscillator value is missing, or whose percent is missing, is
    ["N/A"] or does not read as a float, is in neither list. Both hold of
    the lists the loop builds and of every pair of lists the ranker
    returns. *)
Theorem filter_opportunities_classification (data : list record) (stock : record) :
  let rsi := dict_get stock "rsi" VNone in
  let pmchg_pct := dict_get stock PCT VNone in
  (stock ∈ data ->
   is_sentinel stock = false ->
   has_error stock = false ->
   forall r p : float,
     py_float rsi = Some r ->
     value_is_str pmchg_pct "N/A" = false ->
     py_float pmchg_pct = Some p ->
     ranked config data stock
       (PrimFloat.ltb r (rsi_short_min config) = true
        /\ PrimFloat.leb (min_pm_change config) p = true)
       (PrimFloat.ltb (rsi_long_max config) r = true
        /\ PrimFloat.leb p (PrimFloat.opp (min_pm_change config)) = true))
  /\ (is_none rsi = true \/ is_none pmchg_pct = true
      \/ value_is_str pmchg_pct "N/A" = true \/ py_float pmchg_pct = None ->
      ranked config data stock False False).
Proof.
  intros rsi pmchg_pct. split.
  - intros Hin Hsent Herr r p Hr Hna Hp.
    apply ranked_by_classify;
      rewrite (classify_stock_numeric stock r p Hsent Herr Hr Hna Hp); simpl;
      rewrite andb_true_iff; tauto.
  - intros Hex.
    apply ranked_by_classify;
      rewrite (classify_stock_excluded stock Hex); simpl; split;
      [intros [_ [=]] | done | intros [_ [=]] | done].
Qed.
End FilterOpportunitiesFacts.

(** The first record of the specification's example, oscillator 25 and
    percent 5.0, with the default thresholds. *)
Lemma filter_opportunities_classification_witness :
  Samples.low ∈ long_candidates ∅ Samples.ranking_input
  /\ Samples.low ∉ short_candidates ∅ Samples.ranking_input.
Proof.
  destruct (filter_opportunities_classification ∅ Samples.ranking_input Samples.low)
    as [Hnum _].
  destruct (Hnum ltac:(apply list_elem_of_here) eq_refl eq_refl 25%float 5%float
              eq_refl eq_refl eq_refl) as [[Hlong Hshort] _].
  split.
  - apply Hlong. split; reflexivity.
  - intros Hin. apply Hshort in Hin as [Hlt _]. vm_compute in Hlt. discriminate.
Defined.

(** C2, as stated, fails: an errored record whose oscillator value and
    percent meet the long thresholds is not a long candidate. *)
Lemma errored_record_not_classified :
  ~ (forall (config : gmap string float) (data long short : list record)
            (stock : record) (r p : float),
        filter_opportunities config data = Some (long, short) ->
        stock ∈ data ->
        py_float (dict_get stock "rsi" VNone) = Some r ->
        value_is_str (dict_get stock PCT VNone) "N/A" = false ->
        py_float (dict_get stock PCT VNone) = Some p ->
        (stock ∈ long <->
         PrimFloat.ltb r (rsi_short_min config) = true
         /\ PrimFloat.leb (min_pm_change config) p = true)).
Proof.
  intros Hclaim.
  assert (Hrun : filter_opportunities ∅ [Samples.stale] = Some ([], []))
    by reflexivity.
  specialize (Hclaim ∅ [Samples.stale] [] [] Samples.stale 25%float 5%float Hrun
                ltac:(apply list_elem_of_here) eq_refl eq_refl eq_refl).
  eapply not_elem_of_nil, Hclaim. split; reflexivity.
Qed.

Section RankerInvariants.
Context `{PyRuntime}.
Variable config : gmap string float.

(** The sentinel is in neither list, whatever its fields. *)
Lemma sentinel_not_ranked (data : list record) (stock : record) :
  is_sentinel stock = true -> ranked config data stock False False.
Proof.
  intros Hsent.
  assert (Hc : classify_stock config stock = (false, false))
    by (unfold classify_stock; by rewrite Hsent).
  apply ranked_by_classify; rewrite Hc; simpl; split;
    [intros [_ [=]] | done | intros [_ [=]] | done].
Qed.

(** An errored record is in neither list. *)
Lemma errored_not_ranked (data : list record) (stock : record) :
  has_error stock = true -> ranked config data stock False False.
Proof.
  intros Herr.
  assert (Hc : classify_stock config stock = (false, false)).
  { unfold classify_stock. rewrite Herr. by destruct (is_sentinel stock). }
  apply ranked_by_classify; rewrite Hc; simpl; split;
    [intros [_ [=]] | done | intros [_ [=]] | done].
Qed.

Lemma classify_stock_both (stock : record) :
  fst (classify_stock config stock) = true ->
  snd (classify_stock config stock) = true ->
  exists r p : float,
    PrimFloat.ltb r (rsi_short_min config) = true
    /\ PrimFloat.leb (min_pm_change config) p = true
    /\ PrimFloat.ltb (rsi_long_max config) r = true
    /\ PrimFloat.leb p (PrimFloat.opp (min_pm_change config)) = true.
Proof.
  unfold classify_stock.
  destruct (is_sentinel stock); [done|]. destruct (has_error stock); [done|].
  destruct (_ && _); [|done].
  destruct (py_float (dict_get stock "rsi" VNone)) as [r|]; [|done].
  destruct (PrimFloat.ltb r _) eqn:Hlt; destruct (PrimFloat.ltb _ r) eqn:Hgt;
    destruct (py_float (dict_get stock PCT VNone)) as [p|]; simpl; try done.
  intros Hlong Hshort. by exists r, p.
Qed.

(** C7, amended. When the minimum premarket move is positive, or when
    [rsi_short_min <= rsi_long_max], no record is both a long and a short
    candidate, in the lists the loop builds and in every pair of lists the
    ranker returns. *)
Theorem filter_opportunities_disjoint (data : list record) :
  PrimFloat.ltb 0 (min_pm_change config) = true
  \/ PrimFloat.leb (rsi_short_min config) (rsi_long_max config) = true ->
  (forall stock,
      stock ∈ long_candidates config data ->
      stock ∈ short_candidates config data -> False)
  /\ forall long short,
      filter_opportunities config data = Some (long, short) ->
      forall stock, stock ∈ long -> stock ∈ short -> False.
Proof.
  intros Hsane.
  assert (Hcand : forall stock,
             stock ∈ long_candidates config data ->
             stock ∈ short_candidates config data -> False).
  { intros stock [_ Hlong]%elem_of_long_candidates [_ Hshort]%elem_of_short_candidates.
    destruct (classify_stock_both stock Hlong Hshort) as (r & p & Hr1 & Hp1 & Hr2 & Hp2).
    destruct Hsane as [Hpos | Hbands].
    - exact (leb_between_opp _ _ Hpos Hp1 Hp2).
    - pose proof (ltb_leb_trans _ _ _ Hr1 Hbands) as Hlt.
      pose proof (ltb_leb_trans _ _ _ Hlt (ltb_leb _ _ Hr2)) as Hrr.
      by rewrite ltb_irrefl in Hrr. }
  split; [exact Hcand|].
  intros long short [Hl Hs]%filter_opportunities_Permutation stock.
  rewrite Hl, Hs. apply Hcand.
Qed.
End RankerInvariants.

(** With the default thresholds, on the example of the specification. *)
Lemma filter_opportunities_disjoint_witness :
  PrimFloat.ltb 0 (min_pm_change ∅) = true
  /\ Forall (fun stock => stock ∉ short_candidates ∅ Samples.ranking_input)
            (long_candidates ∅ Samples.ranking_input).
Proof.
  split; [reflexivity|].
  destruct (filter_opportunities_disjoint ∅ Samples.ranking_input) as [Hcand _];
    [left; reflexivity|].
  apply Forall_forall. intros stock Hlong Hshort. exact (Hcand stock Hlong Hshort).
Defined.

(** C7, as stated, fails: with overlapping oscillator bands and a minimum
    move of zero, a record is returned in both lists. *)
Lemma long_and_short_overlap :
  ~ (forall (config : gmap string float) (data long short : list record),
        filter_opportunities config data = Some (long, short) ->
        forall stock, stock ∈ long -> stock ∈ short -> False).
Proof.
  intros Hclaim.
  assert (Hrun : filter_opportunities Samples.loose [Samples.flat]
                 = Some ([Samples.flat], [Samples.flat]))
    by reflexivity.
  apply (Hclaim _ _ _ _ Hrun Samples.flat); apply list_elem_of_here.
Qed.

(** ** The scraper *)

(** C9, as stated, fails: no element of the page decides the
    [premarket_change] field. On a page where every element is present with
    the text [" 1.50 "], the field is not that text stripped. *)
Lemma premarket_change_not_scraped :
  ~ (exists selector : string,
        forall query_selector : string -> option string,
          scrape_record query_selector !! "premarket_change"
          = Some (text_or_na (query_selector selector))).
Proof.
  intros [selector Hclaim].
  specialize (Hclaim (Samples.full_page 1 "AAPL")).
  assert (Hfield : scrape_record (Samples.full_page 1 "AAPL") !! "premarket_change"
                   = Some (VStr "N/A")) by reflexivity.
  rewrite Hfield in Hclaim. discriminate Hclaim.
Qed.

Lemma text_or_na_is_na (el : option string) :
  text_or_na el = VStr "N/A"
  <-> el = None \/ exists inner_text, el = Some inner_text /\ strip inner_text = "N/A".
Proof.
  destruct el as [t|]; simpl.
  - split.
    + intros [= Ht]. right. by exists t.
    + intros [[=] | (t' & [= <-] & ->)]. done.
  - split; [by left | done].
Qed.

Section FetchDynamicFacts.
Variable page : nat -> string -> string -> option string.
Variable clock : nat -> float.

Lemma scrape_loop_other (stock_list : list string) (idx : nat)
  (st : gmap string record * float * nat) (symbol : string) :
  symbol ∉ stock_list ->
  (scrape_loop page clock idx stock_list st).1.1 !! symbol = st.1.1 !! symbol.
Proof.
  revert idx st. induction stock_list as [|s rest IH]; intros idx st Hnot; [done|].
  destruct st as [[results total] reads]. simpl.
  rewrite IH by (intros Hin; apply Hnot; by right). simpl.
  apply lookup_insert_ne. intros ->. apply Hnot. by left.
Qed.

(** The entry of a symbol of the list is what the last iteration that
    typed it read from the page. *)
Lemma scrape_loop_lookup (stock_list : list string) (idx : nat)
  (st : gmap string record * float * nat) (symbol : string) :
  symbol ∈ stock_list ->
  exists i : nat,
    stock_list !! i = Some symbol
    /\ (scrape_loop page clock idx stock_list st).1.1 !! symbol
       = Some (scrape_record (page (idx + i)%nat symbol)).
Proof.
  revert idx st. induction stock_list as [|s rest IH]; intros idx st Hin.
  { by apply not_elem_of_nil in Hin. }
  destruct st as [[results total] reads]. simpl.
  destruct (decide (symbol ∈ rest)) as [Hrest | Hrest].
  - destruct (IH (S idx) (<[s := scrape_record (page idx s)]> results,
                      PrimFloat.add total (PrimFloat.sub (clock (S reads)) (clock reads)),
                      S (S reads)) Hrest) as (i & Hi & Hlook).
    exists (S i). split; [done|]. by rewrite Nat.add_succ_r.
  - apply elem_of_cons in Hin as [-> | Hin]; [|done].
    exists 0%nat. split; [done|].
    rewrite scrape_loop_other by done. simpl.
    by rewrite lookup_insert_eq, Nat.add_0_r.
Qed.

(** The scrape returns for every list: the division is only made by the
    length of a list that is not empty. *)
Lemma fetch_dynamic_data_returns (stock_list : list string) :
  exists overall avg,
    fetch_dynamic_data page clock stock_list
    = Some ((scrape_loop page clock 1 stock_list (∅, 0%float, 1%nat)).1.1, overall, avg).
Proof.
  unfold fetch_dynamic_data.
  destruct (scrape_loop page clock 1 stock_list (∅, 0%float, 1%nat))
    as [[results total] reads]. simpl.
  destruct stock_list as [|s rest]; [by eauto|].
  unfold py_truediv_int. simpl length.
  destruct (Z.of_nat (S (length rest)) =? 0)%Z eqn:Hz; [|by eauto].
  apply Z.eqb_eq in Hz. lia.
Qed.

(** C10. On the empty list the scrape returns the empty mapping and an
    average of [0]: the division, which would raise on the length [0], is
    not made; and on a list that is not empty the length does not make it
    raise. *)
Theorem fetch_dynamic_data_empty :
  fetch_dynamic_data page clock []
  = Some (∅, PrimFloat.sub (clock 1) (clock 0), 0%float)
  /\ py_truediv_int 0%float (Z.of_nat (length (@nil string))) = None
  /\ forall stock_list, is_Some (fetch_dynamic_data page clock stock_list).
Proof.
  split; [reflexivity|]. split; [reflexivity|].
  intros stock_list.
  destruct (fetch_dynamic_data_returns stock_list) as (overall & avg & ->).
  by eexists.
Qed.

End FetchDynamicFacts.

(** ** The indicator fetch *)

Section FetchStaticFacts.
Variable get_analysis : string -> string -> lookup.

Lemma exchange_loop_attempt_loop (variant : string) (exchanges : list string)
  (st : value * value) :
  exchange_loop get_analysis variant exchanges st
  = attempt_loop get_analysis ((fun exchange => (variant, exchange)) <$> exchanges) st.
Proof.
  revert st. induction exchanges as [|exchange rest IH]; intros st; [done|].
  simpl. destruct (try_exchange _ _ _ _) as [st' []]; [done | apply IH].
Qed.

Lemma attempt_loop_app (tries1 tries2 : list (string * string)) (st : value * value) :
  attempt_loop get_analysis (tries1 ++ tries2) st
  = let '(st', found) := attempt_loop get_analysis tries1 st in
    if found then (st', true) else attempt_loop get_analysis tries2 st'.
Proof.
  revert st. induction tries1 as [|[variant exchange] rest IH]; intros st; [done|].
  simpl. destruct (try_exchange _ _ _ _) as [st' []]; [done | apply IH].
Qed.

(** The nested loops make the attempts in order and stop at the first one
    that sets [found]. *)
Lemma attempts_cons (variant : string) (rest : list string) :
  attempts (variant :: rest)
  = (((fun exchange => (variant, exchange)) <$> EXCHANGES) ++ attempts rest)%list.
Proof. reflexivity. Qed.

Lemma variant_loop_attempt_loop (variants : list string) (st : value * value) :
  variant_loop get_analysis variants st
  = fst (attempt_loop get_analysis (attempts variants) st).
Proof.
  revert st. induction variants as [|variant rest IH]; intros st; [done|].
  rewrite attempts_cons, attempt_loop_app, <- exchange_loop_attempt_loop.
  cbn [variant_loop].
  destruct (exchange_loop get_analysis variant EXCHANGES st) as [st' []];
    [done | apply IH].
Qed.

Lemma attempt_loop_first_both (pre post : list (string * string))
  (variant exchange : string) (indicators : record) (st : value * value) :
  Forall (fun try => returned_both get_analysis try = false) pre ->
  get_analysis variant exchange = Analysis indicators ->
  is_none (dict_get indicators "RSI" VNone) = false ->
  is_none (dict_get indicators "SMA20" VNone) = false ->
  attempt_loop get_analysis (pre ++ (variant, exchange) :: post) st
  = (dict_get indicators "RSI" VNone, dict_get indicators "SMA20" VNone, true).
Proof.
  intros Hpre Hget Hrsi Hsma. revert st.
  induction Hpre as [|[v e] pre Hve _ IH]; intros st; simpl.
  - unfold try_exchange. by rewrite Hget, Hrsi, Hsma.
  - unfold returned_both in Hve. simpl in Hve. unfold try_exchange.
    destruct (get_analysis v e); [rewrite Hve | |]; apply IH.
Qed.

(** The entry of a symbol holds the values of the first attempt that
    returned both. *)
Lemma static_entry_first_both (symbol : string) (pre post : list (string * string))
  (variant exchange : string) (indicators : record) :
  attempts (get_symbol_variants symbol) = (pre ++ (variant, exchange) :: post)%list ->
  Forall (fun try => returned_both get_analysis try = false) pre ->
  get_analysis variant exchange = Analysis indicators ->
  is_none (dict_get indicators "RSI" VNone) = false ->
  is_none (dict_get indicators "SMA20" VNone) = false ->
  static_entry get_analysis symbol
  = {[ "rsi" := dict_get indicators "RSI" VNone;
       "sma" := dict_get indicators "SMA20" VNone ]}.
Proof.
  intros Hatt Hpre Hget Hrsi Hsma. unfold static_entry.
  rewrite variant_loop_attempt_loop, Hatt.
  by rewrite (attempt_loop_first_both pre post variant exchange indicators _
                Hpre Hget Hrsi Hsma).
Qed.

Lemma attempt_loop_no_analysis (tries : list (string * string)) (st : value * value) :
  Forall (fun try => forall indicators,
              get_analysis (fst try) (snd try) <> Analysis indicators) tries ->
  attempt_loop get_analysis tries st = (st, false).
Proof.
  intros Hnone. revert st.
  induction Hnone as [|[v e] tries Hve _ IH]; intros st; [done|].
  simpl in *. unfold try_exchange.
  destruct (get_analysis v e) as [indicators| |]; [by destruct (Hve indicators) | |];
    apply IH.
Qed.

(** When no attempt returns an analysis, both fields of the entry are
    [None]. *)
Lemma static_entry_no_analysis (symbol : string) :
  Forall (fun try => forall indicators,
              get_analysis (fst try) (snd try) <> Analysis indicators)
         (attempts (get_symbol_variants symbol)) ->
  static_entry get_analysis symbol = {[ "rsi" := VNone; "sma" := VNone ]}.
Proof.
  intros Hnone. unfold static_entry.
  by rewrite variant_loop_attempt_loop, attempt_loop_no_analysis.
Qed.

Lemma fetch_static_loop_lookup (stock_list : list string)
  (static_results : gmap string record) (symbol : string) :
  foldl (fun static_results symbol =>
           <[symbol := static_entry get_analysis symbol]> static_results)
        static_results stock_list !! symbol
  = if decide (symbol ∈ stock_list)
    then Some (static_entry get_analysis symbol)
    else static_results !! symbol.
Proof.
  revert static_results.
  induction stock_list as [|s rest IH]; intros static_results; cbn [foldl].
  - destruct (decide (symbol ∈ [])) as [Hin|]; [by apply not_elem_of_nil in Hin | done].
  - rewrite IH. destruct (decide (symbol = s)) as [-> | Hne].
    + rewrite lookup_insert_eq.
      destruct (decide (s ∈ rest)); destruct (decide (s ∈ s :: rest)) as [|Hnot];
        try done; exfalso; apply Hnot; by left.
    + rewrite lookup_insert_ne by done.
      destruct (decide (symbol ∈ rest)) as [Hrest | Hrest];
        destruct (decide (symbol ∈ s :: rest)) as [Hall | Hall]; try done.
      * exfalso. apply Hall. by right.
      * apply elem_of_cons in Hall as [-> | ?]; done.
Qed.

(** Every symbol of the list has an entry. *)
Lemma fetch_static_data_lookup (stock_list : list string) (symbol : string) :
  symbol ∈ stock_list ->
  fetch_static_data get_analysis stock_list !! symbol
  = Some (static_entry get_analysis symbol).
Proof.
  intros Hin. unfold fetch_static_data.
  rewrite fetch_static_loop_lookup. by rewrite decide_True.
Qed.
End FetchStaticFacts.

(** C8 at an input on which the code departs from it: the only lookup
    that returns gives an oscillator value and no moving average, so no
    attempt returned both values, and the entry keeps the oscillator
    value. *)
Theorem fetch_static_data_keeps_partial_values :
  Forall (fun try => returned_both Samples.newco_service try = false)
         (attempts (get_symbol_variants "NEWCO"))
  /\ fetch_static_data Samples.newco_service ["NEWCO"] !! "NEWCO"
     = Some {[ "rsi" := VNum 55; "sma" := VNone ]}.
Proof.
  split.
  - repeat constructor.
  - reflexivity.
Qed.

(** ** The merge *)

(** C3, as stated, fails: with a price of ["5.00"] and a moving average of
    [0.0], both of which read as floats, the position is ["N/A"], not
    ["Above SMA"]. *)
Lemma zero_average_position_unknown :
  ~ (forall (symbol : string) (sdata ddata : record) (s : string) (p m : float),
        dict_get ddata "price" (VStr "N/A") = VStr s ->
        float_of_string (remove_char "," s) = Some p ->
        float_of_string (remove_char "," (py_str (dict_get sdata "sma" VNone))) = Some m ->
        merged_record symbol sdata ddata !! "position"
        = Some (VStr (if PrimFloat.ltb m p then "Above SMA" else "Below SMA"))).
Proof.
  intros Hclaim.
  specialize (Hclaim "PENNY" Samples.zero_average Samples.five_dollars
                "5.00" 5%float 0%float eq_refl).
  assert (Hp : float_of_string (remove_char "," "5.00") = Some 5%float)
    by (vm_compute; reflexivity).
  assert (Hm : float_of_string
                 (remove_char "," (py_str (dict_get Samples.zero_average "sma" VNone)))
               = Some 0%float)
    by (vm_compute; reflexivity).
  specialize (Hclaim Hp Hm).
  assert (Hpos : merged_record "PENNY" Samples.zero_average Samples.five_dollars
                   !! "position" = Some (VStr "N/A")) by reflexivity.
  rewrite Hpos in Hclaim. discriminate Hclaim.
Qed.

Section MergeFacts.
Context `{PyRuntime}.

Lemma merged_record_position (symbol : string) (sdata ddata : record) :
  merged_record symbol sdata ddata !! "position"
  = Some (VStr (position_of (dict_get ddata "price" (VStr "N/A"))
                            (dict_get sdata "sma" VNone))).
Proof. unfold merged_record. by simplify_map_eq. Qed.

Lemma merged_record_symbol (symbol : string) (sdata ddata : record) :
  merged_record symbol sdata ddata !! "symbol" = Some (VStr symbol).
Proof. unfold merged_record. by simplify_map_eq. Qed.

(** C3, amended. In every merged record: when the price is a string other
    than ["N/A"] that reads as the float [p] once its commas are removed,
    and the moving average is truthy (present and not zero) and reads as
    the float [m], the position is ["Above SMA"] if [p > m] and
    ["Below SMA"] otherwise; when the price is missing, is not a string or
    does not read as a float, or the moving average is missing, is zero or
    does not read as a float, the position is ["N/A"]. *)
Theorem merged_record_position_cases (symbol : string) (sdata ddata : record) :
  let price := dict_get ddata "price" (VStr "N/A") in
  let sma := dict_get sdata "sma" VNone in
  let position := merged_record symbol sdata ddata !! "position" in
  (forall (s : string) (p m : float),
      price = VStr s ->
      s <> "N/A" ->
      truthy sma = true ->
      float_of_string (remove_char "," s) = Some p ->
      float_of_string (remove_char "," (py_str sma)) = Some m ->
      position = Some (VStr (if PrimFloat.ltb m p then "Above SMA" else "Below SMA")))
  /\ (value_is_str price "N/A" = true
      \/ truthy sma = false
      \/ (forall s, price <> VStr s)
      \/ (exists s, price = VStr s /\ float_of_string (remove_char "," s) = None)
      \/ float_of_string (remove_char "," (py_str sma)) = None ->
      position = Some (VStr "N/A")).
Proof.
  intros price sma position. subst position.
  rewrite merged_record_position. fold price sma. unfold position_of.
  split.
  - intros s p m -> Hna Htruthy Hp Hm. simpl.
    apply String.eqb_neq in Hna. rewrite Hna, Htruthy, Hp, Hm. simpl.
    by destruct (PrimFloat.ltb m p).
  - intros Hunknown. do 2 f_equal.
    destruct Hunknown as [-> | [-> | [Hstr | [(s & -> & Hp) | Hm]]]]; simpl.
    + done.
    + by rewrite andb_false_r.
    + destruct (_ && _); [|done]. destruct price; [done | done | by destruct (Hstr s)].
    + rewrite Hp. by destruct (_ && _).
    + rewrite Hm. destruct (_ && _); [|done]. destruct price as [| |s]; [done | done |].
      destruct (float_of_string (remove_char "," s)); done.
Qed.

Lemma merge_results_loop (stock_list : list string)
  (static_results dynamic_data : gmap string record) (final_results : list record) :
  foldl (fun (final_results : list record) symbol =>
           (final_results ++
              [merged_record symbol (default ∅ (static_results !! symbol))
                                    (default ∅ (dynamic_data !! symbol))])%list)
        final_results stock_list
  = (final_results
       ++ ((fun symbol => merged_record symbol (default ∅ (static_results !! symbol))
                                        (default ∅ (dynamic_data !! symbol)))
             <$> stock_list))%list.
Proof.
  revert final_results.
  induction stock_list as [|symbol rest IH]; intros final_results; simpl.
  - by rewrite app_nil_r.
  - by rewrite IH, <- app_assoc.
Qed.

(** One record per symbol, in the order of the list. *)
Lemma merge_results_fmap (stock_list : list string)
  (static_results dynamic_data : gmap string record) :
  merge_results stock_list static_results dynamic_data
  = (fun symbol => merged_record symbol (default ∅ (static_results !! symbol))
                                 (default ∅ (dynamic_data !! symbol)))
      <$> stock_list.
Proof. unfold merge_results. by rewrite merge_results_loop. Qed.

Lemma is_sentinel_merged_record (symbol : string) (sdata ddata : record) :
  is_sentinel (merged_record symbol sdata ddata) = String.eqb symbol SENTINEL.
Proof.
  unfold is_sentinel, dict_get. by rewrite merged_record_symbol.
Qed.

Lemma is_sentinel_stats_record (dyn_total dyn_avg : float) :
  is_sentinel (stats_record dyn_total dyn_avg) = true.
Proof. unfold is_sentinel, dict_get, stats_record. by simplify_map_eq. Qed.

Lemma count_sentinel_merge_results (stock_list : list string)
  (static_results dynamic_data : gmap string record) :
  SENTINEL ∉ stock_list ->
  count_sentinel (merge_results stock_list static_results dynamic_data) = 0%nat.
Proof.
  intros Hnot. rewrite merge_results_fmap. unfold count_sentinel.
  induction stock_list as [|symbol rest IH]; [done|].
  rewrite fmap_cons. cbn [List.filter]. rewrite is_sentinel_merged_record.
  destruct (String.eqb_spec symbol SENTINEL) as [-> | _].
  - exfalso. apply Hnot. by left.
  - apply IH. intros Hin. apply Hnot. by right.
Qed.

Variable get_analysis : string -> string -> lookup.
Variable page : nat -> string -> string -> option string.
Variable clock : nat -> float.

(** The combined fetch returns a collection with the sentinel exactly
    once, for a list of symbols none of which is the reserved marker. *)
Lemma fetch_all_stocks_one_sentinel (stock_list : list string) :
  SENTINEL ∉ stock_list ->
  exists records,
    fetch_all_stocks get_analysis page clock stock_list = Some records
    /\ count_sentinel records = 1%nat.
Proof.
  intros Hnot. unfold fetch_all_stocks.
  destruct (fetch_dynamic_data_returns page clock stock_list) as (overall & avg & ->).
  eexists. split; [reflexivity|].
  unfold count_sentinel. rewrite List.filter_app, length_app.
  fold (count_sentinel (merge_results stock_list
          (fetch_static_data get_analysis stock_list)
          (scrape_loop page clock 1 stock_list (∅, 0%float, 1%nat)).1.1)).
  rewrite count_sentinel_merge_results by done.
  cbn [List.filter]. by rewrite is_sentinel_stats_record.
Qed.

(** The collection the dynamic run hands to the two dump functions has no
    sentinel, for a list of symbols none of which is the reserved marker. *)
Lemma run_dynamic_analysis_no_sentinel (config : gmap string float)
  (stock_list : list string) (static_results : gmap string record)
  (final_results : list record) (opportunities : list record * list record) :
  SENTINEL ∉ stock_list ->
  run_dynamic_analysis page clock config stock_list static_results
  = Some (final_results, opportunities) ->
  count_sentinel final_results = 0%nat.
Proof.
  intros Hnot. unfold run_dynamic_analysis.
  destruct (fetch_dynamic_data_returns page clock stock_list) as (overall & avg & ->).
  destruct (filter_opportunities _ _); [|done].
  intros [= <- _]. by apply count_sentinel_merge_results.
Qed.
End MergeFacts.

(** A price of 1,105.50 against a moving average of 1000.25. *)
Lemma merged_record_position_cases_witness :
  merged_record "BKNG" Samples.some_average Samples.four_digits !! "position"
  = Some (VStr "Above SMA").
Proof.
  destruct (merged_record_position_cases "BKNG" Samples.some_average Samples.four_digits)
    as [Hnum _].
  apply (Hnum "1,105.50" 1105.5%float 1000.25%float);
    [reflexivity | discriminate | reflexivity | vm_compute; reflexivity ..].
Defined.

(** C4 at an input on which the code departs from it: the collection of a
    dynamic run over two symbols has two records, neither of which is the
    sentinel. *)
Theorem run_dynamic_analysis_omits_sentinel :
  exists final_results opportunities,
    run_dynamic_analysis Samples.price_only_page Samples.steady_clock ∅
                         ["AAPL"; "MSFT"] ∅
    = Some (final_results, opportunities)
    /\ length final_results = 2%nat
    /\ count_sentinel final_results = 0%nat.
Proof.
  eexists _, _. split; [reflexivity|].
  split; reflexivity.
Qed.

(** ** The order of the ranked lists *)

(** C6 at an input on which the code departs from it: two long candidates
    whose percents are the strings ["10.0"] and ["9.0"], which read as the
    floats 10 and 9, are returned with 9 before 10: the keys of [sorted] are
    the stored strings, compared as text. *)
Theorem filter_opportunities_orders_strings_as_text :
  py_float (dict_get Samples.ten PCT VNone) = Some 10%float
  /\ py_float (dict_get Samples.nine PCT VNone) = Some 9%float
  /\ filter_opportunities ∅ [Samples.ten; Samples.nine]
     = Some ([Samples.nine; Samples.ten], []).
Proof.
  split; [vm_compute; reflexivity|]. split; [vm_compute; reflexivity|].
  reflexivity.
Qed.

(** The key of a record whose percent is ["N/A"] is [0]. *)
Lemma sort_key_na (x : record) :
  x !! PCT = Some (VStr "N/A") -> sort_key x = Some (VNum 0).
Proof. intros Hx. unfold sort_key. by rewrite Hx. Qed.

(** With a percent stored as a string and one stored as a number among the
    candidates, [sorted] raises. *)
Lemma filter_opportunities_raises_on_mixed_percents :
  filter_opportunities ∅ [Samples.ten; Samples.eight] = None.
Proof. reflexivity. Qed.

Lemma insert_keyed_Sorted (x : value * record) (l : list (value * record)) :
  key_le x x -> Forall (fun y => key_le y y) l -> Sorted key_le l ->
  exists r,
    insert_keyed x l = Some r
    /\ Sorted key_le r
    /\ forall y, key_le y x -> HdRel key_le y l -> HdRel key_le y r.
Proof.
  intros Hx Hl Hsorted. induction l as [|y l IH]; simpl.
  - exists [x]. repeat split; [by repeat constructor|].
    intros y Hyx _. by constructor.
  - apply Forall_cons in Hl as [Hy Hl]. apply Sorted_inv in Hsorted as [Hsorted Hhd].
    destruct Hx as (p & ? & Hxk & Hxp & ? & ? & Hpp).
    destruct Hy as (q & ? & Hyk & Hyp & ? & ? & Hqq). simplify_eq.
    rewrite Hxk, Hyk. simpl.
    destruct (PrimFloat.ltb p q) eqn:Hlt.
    + exists (x :: y :: l). repeat split.
      * constructor; [by constructor|]. constructor.
        exists p, q. eauto 10 using ltb_leb.
      * intros z Hzx _. by constructor.
    + destruct IH as (r & -> & Hr & Hhead); [done..|].
      exists (y :: r). repeat split.
      * constructor; [done|]. apply Hhead; [|done].
        exists q, p. eauto 10 using leb_total.
      * intros z _ Hzy. apply HdRel_inv in Hzy. by constructor.
Qed.

Lemma sort_keyed_loop_Sorted (l s : list (value * record)) :
  Forall (fun y => key_le y y) l -> Forall (fun y => key_le y y) s -> Sorted key_le s ->
  exists r,
    foldl (fun acc x => match acc with None => None | Some s => insert_keyed x s end)
          (Some s) l = Some r
    /\ Sorted key_le r.
Proof.
  intros Hl. revert s. induction Hl as [|x l Hx Hl IH]; intros s Hs Hsorted; simpl.
  - by exists s.
  - destruct (insert_keyed_Sorted x s Hx Hs Hsorted) as (s' & Hins & Hs' & _).
    rewrite Hins. apply IH; [|done].
    apply insert_keyed_Permutation in Hins. rewrite Hins. by constructor.
Qed.

(** On records whose percent is a number that is not NaN, [sorted] returns,
    and what it returns ascends by percent, or descends with
    [reverse=True]. *)
Lemma py_sorted_Sorted (reversed : bool) (l : list record) :
  Forall (fun x => exists p, percent_number x = Some p /\ PrimFloat.leb p p = true) l ->
  exists r,
    py_sorted reversed l = Some r
    /\ Sorted (if reversed then descends else ascends) r.
Proof.
  intros Hl. unfold py_sorted.
  assert (Hkeyed : exists keyed,
             mapM (fun x => match sort_key x with None => None | Some k => Some (k, x) end) l
             = Some keyed
             /\ Forall (fun y => key_le y y) keyed).
  { induction Hl as [|x l (p & Hp & Hpp) _ (keyed & Hk & Hgood)].
    - by exists [].
    - exists ((VNum p, x) :: keyed). split.
      + apply mapM_Some_2. constructor; [|by apply mapM_Some_1].
        unfold sort_key. unfold percent_number in Hp.
        by destruct (x !! PCT) as [[|p'|]|]; simplify_eq.
      + constructor; [|done]. by exists p, p. }
  destruct Hkeyed as (keyed & -> & Hgood).
  destruct (sort_keyed_loop_Sorted (if reversed then reverse keyed else keyed) [])
    as (s & Hs & Hsorted); [by destruct reversed; rewrite ?Forall_reverse | done | constructor |].
  unfold sort_keyed. rewrite Hs. eexists. split; [done|].
  destruct reversed.
  - apply (Sorted_fmap _ (flip key_le)); [|by apply Sorted_reverse].
    intros a b (p & q & _ & Hb & _ & Ha & Hle). exists q, p. eauto.
  - apply (Sorted_fmap _ key_le); [|done].
    intros a b (p & q & _ & Ha & _ & Hb & Hle). exists p, q. eauto.
Qed.

Section RankedOrder.
Context `{PyRuntime}.
Variable config : gmap string float.

Lemma classify_stock_percent (stock : record) :
  (forall s, stock !! PCT = Some (VStr s) -> float_of_string s = None) ->
  fst (classify_stock config stock) = true \/ snd (classify_stock config stock) = true ->
  exists p, percent_number stock = Some p /\ PrimFloat.leb p p = true.
Proof.
  intros Hstr. unfold classify_stock, percent_number, dict_get.
  destruct (is_sentinel stock); [by intros [|]|].
  destruct (has_error stock); [by intros [|]|].
  destruct (stock !! PCT) as [[|p|s]|] eqn:Hpct; simpl;
    rewrite ?andb_false_r; try (by intros [|]).
  - destruct (negb _); simpl; [|by intros [|]].
    destruct (py_float _) as [r|]; [|by intros [|]].
    destruct (PrimFloat.ltb r (rsi_short_min config));
      destruct (PrimFloat.ltb (rsi_long_max config) r);
      destruct (PrimFloat.leb (min_pm_change config) p) eqn:H1;
      destruct (PrimFloat.leb p (PrimFloat.opp (min_pm_change config))) eqn:H2;
      simpl; intros [|]; try done; exists p; eauto using leb_refl_r, leb_refl_l.
  - rewrite (Hstr s eq_refl).
    destruct (_ && _); [|by intros [|]].
    destruct (py_float _) as [r|]; [|by intros [|]].
    by destruct (PrimFloat.ltb r (rsi_short_min config));
      destruct (PrimFloat.ltb (rsi_long_max config) r); intros [|].
Qed.

(** When no percent of the input is a string that reads as a number (as
    in the output of the normalizer, where a percent is a number or
    ["N/A"]), the ranker returns, its long list descends by percent and
    its short list ascends. *)
Lemma filter_opportunities_Sorted (data : list record) :
  (forall stock s,
      stock ∈ data -> stock !! PCT = Some (VStr s) -> float_of_string s = None) ->
  exists long short,
    filter_opportunities config data = Some (long, short)
    /\ Sorted descends long /\ Sorted ascends short.
Proof.
  intros Hstr. unfold filter_opportunities.
  destruct (py_sorted_Sorted true (long_candidates config data)) as (long & -> & Hlong).
  { apply Forall_forall. intros stock [Hin Hc]%elem_of_long_candidates.
    apply classify_stock_percent; eauto. }
  destruct (py_sorted_Sorted false (short_candidates config data)) as (short & -> & Hshort).
  { apply Forall_forall. intros stock [Hin Hc]%elem_of_short_candidates.
    apply classify_stock_percent; eauto. }
  by exists long, short.
Qed.
End RankedOrder.

(** * Further properties of the pipeline *)

(** ** Symbol variants *)

Lemma replace_char_length (c d : ascii) (s : string) :
  String.length (replace_char c d s) = String.length s.
Proof. induction s as [|a s IH]; simpl; [done | by rewrite IH]. Qed.

Lemma replace_char_removes (c d : ascii) (s : string) :
  c <> d -> contains_char c (replace_char c d s) = false.
Proof.
  intros Hcd. induction s as [|a s IH]; simpl; [done|].
  rewrite IH, orb_false_r.
  destruct (Ascii.eqb_spec a c) as [-> | Hac]; [|by apply Ascii.eqb_neq].
  apply Ascii.eqb_neq. congruence.
Qed.

Lemma replace_char_changes (c d : ascii) (s : string) :
  c <> d -> contains_char c s = true -> replace_char c d s <> s.
Proof.
  intros Hcd. induction s as [|a s IH]; simpl; [done|].
  destruct (Ascii.eqb_spec a c) as [-> | Hac]; simpl.
  - intros _ [= Hd _]. congruence.
  - intros Hin [= Hs]. by apply IH.
Qed.

(** X1. The variants of a symbol start with the symbol itself. A symbol
    without a hyphen has no other variant; a symbol with a hyphen has
    exactly one more, of the same length, different from the symbol and free
    of hyphens. *)
Theorem get_symbol_variants_shape (symbol : string) :
  head (get_symbol_variants symbol) = Some symbol
  /\ (contains_char "-" symbol = false -> get_symbol_variants symbol = [symbol])
  /\ (contains_char "-" symbol = true ->
      exists dotted,
        get_symbol_variants symbol = [symbol; dotted]
        /\ dotted <> symbol
        /\ String.length dotted = String.length symbol
        /\ contains_char "-" dotted = false).
Proof.
  unfold get_symbol_variants. split; [by destruct (contains_char "-" symbol)|].
  split; intros Hc; rewrite Hc; [done|].
  exists (replace_char "-" "." symbol).
  split; [done|]. split; [by apply replace_char_changes|].
  split; [apply replace_char_length | by apply replace_char_removes].
Qed.

Lemma get_symbol_variants_shape_witness :
  get_symbol_variants "AAPL" = ["AAPL"]
  /\ exists dotted,
      get_symbol_variants "BRK-A" = ["BRK-A"; dotted]
      /\ dotted <> "BRK-A"
      /\ String.length dotted = String.length "BRK-A"
      /\ contains_char "-" dotted = false.
Proof.
  split.
  - destruct (get_symbol_variants_shape "AAPL") as (_ & Hplain & _).
    apply Hplain. reflexivity.
  - destruct (get_symbol_variants_shape "BRK-A") as (_ & _ & Hhyphen).
    apply Hhyphen. reflexivity.
Defined.

(** ** The indicator fetch, continued *)

Section FetchStaticMore.
Variable get_analysis : string -> string -> lookup.

Lemma static_entry_dom (symbol : string) :
  dom (static_entry get_analysis symbol) = ({[ "rsi"; "sma" ]} : gset string).
Proof.
  unfold static_entry.
  destruct (variant_loop _ _ _) as [rsi sma].
  rewrite dom_insert_L, dom_singleton_L. set_solver.
Qed.

(** X2. The result of the indicator fetch has an entry for exactly the
    symbols of the list, a symbol listed twice has one entry, and each entry
    has exactly the two fields [rsi] and [sma]. *)
Theorem fetch_static_data_entries (stock_list : list string) :
  dom (fetch_static_data get_analysis stock_list) = list_to_set stock_list
  /\ (forall symbol,
        symbol ∈ stock_list ->
        fetch_static_data get_analysis stock_list !! symbol
        = Some (static_entry get_analysis symbol))
  /\ (forall symbol entry,
        fetch_static_data get_analysis stock_list !! symbol = Some entry ->
        dom entry = ({[ "rsi"; "sma" ]} : gset string)).
Proof.
  assert (Hlook : forall symbol,
             fetch_static_data get_analysis stock_list !! symbol
             = if decide (symbol ∈ stock_list)
               then Some (static_entry get_analysis symbol) else None).
  { intros symbol. unfold fetch_static_data.
    rewrite fetch_static_loop_lookup. by destruct (decide _). }
  split; [|split].
  - apply set_eq. intros symbol.
    rewrite elem_of_dom, elem_of_list_to_set, Hlook.
    destruct (decide (symbol ∈ stock_list)); split; try done; by intros [? [=]].
  - intros symbol Hin. rewrite Hlook. by rewrite decide_True.
  - intros symbol entry. rewrite Hlook.
    destruct (decide _); [|done]. intros [= <-]. apply static_entry_dom.
Qed.

Lemma attempt_loop_last_analysis (pre post : list (string * string))
  (variant exchange : string) (indicators : record) (st : value * value) :
  Forall (fun try => returned_both get_analysis try = false) pre ->
  get_analysis variant exchange = Analysis indicators ->
  returned_both get_analysis (variant, exchange) = false ->
  Forall (fun try => forall indicators',
              get_analysis (fst try) (snd try) <> Analysis indicators') post ->
  attempt_loop get_analysis (pre ++ (variant, exchange) :: post) st
  = (dict_get indicators "RSI" VNone, dict_get indicators "SMA20" VNone, false).
Proof.
  intros Hpre Hget Hpart Hpost. revert st.
  unfold returned_both in Hpart. simpl in Hpart. rewrite Hget in Hpart.
  induction Hpre as [|[v e] pre Hve _ IH]; intros st; simpl.
  - unfold try_exchange. rewrite Hget, Hpart.
    by apply attempt_loop_no_analysis.
  - unfold returned_both in Hve. simpl in Hve. unfold try_exchange.
    destruct (get_analysis v e); [rewrite Hve | |]; apply IH.
Qed.

(** X3. What the entry of a symbol holds, by the attempts made for it in
    order (each variant on NASDAQ, then on NYSE): the two values of the
    first attempt that returned both; failing that, the two values, one of
    them [None], of the last attempt that returned an analysis at all;
    [None] twice when no attempt returned an analysis. *)
Theorem static_entry_cases (symbol : string) :
  (forall pre post variant exchange indicators,
      attempts (get_symbol_variants symbol) = (pre ++ (variant, exchange) :: post)%list ->
      Forall (fun try => returned_both get_analysis try = false) pre ->
      get_analysis variant exchange = Analysis indicators ->
      returned_both get_analysis (variant, exchange) = true ->
      static_entry get_analysis symbol
      = {[ "rsi" := dict_get indicators "RSI" VNone;
           "sma" := dict_get indicators "SMA20" VNone ]})
  /\ (forall pre post variant exchange indicators,
        attempts (get_symbol_variants symbol) = (pre ++ (variant, exchange) :: post)%list ->
        Forall (fun try => returned_both get_analysis try = false) pre ->
        get_analysis variant exchange = Analysis indicators ->
        returned_both get_analysis (variant, exchange) = false ->
        Forall (fun try => forall indicators',
                    get_analysis (fst try) (snd try) <> Analysis indicators') post ->
        static_entry get_analysis symbol
        = {[ "rsi" := dict_get indicators "RSI" VNone;
             "sma" := dict_get indicators "SMA20" VNone ]})
  /\ (Forall (fun try => forall indicators,
                  get_analysis (fst try) (snd try) <> Analysis indicators)
             (attempts (get_symbol_variants symbol)) ->
      static_entry get_analysis symbol = {[ "rsi" := VNone; "sma" := VNone ]}).
Proof.
  split; [|split].
  - intros pre post variant exchange indicators Hatt Hpre Hget Hboth.
    unfold returned_both in Hboth. simpl in Hboth. rewrite Hget in Hboth.
    apply andb_true_iff in Hboth as [Hrsi Hsma].
    apply negb_true_iff in Hrsi, Hsma.
    unfold static_entry. rewrite variant_loop_attempt_loop, Hatt.
    by rewrite (attempt_loop_first_both get_analysis pre post variant exchange
                  indicators _ Hpre Hget Hrsi Hsma).
  - intros pre post variant exchange indicators Hatt Hpre Hget Hpart Hpost.
    unfold static_entry. rewrite variant_loop_attempt_loop, Hatt.
    by rewrite (attempt_loop_last_analysis pre post variant exchange indicators _
                  Hpre Hget Hpart Hpost).
  - intros Hnone. unfold static_entry.
    by rewrite variant_loop_attempt_loop, attempt_loop_no_analysis.
Qed.

Lemma attempt_loop_ext (get_analysis' : string -> string -> lookup)
  (tries : list (string * string)) (st : value * value) :
  Forall (fun try => get_analysis (fst try) (snd try)
                     = get_analysis' (fst try) (snd try)) tries ->
  attempt_loop get_analysis tries st = attempt_loop get_analysis' tries st.
Proof.
  intros Hsame. revert st.
  induction Hsame as [|[v e] tries Hve _ IH]; intros st; [done|].
  simpl in *. unfold try_exchange. rewrite Hve.
  destruct (get_analysis' v e) as [indicators| |]; try apply IH.
  destruct (_ && _); [done | apply IH].
Qed.

(** X4. The entry of a symbol depends on the service only through the
    lookups of the symbol and of its dotted variant on NASDAQ and on NYSE:
    two services that agree on them give the same entry. *)
Theorem static_entry_ext (get_analysis' : string -> string -> lookup) (symbol : string) :
  (forall variant exchange,
      variant ∈ get_symbol_variants symbol -> exchange ∈ EXCHANGES ->
      get_analysis variant exchange = get_analysis' variant exchange) ->
  static_entry get_analysis symbol = static_entry get_analysis' symbol.
Proof.
  intros Hsame. unfold static_entry.
  rewrite !variant_loop_attempt_loop.
  rewrite (attempt_loop_ext get_analysis'); [done|].
  apply Forall_forall. intros [variant exchange] Hin. simpl.
  unfold attempts in Hin.
  apply list_elem_of_bind in Hin as (v & Hin & Hv).
  apply list_elem_of_fmap in Hin as (e & [= -> ->] & He).
  by apply Hsame.
Qed.
End FetchStaticMore.

(** The class-A share is found under its dotted name on the second
    exchange, after three attempts that return nothing. *)
Lemma static_entry_cases_witness :
  static_entry MoreSamples.brk_service "BRK-A"
  = {[ "rsi" := VNum 61.5; "sma" := VNum 480000 ]}.
Proof.
  destruct (static_entry_cases MoreSamples.brk_service "BRK-A") as [Hfirst _].
  exact (Hfirst [("BRK-A", "NASDAQ"); ("BRK-A", "NYSE"); ("BRK.A", "NASDAQ")] []
           "BRK.A" "NYSE" {[ "RSI" := VNum 61.5; "SMA20" := VNum 480000 ]}
           eq_refl ltac:(repeat constructor) eq_refl eq_refl).
Defined.

Lemma static_entry_ext_witness :
  static_entry MoreSamples.brk_service "BRK-A"
  = static_entry MoreSamples.brk_service_elsewhere "BRK-A".
Proof.
  apply static_entry_ext. intros variant exchange _ Hex.
  unfold MoreSamples.brk_service_elsewhere.
  apply elem_of_cons in Hex as [-> | Hex]; [reflexivity|].
  apply elem_of_cons in Hex as [-> | Hex]; [reflexivity|].
  by apply not_elem_of_nil in Hex.
Defined.

(** ** The scraper, continued *)

Lemma text_or_na_string (el : option string) : exists s, text_or_na el = VStr s.
Proof. destruct el; simpl; eauto. Qed.

Lemma scrape_record_dom (query_selector : string -> option string) :
  dom (scrape_record query_selector)
  = ({[ "price"; "premarket_price"; "premarket_change"; PCT ]} : gset string).
Proof.
  unfold scrape_record. rewrite !dom_insert_L, dom_singleton_L. set_solver.
Qed.

Lemma scrape_record_strings (query_selector : string -> option string)
  (k : string) (v : value) :
  scrape_record query_selector !! k = Some v -> exists s, v = VStr s.
Proof.
  unfold scrape_record. intros Hk.
  repeat (apply lookup_insert_Some in Hk as [[_ <-] | [_ Hk]];
          [first [by apply text_or_na_string | by eexists]|]).
  apply lookup_singleton_Some in Hk as [_ <-]. apply text_or_na_string.
Qed.

Section FetchDynamicMore.
Variable page : nat -> string -> string -> option string.
Variable clock : nat -> float.

Lemma scrape_loop_app (l1 l2 : list string) (idx : nat)
  (st : gmap string record * float * nat) :
  scrape_loop page clock idx (l1 ++ l2) st
  = scrape_loop page clock (idx + length l1) l2 (scrape_loop page clock idx l1 st).
Proof.
  revert idx st. induction l1 as [|s l1 IH]; intros idx st; simpl.
  - by rewrite Nat.add_0_r.
  - destruct st as [[results total] reads].
    rewrite IH. by rewrite Nat.add_succ_r.
Qed.

Lemma scrape_loop_entry (stock_list : list string) (idx : nat)
  (st : gmap string record * float * nat) (symbol : string) (entry : record) :
  (scrape_loop page clock idx stock_list st).1.1 !! symbol = Some entry ->
  (symbol ∈ stock_list /\ exists i, entry = scrape_record (page i symbol))
  \/ ((symbol ∉ stock_list) /\ (st.1.1) !! symbol = Some entry).
Proof.
  destruct (decide (symbol ∈ stock_list)) as [Hin | Hnot].
  - destruct (scrape_loop_lookup page clock stock_list idx st symbol Hin)
      as (i & _ & ->).
    intros [= <-]. left. eauto.
  - rewrite scrape_loop_other by done. by right.
Qed.

(** The mapping the loop leaves has an entry for exactly the symbols of
    the list, each with the four fields, all strings. *)
Lemma scrape_loop_entries (stock_list : list string) :
  let results := (scrape_loop page clock 1 stock_list (∅, 0%float, 1%nat)).1.1 in
  dom results = list_to_set stock_list
  /\ forall symbol entry,
      results !! symbol = Some entry ->
      dom entry = ({[ "price"; "premarket_price"; "premarket_change"; PCT ]}
                     : gset string)
      /\ forall k v, entry !! k = Some v -> exists s, v = VStr s.
Proof.
  cbv zeta. split.
  - apply set_eq. intros symbol.
    rewrite elem_of_dom, elem_of_list_to_set. split.
    + intros [entry Hentry].
      apply scrape_loop_entry in Hentry as [[Hin _] | [_ Hempty]]; done.
    + intros Hin.
      destruct (scrape_loop_lookup page clock stock_list 1 (∅, 0%float, 1%nat) symbol Hin)
        as (i & _ & ->). by eexists.
  - intros symbol entry Hentry.
    apply scrape_loop_entry in Hentry as [[_ [i ->]] | [_ Hempty]]; [|done].
    split; [apply scrape_record_dom | apply scrape_record_strings].
Qed.

(** X6. A symbol that is listed more than once is scraped each time, and
    its entry is what the last of these iterations read: the entry of a
    symbol is the one of the iteration after which the symbol does not occur
    again. *)
Theorem fetch_dynamic_data_last_scrape (pre post : list string) (symbol : string) :
  symbol ∉ post ->
  exists results overall avg,
    fetch_dynamic_data page clock (pre ++ symbol :: post) = Some (results, overall, avg)
    /\ results !! symbol = Some (scrape_record (page (S (length pre)) symbol)).
Proof.
  intros Hnot.
  destruct (fetch_dynamic_data_returns page clock (pre ++ symbol :: post))
    as (overall & avg & Hrun).
  eexists _, overall, avg. split; [exact Hrun|].
  rewrite scrape_loop_app.
  destruct (scrape_loop page clock 1 pre (∅, 0%float, 1%nat)) as [[results total] reads].
  simpl. rewrite scrape_loop_other by done. simpl.
  by rewrite lookup_insert_eq.
Qed.
End FetchDynamicMore.

(** The same symbol typed in the first and in the third iteration, on a page
    whose price changes after the first: the later price is kept. *)
Lemma fetch_dynamic_data_last_scrape_witness :
  exists results overall avg entry,
    fetch_dynamic_data MoreSamples.ticking_page Samples.steady_clock
                       ["AAPL"; "MSFT"; "AAPL"]
    = Some (results, overall, avg)
    /\ results !! "AAPL" = Some entry
    /\ entry !! "price" = Some (VStr "101.00").
Proof.
  destruct (fetch_dynamic_data_last_scrape MoreSamples.ticking_page Samples.steady_clock
              ["AAPL"; "MSFT"] [] "AAPL" ltac:(apply not_elem_of_nil))
    as (results & overall & avg & Hrun & Hentry).
  exists results, overall, avg, (scrape_record (MoreSamples.ticking_page 3 "AAPL")).
  split; [exact Hrun|]. split; [exact Hentry | reflexivity].
Defined.

(** ** The merge, continued *)

Section MergeMore.
Context `{PyRuntime}.

Lemma position_of_cases (price sma : value) :
  position_of price sma = "Above SMA"
  \/ position_of price sma = "Below SMA"
  \/ position_of price sma = "N/A".
Proof.
  unfold position_of.
  destruct (_ && _); [|by auto].
  destruct price as [| |p]; [by auto | by auto |].
  destruct (float_of_string (remove_char "," p)); [|by auto].
  destruct (float_of_string (remove_char "," (py_str sma))); [|by auto].
  destruct (PrimFloat.ltb _ _); auto.
Qed.

Lemma merge_results_length (stock_list : list string)
  (static_results dynamic_data : gmap string record) :
  length (merge_results stock_list static_results dynamic_data) = length stock_list.
Proof. by rewrite merge_results_fmap, length_fmap. Qed.

(** X7. The merge returns one record per symbol of the list, in the order
    of the list, each carrying its symbol; symbols that are missing from
    either mapping are not skipped, and a symbol listed twice gives two
    records. *)
Theorem merge_results_symbols (stock_list : list string)
  (static_results dynamic_data : gmap string record) :
  length (merge_results stock_list static_results dynamic_data) = length stock_list
  /\ (fun r : record => r !! "symbol")
       <$> merge_results stock_list static_results dynamic_data
     = (fun symbol => Some (VStr symbol)) <$> stock_list.
Proof.
  split; [apply merge_results_length|].
  rewrite merge_results_fmap, <- list_fmap_compose. apply list_fmap_ext.
  intros i symbol _. simpl. apply merged_record_symbol.
Qed.

(** X8. Every merged record has exactly the eight fields [symbol], [rsi],
    [sma], [position], [price], [premarket_price], [premarket_change] and
    [premarket_change_percent], so it is never flagged as errored, and its
    position is one of ["Above SMA"], ["Below SMA"] and ["N/A"]. *)
Theorem merged_record_shape (symbol : string) (sdata ddata : record) :
  dom (merged_record symbol sdata ddata)
  = ({[ "symbol"; "rsi"; "sma"; "position"; "price"; "premarket_price";
        "premarket_change"; PCT ]} : gset string)
  /\ has_error (merged_record symbol sdata ddata) = false
  /\ exists position,
      merged_record symbol sdata ddata !! "position" = Some (VStr position)
      /\ (position = "Above SMA" \/ position = "Below SMA" \/ position = "N/A").
Proof.
  split; [|split].
  - unfold merged_record. rewrite !dom_insert_L, dom_singleton_L. set_solver.
  - unfold has_error, dict_has, merged_record. by simplify_map_eq.
  - eexists. split; [apply merged_record_position | apply position_of_cases].
Qed.

Lemma count_sentinel_merge_results_eq (stock_list : list string)
  (static_results dynamic_data : gmap string record) :
  count_sentinel (merge_results stock_list static_results dynamic_data)
  = length (List.filter (fun symbol => String.eqb symbol SENTINEL) stock_list).
Proof.
  rewrite merge_results_fmap. unfold count_sentinel.
  induction stock_list as [|symbol rest IH]; [done|].
  rewrite fmap_cons. cbn [List.filter]. rewrite is_sentinel_merged_record.
  destruct (String.eqb symbol SENTINEL); simpl; by rewrite IH.
Qed.

End MergeMore.

(** ** The normalizer, continued *)

Section NormalizerMore.
Context `{PyRuntime}.

Lemma is_sentinel_insert_percent (stock : record) (v : value) :
  is_sentinel (<[PCT := v]> stock) = is_sentinel stock.
Proof. unfold is_sentinel, dict_get. by rewrite lookup_insert_ne. Qed.

Lemma has_error_insert_percent (stock : record) (v : value) :
  has_error (<[PCT := v]> stock) = has_error stock.
Proof. unfold has_error, dict_has. by rewrite lookup_insert_ne. Qed.

(** What the normalizer appends for a record that is not the sentinel: the
    record with its percent overwritten by a number or by ["N/A"]. *)
Lemma normalize_stock_Some (stock s : record) :
  is_sentinel stock = false ->
  normalize_stock stock = Some s ->
  has_error stock = false
  /\ exists w, s = <[PCT := w]> stock /\ (w = VStr "N/A" \/ exists x, w = VNum x).
Proof.
  intros Hsent. unfold normalize_stock, py_truediv. rewrite Hsent.
  destruct (has_error stock); [done|]. cbv zeta.
  destruct (_ || _); [intros [= <-]; by eauto 6|].
  destruct (float_of_string _) as [price|]; [|done].
  destruct (float_of_string _) as [change|]; [|done].
  destruct (PrimFloat.eqb price 0); simpl; intros [= <-]; by eauto 6.
Qed.

(** The percent a record already has plays no part in what the normalizer
    does with it. *)
Lemma normalize_stock_insert_percent (stock : record) (v : value) :
  is_sentinel stock = false ->
  normalize_stock (<[PCT := v]> stock) = normalize_stock stock.
Proof.
  intros Hsent. unfold normalize_stock, stripped_field, dict_get.
  rewrite is_sentinel_insert_percent, has_error_insert_percent, Hsent.
  rewrite !(lookup_insert_ne stock PCT) by done.
  destruct (has_error stock); [done|].
  destruct (_ || _); [by rewrite insert_insert_eq|].
  destruct (float_of_string _) as [price|]; [|done].
  destruct (float_of_string _) as [change|]; [|done].
  destruct (negb _); [|by rewrite insert_insert_eq].
  destruct (py_truediv change price); [by rewrite insert_insert_eq | done].
Qed.

Lemma normalize_stock_fixed (stock s : record) :
  normalize_stock stock = Some s -> normalize_stock s = Some s.
Proof.
  intros Hs. destruct (is_sentinel stock) eqn:Hsent.
  - unfold normalize_stock in Hs. rewrite Hsent in Hs. injection Hs as <-.
    unfold normalize_stock. by rewrite Hsent.
  - destruct (normalize_stock_Some stock s Hsent Hs) as (_ & w & -> & _).
    by rewrite normalize_stock_insert_percent.
Qed.

(** X10. The normalizer is idempotent: run on its own output it returns
    that output, dropping nothing more and changing no percent. *)
Theorem filter_premarket_data_idempotent (data : list record) :
  filter_premarket_data (filter_premarket_data data) = filter_premarket_data data.
Proof.
  rewrite !filter_premarket_data_omap.
  induction data as [|stock data IH]; [done|]. csimpl.
  destruct (normalize_stock stock) as [s|] eqn:Hs; [|done].
  csimpl. by rewrite (normalize_stock_fixed stock s Hs), IH.
Qed.

Lemma filter_premarket_data_record (data : list record) (r : record) :
  r ∈ filter_premarket_data data ->
  is_sentinel r = true
  \/ (has_error r = false
      /\ exists w, r !! PCT = Some w /\ (w = VStr "N/A" \/ exists x, w = VNum x)).
Proof.
  rewrite filter_premarket_data_omap. intros (stock & _ & Hs)%list_elem_of_omap.
  destruct (is_sentinel stock) eqn:Hsent.
  - unfold normalize_stock in Hs. rewrite Hsent in Hs. injection Hs as <-. by left.
  - destruct (normalize_stock_Some stock r Hsent Hs) as (Herr & w & -> & Hw).
    right. rewrite has_error_insert_percent, lookup_insert_eq. eauto.
Qed.

(** X11. The output of the normalizer is never longer than its input, and
    every record of it is either a sentinel, passed as it came, or a record
    without an error flag whose percent is a number or ["N/A"]: no percent
    text of the input survives. *)
Theorem filter_premarket_data_output (data : list record) :
  length (filter_premarket_data data) <= length data
  /\ Forall (fun r : record =>
               is_sentinel r = true
               \/ (has_error r = false
                   /\ exists w, r !! PCT = Some w
                                /\ (w = VStr "N/A" \/ exists x, w = VNum x)))
            (filter_premarket_data data).
Proof.
  split.
  { rewrite filter_premarket_data_omap.
    induction data as [|stock data IH]; [done|]. csimpl.
    destruct (normalize_stock stock); simpl; lia. }
  apply Forall_forall. apply filter_premarket_data_record.
Qed.
End NormalizerMore.

(** ** The ranker, continued *)

Lemma insert_keyed_strings (x : value * record) (l : list (value * record)) :
  (exists s, fst x = VStr s) ->
  Forall (fun y => exists s, fst y = VStr s) l ->
  is_Some (insert_keyed x l).
Proof.
  intros [s Hx] Hl. induction Hl as [|y l [t Hy] _ IH]; simpl; [done|].
  rewrite Hx, Hy. simpl. destruct (String.ltb s t); [done|].
  by destruct IH as [r ->].
Qed.

Lemma sort_keyed_strings (l acc : list (value * record)) :
  Forall (fun y => exists s, fst y = VStr s) l ->
  Forall (fun y => exists s, fst y = VStr s) acc ->
  is_Some (foldl (fun acc x => match acc with None => None | Some s => insert_keyed x s end)
                 (Some acc) l).
Proof.
  intros Hl. revert acc. induction Hl as [|x l Hx _ IH]; intros acc Hacc; simpl; [done|].
  destruct (insert_keyed_strings x acc Hx Hacc) as [acc' Hins].
  rewrite Hins. apply IH.
  apply insert_keyed_Permutation in Hins. rewrite Hins. by constructor.
Qed.

(** On records whose sort keys are all strings, [sorted] returns. *)
Lemma py_sorted_strings (reversed : bool) (l : list record) :
  Forall (fun x => exists s, sort_key x = Some (VStr s)) l ->
  is_Some (py_sorted reversed l).
Proof.
  intros Hl. unfold py_sorted.
  assert (Hkeyed : exists keyed,
             mapM (fun x => match sort_key x with None => None | Some k => Some (k, x) end) l
             = Some keyed
             /\ Forall (fun y => exists s, fst y = VStr s) keyed).
  { induction Hl as [|x l [s Hs] _ (keyed & Hk & Hgood)].
    - by exists [].
    - exists ((VStr s, x) :: keyed). split.
      + apply mapM_Some_2. constructor; [by rewrite Hs | by apply mapM_Some_1].
      + constructor; [by exists s | done]. }
  destruct Hkeyed as (keyed & -> & Hgood).
  destruct (sort_keyed_strings (if reversed then reverse keyed else keyed) [])
    as [s Hs]; [by destruct reversed; rewrite ?Forall_reverse | done |].
  unfold sort_keyed. by rewrite Hs.
Qed.

Section RankerMore.
Context `{PyRuntime}.
Variable config : gmap string float.

Lemma classify_stock_guard (stock : record) :
  fst (classify_stock config stock) = true \/ snd (classify_stock config stock) = true ->
  is_sentinel stock = false /\ has_error stock = false
  /\ is_none (dict_get stock "rsi" VNone) = false
  /\ is_none (dict_get stock PCT VNone) = false
  /\ value_is_str (dict_get stock PCT VNone) "N/A" = false.
Proof.
  unfold classify_stock.
  destruct (is_sentinel stock); [by intros [|]|].
  destruct (has_error stock); [by intros [|]|].
  destruct (is_none (dict_get stock "rsi" VNone)); [by intros [|]|].
  destruct (is_none (dict_get stock PCT VNone)); [by intros [|]|].
  destruct (value_is_str (dict_get stock PCT VNone) "N/A"); [by intros [|]|].
  done.
Qed.

Lemma filter_opportunities_none (data : list record) :
  Forall (fun stock => classify_stock config stock = (false, false)) data ->
  filter_opportunities config data = Some ([], []).
Proof.
  intros Hnone.
  assert (Hl : long_candidates config data = []).
  { apply elem_of_nil_inv. intros stock [Hin Hc]%elem_of_long_candidates.
    rewrite Forall_forall in Hnone. by rewrite (Hnone stock Hin) in Hc. }
  assert (Hs : short_candidates config data = []).
  { apply elem_of_nil_inv. intros stock [Hin Hc]%elem_of_short_candidates.
    rewrite Forall_forall in Hnone. by rewrite (Hnone stock Hin) in Hc. }
  unfold filter_opportunities. by rewrite Hl, Hs.
Qed.

(** X12. The normalizer followed by the ranker: on the output of the
    normalizer the ranker always returns, whatever the input records and
    the thresholds, and its long list descends by percent and its short
    list ascends. *)
Theorem normalized_data_ranked_in_order (data : list record) :
  exists long short,
    filter_opportunities config (filter_premarket_data data) = Some (long, short)
    /\ Sorted descends long /\ Sorted ascends short.
Proof.
  assert (Hcand : forall stock,
             stock ∈ filter_premarket_data data ->
             fst (classify_stock config stock) = true
             \/ snd (classify_stock config stock) = true ->
             exists p, percent_number stock = Some p /\ PrimFloat.leb p p = true).
  { intros stock Hin Hc.
    destruct (classify_stock_guard stock Hc) as (Hsent & _ & _ & _ & Hna).
    destruct (filter_premarket_data_record data stock Hin)
      as [Hs | (_ & w & Hw & [-> | [x ->]])].
    - congruence.
    - unfold dict_get in Hna. by rewrite Hw in Hna.
    - apply (classify_stock_percent config); [|done].
      intros s. by rewrite Hw. }
  unfold filter_opportunities.
  destruct (py_sorted_Sorted true (long_candidates config (filter_premarket_data data)))
    as (long & -> & Hlong).
  { apply Forall_forall. intros stock [Hin Hc]%elem_of_long_candidates. eauto. }
  destruct (py_sorted_Sorted false (short_candidates config (filter_premarket_data data)))
    as (short & -> & Hshort).
  { apply Forall_forall. intros stock [Hin Hc]%elem_of_short_candidates. eauto. }
  by exists long, short.
Qed.

(** X13. The ranker returns records of its input only, as they came: every
    record of either list is a record of the input that is neither a
    sentinel nor errored and has an oscillator value and a percent other
    than ["N/A"]; and the two lists together are at most twice as long as the
    input. *)
Theorem filter_opportunities_from_input (data long short : list record) :
  filter_opportunities config data = Some (long, short) ->
  Forall (fun stock : record =>
            stock ∈ data
            /\ is_sentinel stock = false /\ has_error stock = false
            /\ is_none (dict_get stock "rsi" VNone) = false
            /\ is_none (dict_get stock PCT VNone) = false
            /\ value_is_str (dict_get stock PCT VNone) "N/A" = false)
         (long ++ short)
  /\ length long <= length data /\ length short <= length data.
Proof.
  intros [Hl Hs]%filter_opportunities_Permutation. split; [|split].
  - apply Forall_app. split; apply Forall_forall; intros stock Hin.
    + rewrite Hl in Hin. apply elem_of_long_candidates in Hin as [Hin Hc].
      split; [done|]. apply classify_stock_guard. by left.
    + rewrite Hs in Hin. apply elem_of_short_candidates in Hin as [Hin Hc].
      split; [done|]. apply classify_stock_guard. by right.
  - rewrite Hl. unfold long_candidates, candidates. rewrite candidates_loop. simpl.
    apply List.filter_length_le.
  - rewrite Hs. unfold short_candidates, candidates. rewrite candidates_loop. simpl.
    apply List.filter_length_le.
Qed.
End RankerMore.

(** The ranking example of the specification: one long and one short
    candidate out of three records. *)
Lemma filter_opportunities_from_input_witness :
  filter_opportunities ∅ Samples.ranking_input = Some ([Samples.low], [Samples.high])
  /\ Forall (fun stock : record =>
               stock ∈ Samples.ranking_input
               /\ is_sentinel stock = false /\ has_error stock = false
               /\ is_none (dict_get stock "rsi" VNone) = false
               /\ is_none (dict_get stock PCT VNone) = false
               /\ value_is_str (dict_get stock PCT VNone) "N/A" = false)
            ([Samples.low] ++ [Samples.high]).
Proof.
  split; [reflexivity|].
  exact (proj1 (filter_opportunities_from_input ∅ Samples.ranking_input
                  [Samples.low] [Samples.high] eq_refl)).
Defined.

(** ** The stages composed *)

Section PipelineMore.
Context `{PyRuntime}.
Variable config : gmap string float.
Variable page : nat -> string -> string -> option string.
Variable clock : nat -> float.

(** The two premarket fields the merge copies from the scrape of a list:
    the change is ["N/A"], and the percent is ["N/A"] or the stripped text of
    the percent element of one of the pages read for the symbol. *)
Lemma scraped_premarket_fields (stock_list : list string) (symbol : string) :
  let ddata := default ∅ ((scrape_loop page clock 1 stock_list (∅, 0%float, 1%nat)).1.1
                            !! symbol) in
  dict_get ddata "premarket_change" (VStr "N/A") = VStr "N/A"
  /\ (dict_get ddata PCT (VStr "N/A") = VStr "N/A"
      \/ exists i inner_text,
          page i symbol SEL_PM_PERCENT = Some inner_text
          /\ dict_get ddata PCT (VStr "N/A") = VStr (strip inner_text)).
Proof.
  destruct (_ !! symbol) as [entry|] eqn:Hentry; simpl; [|by auto].
  apply scrape_loop_entry in Hentry as [[_ [i ->]] | [_ Hempty]]; [|done].
  split; [reflexivity|].
  unfold dict_get, scrape_record. simplify_map_eq.
  destruct (page i symbol SEL_PM_PERCENT) as [t|] eqn:Ht; simpl; eauto.
Qed.

Lemma merged_record_premarket (symbol : string) (sdata ddata : record) :
  merged_record symbol sdata ddata !! "premarket_change"
  = Some (dict_get ddata "premarket_change" (VStr "N/A"))
  /\ merged_record symbol sdata ddata !! PCT = Some (dict_get ddata PCT (VStr "N/A")).
Proof. unfold merged_record. by simplify_map_eq. Qed.

Lemma classify_stock_unranked (stock : record) :
  is_sentinel stock = true \/ stock !! PCT = Some (VStr "N/A")
  \/ (exists s, stock !! PCT = Some (VStr s) /\ float_of_string s = None) ->
  classify_stock config stock = (false, false).
Proof.
  intros [Hsent | [Hna | (s & Hs & Hfloat)]].
  - unfold classify_stock. by rewrite Hsent.
  - apply classify_stock_excluded. do 2 right. left.
    unfold dict_get. by rewrite Hna.
  - apply classify_stock_excluded. do 3 right.
    unfold dict_get. by rewrite Hs.
Qed.

Lemma normalize_stock_without_change (stock : record) :
  has_error stock = false ->
  stock !! "premarket_change" = Some (VStr "N/A") ->
  exists s, normalize_stock stock = Some s
            /\ (is_sentinel s = true \/ s !! PCT = Some (VStr "N/A")).
Proof.
  intros Herr Hchange. unfold normalize_stock.
  destruct (is_sentinel stock) eqn:Hsent; [by eauto|].
  rewrite Herr. cbv zeta.
  unfold stripped_field at 2. unfold dict_get. rewrite Hchange. simpl.
  rewrite orb_true_r. eexists. split; [done|]. right. apply lookup_insert_eq.
Qed.

Variable get_analysis : string -> string -> lookup.

(** X14. A combined fetch followed by the normalizer and the ranker finds
    nothing: the scraper leaves every [premarket_change] at ["N/A"], so the
    normalizer keeps all the records and sets the percent of each
    per-symbol record to ["N/A"], whatever percent the page showed, and the
    ranker returns two empty lists, whatever the thresholds. *)
Theorem fetched_data_has_no_opportunities (stock_list : list string) :
  exists records,
    fetch_all_stocks get_analysis page clock stock_list = Some records
    /\ length (filter_premarket_data records) = length records
    /\ Forall (fun r : record => is_sentinel r = true \/ r !! PCT = Some (VStr "N/A"))
              (filter_premarket_data records)
    /\ filter_opportunities config (filter_premarket_data records) = Some ([], []).
Proof.
  unfold fetch_all_stocks.
  destruct (fetch_dynamic_data_returns page clock stock_list) as (overall & avg & ->).
  eexists. split; [reflexivity|].
  set (records := (merge_results _ _ _ ++ _)%list).
  assert (Hrecords : Forall (fun r : record =>
                               exists s, normalize_stock r = Some s
                                         /\ (is_sentinel s = true
                                             \/ s !! PCT = Some (VStr "N/A")))
                            records).
  { apply Forall_app. split.
    - rewrite merge_results_fmap. apply Forall_fmap, Forall_forall.
      intros symbol _. simpl.
      apply normalize_stock_without_change.
      + unfold has_error, dict_has, merged_record. by simplify_map_eq.
      + destruct (merged_record_premarket symbol
          (default ∅ (fetch_static_data get_analysis stock_list !! symbol))
          (default ∅ ((scrape_loop page clock 1 stock_list (∅, 0%float, 1%nat)).1.1
                        !! symbol))) as [-> _].
        by destruct (scraped_premarket_fields stock_list symbol) as [-> _].
    - constructor; [|constructor].
      exists (stats_record overall avg).
      pose proof (is_sentinel_stats_record overall avg) as Hsent.
      unfold normalize_stock. rewrite Hsent. by eauto. }
  assert (Hout : length (filter_premarket_data records) = length records
                 /\ Forall (fun r : record =>
                              is_sentinel r = true \/ r !! PCT = Some (VStr "N/A"))
                           (filter_premarket_data records)).
  { rewrite filter_premarket_data_omap. clear -Hrecords.
    induction Hrecords as [|r records (s & Hs & Hr) _ [IHlen IHall]]; [done|].
    csimpl. rewrite Hs. csimpl. split; [by rewrite IHlen | by constructor]. }
  destruct Hout as [Hlen Hall]. split; [done|]. split; [done|].
  apply filter_opportunities_none.
  eapply Forall_impl; [exact Hall|].
  intros r [Hr | Hr]; apply classify_stock_unranked; auto.
Qed.

Lemma merged_percent_string (stock_list : list string)
  (static_results : gmap string record) (stock : record) :
  stock ∈ merge_results stock_list static_results
            (scrape_loop page clock 1 stock_list (∅, 0%float, 1%nat)).1.1 ->
  exists s,
    stock !! PCT = Some (VStr s)
    /\ (s = "N/A"
        \/ exists i symbol inner_text,
            page i symbol SEL_PM_PERCENT = Some inner_text /\ s = strip inner_text).
Proof.
  rewrite merge_results_fmap. intros (symbol & -> & _)%list_elem_of_fmap.
  destruct (merged_record_premarket symbol (default ∅ (static_results !! symbol))
    (default ∅ ((scrape_loop page clock 1 stock_list (∅, 0%float, 1%nat)).1.1
                  !! symbol))) as [_ ->].
  destruct (scraped_premarket_fields stock_list symbol) as [_ [-> | (i & t & Ht & ->)]];
    eauto 10.
Qed.

Lemma merged_percent_is_string (stock_list : list string)
  (static_results dynamic_data : gmap string record) (stock : record) :
  (forall symbol entry v,
      dynamic_data !! symbol = Some entry -> entry !! PCT = Some v ->
      exists s, v = VStr s) ->
  stock ∈ merge_results stock_list static_results dynamic_data ->
  exists s, stock !! PCT = Some (VStr s).
Proof.
  intros Hstr. rewrite merge_results_fmap. intros (symbol & -> & _)%list_elem_of_fmap.
  destruct (merged_record_premarket symbol (default ∅ (static_results !! symbol))
              (default ∅ (dynamic_data !! symbol))) as [_ ->].
  unfold dict_get.
  destruct (dynamic_data !! symbol) as [entry|] eqn:Hentry; simpl; [|by eauto].
  destruct (entry !! PCT) as [v|] eqn:Hv; simpl; [|by eauto].
  destruct (Hstr symbol entry v Hentry Hv) as [s ->]. by eauto.
Qed.

Lemma filter_opportunities_merged (stock_list : list string)
  (static_results dynamic_data : gmap string record) :
  (forall symbol entry v,
      dynamic_data !! symbol = Some entry -> entry !! PCT = Some v ->
      exists s, v = VStr s) ->
  exists long short,
    filter_opportunities config (merge_results stock_list static_results dynamic_data)
    = Some (long, short).
Proof.
  intros Hstr. set (final_results := merge_results _ _ _).
  assert (Hkeys : forall stock,
             stock ∈ final_results ->
             fst (classify_stock config stock) = true
             \/ snd (classify_stock config stock) = true ->
             exists s, sort_key stock = Some (VStr s)).
  { intros stock Hin Hc.
    destruct (merged_percent_is_string _ _ _ _ Hstr Hin) as (s & Hs).
    destruct (classify_stock_guard config stock Hc) as (_ & _ & _ & _ & Hna).
    unfold dict_get in Hna. rewrite Hs in Hna. simpl in Hna.
    exists s. unfold sort_key. rewrite Hs. simpl. by rewrite Hna. }
  unfold filter_opportunities.
  destruct (py_sorted_strings true (long_candidates config final_results)) as [long ->].
  { apply Forall_forall. intros stock [Hin Hc]%elem_of_long_candidates. eauto. }
  destruct (py_sorted_strings false (short_candidates config final_results)) as [short ->].
  { apply Forall_forall. intros stock [Hin Hc]%elem_of_short_candidates. eauto. }
  by eauto.
Qed.

(** X15. In the dynamic run the ranking of the merged records does not
    raise, whatever the indicator file holds, when every percent of the
    scrape is a string, as the scraper makes them: the two calls of [sorted]
    then compare strings only. *)
Theorem merged_records_ranked (stock_list : list string)
  (static_results dynamic_data : gmap string record) :
  (forall symbol entry v,
      dynamic_data !! symbol = Some entry -> entry !! PCT = Some v ->
      exists s, v = VStr s) ->
  exists long short,
    filter_opportunities config (merge_results stock_list static_results dynamic_data)
    = Some (long, short)
    /\ Forall (fun stock => stock ∈ merge_results stock_list static_results dynamic_data)
              (long ++ short).
Proof.
  intros Hstr.
  destruct (filter_opportunities_merged stock_list static_results dynamic_data Hstr)
    as (long & short & Hopp).
  exists long, short. split; [exact Hopp|].
  destruct (filter_opportunities_Permutation _ _ _ _ Hopp) as [Hl Hs].
  apply Forall_app. split; apply Forall_forall; intros stock Hin.
  - rewrite Hl in Hin. by apply elem_of_long_candidates in Hin as [Hin _].
  - rewrite Hs in Hin. by apply elem_of_short_candidates in Hin as [Hin _].
Qed.

(** X16. When no percent text of the pages reads as a float once stripped,
    as with the texts that end in a percent sign, the dynamic run finds no
    long and no short candidate, whatever the indicators and the
    thresholds: the ranker is given the scraped text, not a number. *)
Theorem run_dynamic_analysis_without_numbers (stock_list : list string)
  (static_results : gmap string record) :
  (forall i symbol inner_text,
      page i symbol SEL_PM_PERCENT = Some inner_text ->
      float_of_string (strip inner_text) = None) ->
  exists final_results,
    run_dynamic_analysis page clock config stock_list static_results
    = Some (final_results, ([], [])).
Proof.
  intros Htext. unfold run_dynamic_analysis.
  destruct (fetch_dynamic_data_returns page clock stock_list) as (overall & avg & ->).
  rewrite filter_opportunities_none; [by eauto|].
  apply Forall_forall. intros stock Hin.
  apply classify_stock_unranked.
  destruct (merged_percent_string _ _ _ Hin) as (s & Hs & [-> | (i & symbol & t & Ht & ->)]);
    [by auto|].
  do 2 right. exists (strip t). eauto.
Qed.
End PipelineMore.

(** A scraped percent that reads as a number: the symbol is ranked. *)
Lemma merged_records_ranked_witness :
  exists long short,
    filter_opportunities ∅
      (merge_results ["AAPL"]
         {[ "AAPL" := {[ "rsi" := VNum 25; "sma" := VNum 180 ]} ]}
         {[ "AAPL" := scrape_record (MoreSamples.plain_percent_page 1 "AAPL") ]})
    = Some (long, short)
    /\ Forall (fun stock =>
                 stock ∈ merge_results ["AAPL"]
                           {[ "AAPL" := {[ "rsi" := VNum 25; "sma" := VNum 180 ]} ]}
                           {[ "AAPL" := scrape_record
                                          (MoreSamples.plain_percent_page 1 "AAPL") ]})
              (long ++ short).
Proof.
  apply merged_records_ranked.
  intros symbol entry v [<- <-]%lookup_singleton_Some Hv.
  by apply scrape_record_strings in Hv.
Defined.


(** Two symbols with an oscillator value under the long threshold, on a
    page that shows a premarket percent of +1.23%. *)
Lemma run_dynamic_analysis_without_numbers_witness :
  exists final_results,
    run_dynamic_analysis MoreSamples.percent_page Samples.steady_clock ∅
      ["AAPL"; "MSFT"]
      {[ "AAPL" := {[ "rsi" := VNum 25; "sma" := VNum 180 ]};
         "MSFT" := {[ "rsi" := VNum 20; "sma" := VNum 400 ]} ]}
    = Some (final_results, ([], [])).
Proof.
  apply run_dynamic_analysis_without_numbers.
  intros i symbol inner_text. unfold MoreSamples.percent_page.
  rewrite String.eqb_refl. intros [= <-]. vm_compute. reflexivity.
Defined.

(** ** The opportunity message *)

Section TelegramMore.
Context `{PyRuntime}.

Lemma number_or_na_is_Some (stock : record) (k : string) :
  is_Some (number_or_na stock k) <-> forall s, dict_get stock k VNone <> VStr s.
Proof.
  unfold number_or_na. destruct (dict_get stock k VNone) as [|x|s]; split; try done; eauto.
  intros Hs. by destruct (Hs s).
Qed.

Lemma opportunity_line_is_Some (stock : record) :
  is_Some (opportunity_line stock) <-> printable stock.
Proof.
  unfold opportunity_line, printable. rewrite <- !number_or_na_is_Some.
  destruct (number_or_na stock "rsi"), (number_or_na stock "sma"),
    (stock !! "symbol"), (stock !! "price"); rewrite !is_Some_alt; tauto.
Qed.

Lemma side_lines_is_Some (header none_found : string) (stocks : list record) :
  is_Some (side_lines header none_found stocks) <-> Forall printable stocks.
Proof.
  unfold side_lines. destruct stocks as [|stock rest]; [by split; eauto|].
  transitivity (is_Some (mapM opportunity_line (stock :: rest))).
  { destruct (mapM _ _); rewrite !is_Some_alt; tauto. }
  rewrite mapM_is_Some.
  split; intros HF; (eapply Forall_impl; [exact HF|]); intros x; simpl;
    apply opportunity_line_is_Some.
Qed.

Lemma side_lines_lookup (header none_found : string) (stocks : list record)
  (lines : list string) :
  side_lines header none_found stocks = Some lines ->
  length lines = S (length stocks)
  /\ forall k stock, stocks !! k = Some stock -> lines !! S k = opportunity_line stock.
Proof.
  unfold side_lines. destruct stocks as [|stock rest].
  { intros [= <-]. split; [done|]. intros k stock. by rewrite lookup_nil. }
  destruct (mapM _ _) as [ls|] eqn:Hls; [|done]. intros [= <-].
  apply mapM_Some in Hls. split.
  - simpl. f_equal. symmetry. exact (Forall2_length _ _ _ Hls).
  - intros k st Hk.
    destruct (Forall2_lookup_l _ _ _ _ _ Hls Hk) as (line & Hline & ->). exact Hline.
Qed.

Lemma opportunity_lines_is_Some (long short : list record) :
  is_Some (opportunity_lines long short)
  <-> Forall printable long /\ Forall printable short.
Proof.
  rewrite <- (side_lines_is_Some "**LONG Positions:**" "No LONG opportunities found."),
    <- (side_lines_is_Some "**SHORT Positions:**" "No SHORT opportunities found.").
  unfold opportunity_lines.
  destruct (side_lines _ _ long), (side_lines _ _ short); rewrite !is_Some_alt; tauto.
Qed.

(** X17. The message of the opportunities is built exactly when every
    record of the two lists can be printed: each has a symbol and a price,
    and its oscillator value and its moving average are numbers or [None];
    otherwise [send_opportunity_message] raises and sends nothing. *)
Theorem opportunity_message_built (long short : list record) :
  is_Some (opportunity_message long short) <-> Forall printable (long ++ short)%list.
Proof.
  unfold opportunity_message.
  by rewrite fmap_is_Some, Forall_app, opportunity_lines_is_Some.
Qed.

(** X18. The lines of the message: the title, then for each list its
    header and one line per record in the order of the list, or the one line
    that says none was found, with an empty line between the two lists:
    four lines more than there are records. *)
Theorem opportunity_lines_layout (long short : list record) (lines : list string) :
  opportunity_lines long short = Some lines ->
  length lines = 4 + length long + length short
  /\ lines !! 0 = Some "Top Opportunities:"
  /\ lines !! (2 + length long) = Some ""
  /\ (forall k stock, long !! k = Some stock ->
                      lines !! (2 + k) = opportunity_line stock)
  /\ (forall k stock, short !! k = Some stock ->
                      lines !! (4 + length long + k) = opportunity_line stock).
Proof.
  unfold opportunity_lines.
  destruct (side_lines _ _ long) as [ll|] eqn:Hl; [|done].
  destruct (side_lines _ _ short) as [sl|] eqn:Hs; [|done].
  intros [= <-].
  destruct (side_lines_lookup _ _ _ _ Hl) as [Hll Hlk].
  destruct (side_lines_lookup _ _ _ _ Hs) as [Hsl Hsk].
  split; [|split; [|split; [|split]]].
  - simpl. rewrite length_app. simpl. lia.
  - done.
  - change (2 + length long) with (S (S (length long))). rewrite <- Hll. simpl.
    by apply list_lookup_middle.
  - intros k stock Hk. change (2 + k) with (S (S k)). simpl.
    rewrite lookup_app_l; [by apply Hlk|].
    apply lookup_lt_Some in Hk. lia.
  - intros k stock Hk.
    replace (4 + length long + k) with (S (length ll + S (S k))) by lia.
    rewrite lookup_cons_ne_0 by done. simpl. rewrite lookup_app_r by lia.
    replace (length ll + S (S k) - length ll) with (S (S k)) by lia.
    by apply Hsk.
Qed.
End TelegramMore.

(** One long candidate and no short candidate give five lines. *)
Lemma opportunity_lines_layout_witness :
  opportunity_lines [MoreSamples.long_pick] [] = Some MoreSamples.long_pick_lines
  /\ length MoreSamples.long_pick_lines = 5.
Proof.
  assert (E : opportunity_lines [MoreSamples.long_pick] []
              = Some MoreSamples.long_pick_lines) by (vm_compute; reflexivity).
  exact (conj E (proj1 (opportunity_lines_layout _ _ _ E))).
Defined.

Lemma merged_record_printable `{PyRuntime} (symbol : string) (sdata ddata : record) :
  (forall s, dict_get sdata "rsi" VNone <> VStr s) ->
  (forall s, dict_get sdata "sma" VNone <> VStr s) ->
  printable (merged_record symbol sdata ddata).
Proof.
  intros Hrsi Hsma. unfold printable, merged_record, dict_get.
  simplify_map_eq. eauto.
Qed.

Section DynamicRunMessage.
Context `{PyRuntime}.
Variable config : gmap string float.

(** X19. In the dynamic run the message of the opportunities is built
    whenever every percent of the scrape is a string and the indicator file
    holds no string for an oscillator value or a moving average, whichever
    symbols are missing from either: the ranking returns, and every record
    it ranks has a symbol and a price. *)
Theorem dynamic_run_message_built (stock_list : list string)
  (static_results dynamic_data : gmap string record) :
  (forall symbol entry v,
      dynamic_data !! symbol = Some entry -> entry !! PCT = Some v ->
      exists s, v = VStr s) ->
  (forall symbol entry s,
      static_results !! symbol = Some entry ->
      dict_get entry "rsi" VNone <> VStr s /\ dict_get entry "sma" VNone <> VStr s) ->
  exists long short,
    filter_opportunities config (merge_results stock_list static_results dynamic_data)
    = Some (long, short)
    /\ is_Some (opportunity_message long short).
Proof.
  intros Hstr Hfile.
  destruct (filter_opportunities_merged config stock_list static_results dynamic_data Hstr)
    as (long & short & Hopp).
  exists long, short. split; [exact Hopp|].
  destruct (filter_opportunities_Permutation _ _ _ _ Hopp) as [Hl Hs].
  assert (Hall : Forall printable (merge_results stock_list static_results dynamic_data)).
  { rewrite merge_results_fmap. apply Forall_fmap, Forall_forall. intros symbol _. simpl.
    apply merged_record_printable; intros s' Hs';
      destruct (static_results !! symbol) as [entry|] eqn:Hentry; simpl in Hs';
      try (by destruct (Hfile symbol entry s' Hentry)); done. }
  rewrite Forall_forall in Hall.
  unfold opportunity_message. rewrite fmap_is_Some, opportunity_lines_is_Some.
  split; apply Forall_forall; intros stock Hin.
  - rewrite Hl in Hin. apply elem_of_long_candidates in Hin as [Hin _]. by apply Hall.
  - rewrite Hs in Hin. apply elem_of_short_candidates in Hin as [Hin _]. by apply Hall.
Qed.
End DynamicRunMessage.

(** A scraped percent that reads as a number, and an indicator file with
    numbers. *)
Lemma dynamic_run_message_built_witness :
  exists long short,
    filter_opportunities ∅
      (merge_results ["AAPL"]
         {[ "AAPL" := {[ "rsi" := VNum 25; "sma" := VNum 180 ]} ]}
         {[ "AAPL" := scrape_record (MoreSamples.plain_percent_page 1 "AAPL") ]})
    = Some (long, short)
    /\ is_Some (opportunity_message long short).
Proof.
  apply dynamic_run_message_built.
  - intros symbol entry v [<- <-]%lookup_singleton_Some Hv.
    by apply scrape_record_strings in Hv.
  - intros symbol entry s [<- <-]%lookup_singleton_Some. done.
Defined.

(** ** The two timers *)

Lemma replace_time_on_the_clock (now hour minute : Z) :
  on_the_clock hour minute ->
  replace_time now hour minute = Some (now / DAY * DAY + time_of_day hour minute)%Z.
Proof.
  intros [Hh Hm]. unfold replace_time.
  destruct (Z.leb_spec 0 hour), (Z.ltb_spec hour 24),
    (Z.leb_spec 0 minute), (Z.ltb_spec minute 60); simpl; try lia; done.
Qed.

Lemma replace_time_off_the_clock (now hour minute : Z) :
  ~ on_the_clock hour minute -> replace_time now hour minute = None.
Proof.
  intros Hoff. unfold replace_time, on_the_clock in *.
  destruct (Z.leb_spec 0 hour), (Z.ltb_spec hour 24),
    (Z.leb_spec 0 minute), (Z.ltb_spec minute 60); simpl; try done; lia.
Qed.

Lemma run_delay_off_the_clock (now hour minute : Z) :
  ~ on_the_clock hour minute -> run_delay now hour minute = None.
Proof. intros Hoff. unfold run_delay. by rewrite replace_time_off_the_clock. Qed.

Lemma run_delay_on_the_clock (now hour minute : Z) :
  on_the_clock hour minute ->
  exists delay,
    run_delay now hour minute = Some delay
    /\ (0 < delay <= DAY)%Z
    /\ (delay = (time_of_day hour minute - now mod DAY) mod DAY
        \/ (delay = DAY /\ now mod DAY = time_of_day hour minute))%Z.
Proof.
  intros Hon. unfold run_delay. rewrite (replace_time_on_the_clock _ _ _ Hon).
  destruct Hon as [Hh Hm]. unfold time_of_day, DAY in *.
  destruct (Z.leb_spec (now / 86400000000 * 86400000000
                        + (hour * 3600 + minute * 60) * 1000000) now);
    eexists; (split; [reflexivity|]); Z.div_mod_to_equations; lia.
Qed.

(** X20. For an hour and a minute on the clock, the delay of a run is
    positive and at most a day, and the run falls on the configured time of
    day: strictly after the moment of scheduling, so that a schedule made
    at the very time of the run waits a whole day. *)
Theorem run_delay_bounds (now hour minute : Z) :
  on_the_clock hour minute ->
  exists delay,
    run_delay now hour minute = Some delay
    /\ (0 < delay <= DAY)%Z
    /\ ((now + delay) mod DAY = time_of_day hour minute)%Z.
Proof.
  intros Hon.
  destruct (run_delay_on_the_clock now hour minute Hon) as (delay & -> & Hd & Hmod).
  exists delay. split; [done|]. split; [done|].
  destruct Hon as [Hh Hm]. unfold time_of_day, DAY in *.
  Z.div_mod_to_equations. lia.
Qed.

(** Scheduled at ten in the morning, the run of a quarter past two in the
    afternoon is four hours and a quarter away. *)
Lemma run_delay_bounds_witness :
  exists delay,
    run_delay MoreSamples.ten_o_clock 14 15 = Some delay
    /\ (0 < delay <= DAY)%Z
    /\ ((MoreSamples.ten_o_clock + delay) mod DAY = time_of_day 14 15)%Z.
Proof.
  apply run_delay_bounds. unfold on_the_clock. lia.
Defined.

(** X21. With both times on the clock and the static run configured
    earlier in the day than the dynamic run, the scheduler starts two
    timers, and the dynamic run fires before the static run exactly when
    the scheduler is started between the two times of day: then the first
    dynamic run comes before any static run of this schedule. *)
Theorem schedule_run_order (config : gmap string Z) (now : Z) :
  on_the_clock (static_hour config) (static_minute config) ->
  on_the_clock (dynamic_hour config) (dynamic_minute config) ->
  (time_of_day (static_hour config) (static_minute config)
   < time_of_day (dynamic_hour config) (dynamic_minute config))%Z ->
  exists static_delay dynamic_delay,
    schedule_run false config now = Timers [static_delay; dynamic_delay] false
    /\ static_delay <> dynamic_delay
    /\ ((dynamic_delay < static_delay)%Z
        <-> (time_of_day (static_hour config) (static_minute config)
             <= now mod DAY
             < time_of_day (dynamic_hour config) (dynamic_minute config))%Z).
Proof.
  intros Hs Hd Hlt. unfold schedule_run.
  destruct (run_delay_on_the_clock now _ _ Hs) as (sd & -> & Hsd & Hsmod).
  destruct (run_delay_on_the_clock now _ _ Hd) as (dd & -> & Hdd & Hdmod).
  exists sd, dd. split; [done|].
  destruct Hs as [Hsh Hsm], Hd as [Hdh Hdm]. unfold time_of_day, DAY in *.
  split; [|split]; Z.div_mod_to_equations; lia.
Qed.

(** With the default times, a scheduler started at ten in the morning runs
    the dynamic analysis after four hours and a quarter and the static
    analysis after twenty-three hours. *)
Lemma schedule_run_order_witness :
  exists static_delay dynamic_delay,
    schedule_run false ∅ MoreSamples.ten_o_clock
    = Timers [static_delay; dynamic_delay] false
    /\ static_delay <> dynamic_delay
    /\ ((dynamic_delay < static_delay)%Z
        <-> (time_of_day (static_hour ∅) (static_minute ∅)
             <= MoreSamples.ten_o_clock mod DAY
             < time_of_day (dynamic_hour ∅) (dynamic_minute ∅))%Z).
Proof.
  apply schedule_run_order; unfold on_the_clock; vm_compute; intuition congruence.
Defined.

Ltac settle_timers :=
  split; [|split]; (split; intros Hyp);
  first [ tauto | by eauto | discriminate Hyp
        | match type of Hyp with
          | ex _ => let x := fresh in destruct Hyp as [x Hyp]; discriminate Hyp
          end ].

(** X22. The scheduler raises exactly when one of the configured times is
    off the clock. When the static time is, no timer has been started;
    when only the dynamic time is, the timer of the static run has been
    started already and keeps running. *)
Theorem schedule_run_raises (config : gmap string Z) (now : Z) :
  (on_the_clock (static_hour config) (static_minute config)
   /\ on_the_clock (dynamic_hour config) (dynamic_minute config)
   <-> exists delays, schedule_run false config now = Timers delays false)
  /\ (~ on_the_clock (static_hour config) (static_minute config)
      <-> schedule_run false config now = Timers [] true)
  /\ (on_the_clock (static_hour config) (static_minute config)
      /\ ~ on_the_clock (dynamic_hour config) (dynamic_minute config)
      <-> exists static_delay,
           schedule_run false config now = Timers [static_delay] true).
Proof.
  unfold schedule_run.
  assert (Hdec : forall hour minute,
             on_the_clock hour minute \/ ~ on_the_clock hour minute)
    by (intros; unfold on_the_clock; lia).
  destruct (Hdec (static_hour config) (static_minute config)) as [Hs | Hs],
    (Hdec (dynamic_hour config) (dynamic_minute config)) as [Hd | Hd].
  - destruct (run_delay_on_the_clock now _ _ Hs) as (sd & -> & _).
    destruct (run_delay_on_the_clock now _ _ Hd) as (dd & -> & _).
    settle_timers.
  - destruct (run_delay_on_the_clock now _ _ Hs) as (sd & -> & _).
    rewrite !(run_delay_off_the_clock _ _ _ Hd).
    settle_timers.
  - rewrite !(run_delay_off_the_clock _ _ _ Hs).
    settle_timers.
  - rewrite !(run_delay_off_the_clock _ _ _ Hs).
    settle_timers.
Qed.

(** ** The rows of the CSV dump *)

Lemma merged_record_dom `{PyRuntime} (symbol : string) (sdata ddata : record) :
  dom (merged_record symbol sdata ddata)
  = ({[ "symbol"; "rsi"; "sma"; "position"; "price"; "premarket_price";
        "premarket_change"; PCT ]} : gset string).
Proof. unfold merged_record. rewrite !dom_insert_L, dom_singleton_L. set_solver. Qed.

Section DumpCsvMore.
Context `{PyRuntime}.

Lemma writerows_known (data : list record) :
  Forall (fun row => known_fields row = true) data ->
  writerows data = (csv_cells <$> data, false).
Proof.
  induction 1 as [|row rest Hrow _ IH]; [done|].
  cbn [writerows]. unfold csv_row. by rewrite Hrow, IH.
Qed.

Lemma known_fields_merged_record (symbol : string) (sdata ddata : record) :
  known_fields (merged_record symbol sdata ddata) = true.
Proof.
  unfold known_fields. rewrite merged_record_dom. by vm_compute.
Qed.

(** X23. The dump of the records of a dynamic run never raises: under the
    header it writes one row per symbol of the list, in the order of the
    list, each of ten cells of which the first is the symbol and the last
    two, the scrape times, are empty. *)
Theorem dump_data_to_csv_merged (stock_list : list string)
  (static_results dynamic_data : gmap string record) :
  exists rows,
    dump_data_to_csv (merge_results stock_list static_results dynamic_data)
    = (CSV_FIELDNAMES :: rows, false)
    /\ length rows = length stock_list
    /\ forall k symbol,
        stock_list !! k = Some symbol ->
        exists row,
          rows !! k = Some row
          /\ length row = 10
          /\ row !! 0 = Some symbol
          /\ row !! 8 = Some "" /\ row !! 9 = Some "".
Proof.
  unfold dump_data_to_csv. rewrite writerows_known.
  2:{ rewrite merge_results_fmap. apply Forall_fmap, Forall_forall. intros symbol _.
      unfold compose. exact (known_fields_merged_record _ _ _). }
  eexists. split; [reflexivity|]. rewrite merge_results_fmap.
  split; [by rewrite !length_fmap|]. intros k symbol Hk.
  eexists. split; [by rewrite !list_lookup_fmap, Hk|].
  split; [done|]. unfold csv_cells, CSV_FIELDNAMES, merged_record, dict_get.
  cbn [fmap list_fmap]. by simplify_map_eq.
Qed.

End DumpCsvMore.

(** ** The /set_config command *)

Section SetConfigMore.
Context `{PyRuntime}.
Variable int_of_string : string -> option Z.

Lemma converted_same_kind (current_value new_value : jvalue) (value : string) :
  converted int_of_string current_value value = Some new_value ->
  same_kind current_value new_value.
Proof.
  unfold converted. destruct current_value; simpl.
  - by intros [= <-].
  - destruct (int_of_string value); simpl; [by intros [= <-] | done].
  - destruct (float_of_string value); simpl; [by intros [= <-] | done].
  - by intros [= <-].
  - by intros [= <-].
Qed.

(** X25. Whatever the command is given, a configuration is written to the
    file only with the reply that reports the update, and it differs from
    the loaded one at the named parameter alone: it has the same keys, no
    other value is changed, and the new value is a boolean, an integer or a
    float when the old one was, and a string otherwise. *)
Theorem set_config_written (args : list string) (config written : gmap string jvalue)
  (path_found : bool) (answer : reply) :
  set_config int_of_string args config path_found = (Some written, answer) ->
  answer = Updated
  /\ dom written = dom config
  /\ exists param value current_value new_value,
      args = [param; value]
      /\ config !! param = Some current_value
      /\ written !! param = Some new_value
      /\ same_kind current_value new_value
      /\ forall key, key <> param -> written !! key = config !! key.
Proof.
  unfold set_config.
  destruct args as [|param [|value [|]]]; try done.
  destruct (config !! param) as [current_value|] eqn:Hparam; [|done].
  destruct (converted _ _ _) as [new_value|] eqn:Hnew; [|done].
  destruct path_found; [|done]. intros [= <- <-].
  split; [done|]. split.
  - apply dom_insert_lookup_L. by rewrite Hparam.
  - exists param, value, current_value, new_value.
    split; [done|]. split; [done|]. split; [by rewrite lookup_insert_eq|].
    split; [by eapply converted_same_kind|].
    intros key Hkey. by rewrite lookup_insert_ne.
Qed.

(** X26. Nothing is written unless the command has exactly two arguments,
    the first names a parameter of the loaded configuration, the text
    converts to the type of its value, and the path of the file is
    found; a boolean parameter accepts any text, and every text other than a
    spelling of [true] sets it to false. *)
Theorem set_config_not_written (args : list string) (config : gmap string jvalue)
  (path_found : bool) :
  (fst (set_config int_of_string args config path_found) = None
   <-> path_found = false
       \/ forall param value current_value,
            args = [param; value] ->
            config !! param = Some current_value ->
            converted int_of_string current_value value = None)
  /\ forall param value b,
      config !! param = Some (JBool b) ->
      set_config int_of_string [param; value] config true
      = (Some (<[param := JBool (String.eqb (PyRun.lower value) "true")]> config),
         Updated).
Proof.
  split.
  - unfold set_config.
    destruct args as [|param [|value [|]]];
      try (split; [intros _; right; intros ? ? ? [=] | done]).
    destruct (config !! param) as [current_value|] eqn:Hparam.
    + destruct (converted _ _ _) as [new_value|] eqn:Hnew.
      * destruct path_found; simpl; split; try done; auto.
        intros [[=] | Hconv]. specialize (Hconv _ _ _ eq_refl Hparam). congruence.
      * simpl. split; [|done]. intros _. right.
        intros ? ? ? [= <- <-]. congruence.
    + simpl. split; [|done]. intros _. right. intros ? ? ? [= <- <-]. congruence.
  - intros param value b Hparam. unfold set_config. by rewrite Hparam.
Qed.
End SetConfigMore.

(** The integer threshold is set from the text of an integer. *)
Lemma set_config_written_witness :
  set_config python_int ["RSI_LONG_MAX"; "65"] MoreSamples.settings true
  = (Some (<["RSI_LONG_MAX" := JInt 65]> MoreSamples.settings), Updated)
  /\ dom (<["RSI_LONG_MAX" := JInt 65]> MoreSamples.settings)
     = dom MoreSamples.settings.
Proof.
  assert (E : set_config python_int ["RSI_LONG_MAX"; "65"] MoreSamples.settings true
              = (Some (<["RSI_LONG_MAX" := JInt 65]> MoreSamples.settings), Updated))
    by reflexivity.
  split; [exact E|].
  exact (proj1 (proj2 (set_config_written python_int _ _ _ _ _ E))).
Defined.

(** * The functions with the calls that can raise *)

Lemma mapM_app_eq {A B : Type} (f : A -> option B) (l1 l2 : list A) :
  mapM f (l1 ++ l2)
  = match mapM f l1, mapM f l2 with
    | Some k1, Some k2 => Some (k1 ++ k2)%list
    | _, _ => None
    end.
Proof.
  destruct (mapM f l1) as [k1|] eqn:H1; destruct (mapM f l2) as [k2|] eqn:H2.
  - apply mapM_Some. apply mapM_Some in H1, H2. by apply Forall2_app.
  - apply mapM_None. apply mapM_None in H2. apply Exists_app. by right.
  - apply mapM_None. apply mapM_None in H1. apply Exists_app. by left.
  - apply mapM_None. apply mapM_None in H1. apply Exists_app. by left.
Qed.

(** ** White space *)

(** [strip] removes the white space of one byte and of several, at both
    ends and nowhere else; [float] skips the same except the separators
    U+001C to U+001F. *)
Example strip_examples :
  strip " 1.50 " = "1.50"
  /\ strip (RunSamples.NBSP ++ "189.84" ++ RunSamples.NBSP) = "189.84"
  /\ strip (NEWLINE ++ RunSamples.NBSP ++ " a" ++ RunSamples.NBSP ++ "b "
              ++ RunSamples.NBSP ++ NEWLINE)
     = "a" ++ RunSamples.NBSP ++ "b"
  /\ strip (String (ascii_of_nat 227) (String (ascii_of_nat 128)
              (String (ascii_of_nat 128) "x"))) = "x"
  /\ strip (String (ascii_of_nat 28) "1.5") = "1.5"
  /\ strip (String (ascii_of_nat 194) "") = String (ascii_of_nat 194) ""
  /\ PyRun.float_of_string (RunSamples.NBSP ++ "1.5" ++ RunSamples.NBSP) = Some 1.5%float
  /\ PyRun.float_of_string (String (ascii_of_nat 28) "1.5") = None.
Proof. repeat split; vm_compute; reflexivity. Qed.

(** ** The loop of the normalizer *)

Section RunFilterFacts.
Context `{PyRuntime} `{Library}.

(** An iteration that does not raise does what [normalize_stock] says. *)
Lemma run_normalize_stock (stock : record) (r : option record) :
  Run.normalize_stock stock = Some r -> normalize_stock stock = r.
Proof.
  unfold Run.normalize_stock, normalize_stock, py_truediv.
  destruct (is_sentinel stock); [by intros [= <-]|].
  destruct (has_error stock); [by intros [= <-]|].
  destruct (_ || _); [by intros [= <-]|].
  destruct (float_of_string (stripped_field stock "price")) as [price|].
  - destruct (float_of_string (stripped_field stock "premarket_change")) as [change|].
    + destruct (PrimFloat.eqb price 0); simpl; by intros [= <-].
    + destruct (prints _); [by intros [= <-] | done].
  - destruct (prints _); [by intros [= <-] | done].
Qed.

Lemma run_filter_loop (data filtered : list record) :
  Run.filter_loop data filtered
  = match mapM Run.normalize_stock data with
    | Some steps => Some (filtered ++ omap id steps)%list
    | None => None
    end.
Proof.
  revert filtered. induction data as [|stock data IH]; intros filtered.
  { simpl. by rewrite app_nil_r. }
  cbn [Run.filter_loop]. csimpl.
  destruct (Run.normalize_stock stock) as [[s|]|]; csimpl; [| |done].
  - rewrite IH. destruct (mapM _ data); csimpl; [|done]. by rewrite <- app_assoc.
  - rewrite IH. by destruct (mapM _ data).
Qed.

Lemma run_filter_premarket_data (data : list record) :
  Run.filter_premarket_data data = omap id <$> mapM Run.normalize_stock data.
Proof.
  unfold Run.filter_premarket_data. rewrite run_filter_loop.
  by destruct (mapM _ data).
Qed.

(** When the loop returns, it returns the list of [filter_premarket_data]. *)
Lemma run_filter_premarket_data_Some (data out : list record) :
  Run.filter_premarket_data data = Some out -> out = filter_premarket_data data.
Proof.
  rewrite run_filter_premarket_data, filter_premarket_data_omap.
  destruct (mapM _ data) as [steps|] eqn:Hsteps; [|done]. intros [= <-].
  apply mapM_Some in Hsteps.
  induction Hsteps as [|stock r data steps Hr _ IH]; [done|].
  apply run_normalize_stock in Hr. csimpl. rewrite Hr, IH. by destruct r.
Qed.

(** The loop on a list in three parts. *)
Lemma run_filter_premarket_data_app (pre post : list record) (stock : record) :
  Run.filter_premarket_data (pre ++ stock :: post)
  = match Run.filter_premarket_data pre, Run.normalize_stock stock,
          Run.filter_premarket_data post with
    | Some out_pre, Some r, Some out_post =>
        Some (out_pre ++ option_list r ++ out_post)%list
    | _, _, _ => None
    end.
Proof.
  rewrite !run_filter_premarket_data, mapM_app_eq. csimpl.
  destruct (mapM _ pre) as [steps_pre|]; csimpl; [|done].
  destruct (Run.normalize_stock stock) as [r|]; csimpl; [|done].
  destruct (mapM _ post) as [steps_post|]; csimpl; [|done].
  rewrite omap_app. by destruct r.
Qed.
End RunFilterFacts.

(** C1 at an input on which the code departs from it: a record whose price
    is the text [[/x]] is neither the sentinel nor errored and its price
    does not read as a float, so the claim has it dropped and the records
    around it kept, as happens with the price ["abc"]. The handler prints
    the text of the exception, which quotes the price, as markup; the
    print raises on the closing tag and the loop ends without a result. *)
Theorem filter_premarket_data_raises_on_markup :
  is_sentinel RunSamples.markup = false
  /\ has_error RunSamples.markup = false
  /\ float_of_string (stripped_field RunSamples.markup "price") = None
  /\ Run.handler_line RunSamples.markup (stripped_field RunSamples.markup "price")
     = "[red]Error filtering MRK: could not convert string to float: '[/x]'[/red]"
  /\ Run.filter_premarket_data [Samples.apple; RunSamples.markup; Samples.free] = None
  /\ Run.filter_premarket_data [Samples.apple; Samples.garbled; Samples.free]
     = Some [<[PCT := VNum 2]> Samples.apple; <[PCT := VStr "N/A"]> Samples.free].
Proof.
  split; [reflexivity|]. split; [reflexivity|].
  split; [vm_compute; reflexivity|]. split; [vm_compute; reflexivity|].
  split; [vm_compute; reflexivity | reflexivity].
Qed.

Section RunFilterCases.
Context `{PyRuntime} `{Library}.

(** X27. Whenever the loop of the normalizer returns, a record of the
    input that is neither the sentinel nor errored has left this in the
    output, at its place between what the records before it and the records
    after it left: itself with the percent ["N/A"] when its price or its
    premarket change, commas removed, is ["N/A"] in any case; otherwise,
    when both read as floats, itself with the percent
    [change / price * 100], or ["N/A"] for a price of zero; and nothing
    when one of them does not read as a float. *)
Theorem normalizer_cases (pre post : list record) (stock : record) (out : list record) :
  Run.filter_premarket_data (pre ++ stock :: post) = Some out ->
  is_sentinel stock = false ->
  has_error stock = false ->
  exists out_pre out_post,
    Run.filter_premarket_data pre = Some out_pre
    /\ Run.filter_premarket_data post = Some out_post
    /\ let price_str := remove_char "," (py_str (dict_get stock "price" (VStr "N/A"))) in
       let change_str :=
         remove_char "," (py_str (dict_get stock "premarket_change" (VStr "N/A"))) in
       (upper price_str = "N/A" \/ upper change_str = "N/A" ->
        out = (out_pre ++ <[PCT := VStr "N/A"]> stock :: out_post)%list)
       /\ (upper price_str <> "N/A" -> upper change_str <> "N/A" ->
           match float_of_string price_str, float_of_string change_str with
           | Some price, Some change =>
               out = (out_pre
                        ++ <[PCT := if PrimFloat.eqb price 0 then VStr "N/A"
                                    else VNum (PrimFloat.mul (PrimFloat.div change price) 100)]>
                             stock
                        :: out_post)%list
           | _, _ => out = (out_pre ++ out_post)%list
           end).
Proof.
  rewrite run_filter_premarket_data_app. intros Hrun Hsent Herr.
  destruct (Run.filter_premarket_data pre) as [out_pre|]; [|done].
  destruct (Run.normalize_stock stock) as [r|] eqn:Hr; [|done].
  destruct (Run.filter_premarket_data post) as [out_post|]; [|done].
  injection Hrun as <-. exists out_pre, out_post. split; [done|]. split; [done|].
  unfold Run.normalize_stock, stripped_field in Hr. rewrite Hsent, Herr in Hr.
  cbv zeta in *. split.
  - intros Hna.
    assert (Hor : String.eqb (upper (remove_char ","
                     (py_str (dict_get stock "price" (VStr "N/A"))))) "N/A"
                  || String.eqb (upper (remove_char ","
                     (py_str (dict_get stock "premarket_change" (VStr "N/A"))))) "N/A"
                  = true).
    { destruct Hna as [-> | ->]; [done | by rewrite orb_true_r]. }
    rewrite Hor in Hr. by injection Hr as <-.
  - intros Hp Hc. apply String.eqb_neq in Hp, Hc. rewrite Hp, Hc in Hr. simpl in Hr.
    destruct (float_of_string (remove_char "," (py_str (dict_get stock "price" _))))
      as [price|].
    + destruct (float_of_string (remove_char "," (py_str
                  (dict_get stock "premarket_change" _)))) as [change|].
      * destruct (PrimFloat.eqb price 0); simpl in Hr; by injection Hr as <-.
      * destruct (prints _); [by injection Hr as <- | done].
    + destruct (prints _); [by injection Hr as <- | done].
Qed.
End RunFilterCases.

(** A price with a thousands separator, a change spelled ["n/a"], a price
    of zero and a price that does not read as a float. *)
Lemma normalizer_cases_witness :
  Run.filter_premarket_data
    [RunSamples.thousand; RunSamples.lower_case; Samples.free; Samples.garbled]
  = Some [<[PCT := VNum 1.5625]> RunSamples.thousand;
          <[PCT := VStr "N/A"]> RunSamples.lower_case;
          <[PCT := VStr "N/A"]> Samples.free]
  /\ (exists out_pre out_post,
         Run.filter_premarket_data [] = Some out_pre
         /\ Run.filter_premarket_data [RunSamples.lower_case; Samples.free; Samples.garbled]
            = Some out_post
         /\ [<[PCT := VNum 1.5625]> RunSamples.thousand;
             <[PCT := VStr "N/A"]> RunSamples.lower_case;
             <[PCT := VStr "N/A"]> Samples.free]
            = (out_pre ++ <[PCT := VNum 1.5625]> RunSamples.thousand :: out_post)%list)
  /\ (exists out_pre out_post,
         Run.filter_premarket_data [RunSamples.thousand] = Some out_pre
         /\ Run.filter_premarket_data [Samples.free; Samples.garbled] = Some out_post
         /\ [<[PCT := VNum 1.5625]> RunSamples.thousand;
             <[PCT := VStr "N/A"]> RunSamples.lower_case;
             <[PCT := VStr "N/A"]> Samples.free]
            = (out_pre ++ <[PCT := VStr "N/A"]> RunSamples.lower_case :: out_post)%list).
Proof.
  assert (E : Run.filter_premarket_data
                [RunSamples.thousand; RunSamples.lower_case; Samples.free; Samples.garbled]
              = Some [<[PCT := VNum 1.5625]> RunSamples.thousand;
                      <[PCT := VStr "N/A"]> RunSamples.lower_case;
                      <[PCT := VStr "N/A"]> Samples.free]) by reflexivity.
  split; [exact E|]. split.
  - destruct (normalizer_cases [] [RunSamples.lower_case; Samples.free; Samples.garbled]
                RunSamples.thousand _ E eq_refl eq_refl)
      as (out_pre & out_post & Hpre & Hpost & _ & Hnum).
    exists out_pre, out_post. split; [exact Hpre|]. split; [exact Hpost|].
    apply Hnum; vm_compute; discriminate.
  - destruct (normalizer_cases [RunSamples.thousand] [Samples.free; Samples.garbled]
                RunSamples.lower_case _ E eq_refl eq_refl)
      as (out_pre & out_post & Hpre & Hpost & Hna & _).
    exists out_pre, out_post. split; [exact Hpre|]. split; [exact Hpost|].
    apply Hna. right. vm_compute. reflexivity.
Defined.

(** ** The scraper *)

Section RunScrapeFacts.
Context `{PyRuntime} `{Library} {Cookies : Type}.
Variable launch : Cookies -> option (nat -> string -> string -> option string).
Variable clock : nat -> float.

(** The loop returns when each of its lines prints and, if it has an
    iteration, the pause returns; it then leaves what [scrape_loop] says. *)
Lemma run_scrape_loop (page : nat -> string -> string -> option string)
  (wait_time : value) (total idx : nat) (stock_list : list string)
  (st : gmap string record * float * nat) :
  Run.scrape_loop clock page wait_time total idx stock_list st
  = if forallb prints (Run.progress_lines clock page total idx stock_list st.2)
       && match stock_list with [] => true | _ :: _ => sleep wait_time end
    then Some (scrape_loop page clock idx stock_list st)
    else None.
Proof.
  revert idx st. induction stock_list as [|symbol rest IH]; intros idx st; [done|].
  destruct st as [[results total_time] reads].
  cbn [Run.scrape_loop Run.progress_lines scrape_loop forallb snd].
  destruct (prints _); [|done].
  destruct (sleep wait_time) eqn:Hsleep; [|by rewrite andb_false_r].
  rewrite IH. cbn [snd andb]. by destruct rest.
Qed.

Lemma run_fetch_dynamic_data (stock_list : list string) (cookies : Cookies)
  (wait_time : value) :
  Run.fetch_dynamic_data launch clock stock_list cookies wait_time
  = match launch cookies with
    | None => None
    | Some page =>
        if forallb prints (Run.printed_lines clock page stock_list)
           && match stock_list with [] => true | _ :: _ => sleep wait_time end
        then fetch_dynamic_data page clock stock_list
        else None
    end.
Proof.
  unfold Run.fetch_dynamic_data. destruct (launch cookies) as [page|]; [|done].
  rewrite run_scrape_loop. unfold Run.printed_lines. rewrite forallb_app.
  cbn [snd]. destruct (forallb prints (Run.progress_lines _ _ _ _ _ _)); [|done].
  cbn [andb].
  destruct (match stock_list with [] => true | _ :: _ => sleep wait_time end);
    [|by rewrite andb_false_r].
  rewrite andb_true_r. unfold fetch_dynamic_data.
  destruct (scrape_loop page clock 1 stock_list (∅, 0%float, 1%nat))
    as [[results total_time] reads].
  destruct (match stock_list with
            | [] => Some 0%float
            | _ :: _ => py_truediv_int total_time (Z.of_nat (length stock_list))
            end) as [avg|]; [|done].
  by destruct (forallb prints _).
Qed.
End RunScrapeFacts.

Section RunScrapeClaims.
Context `{PyRuntime} `{Library} {Cookies : Type}.
Variable launch : Cookies -> option (nat -> string -> string -> option string).
Variable clock : nat -> float.

(** A scrape that returns opened a page, printed its lines and made its
    pauses, and returns the mapping of the loop. *)
Lemma run_fetch_dynamic_data_Some (stock_list : list string) (cookies : Cookies)
  (wait_time : value) (results : gmap string record) (overall avg : float) :
  Run.fetch_dynamic_data launch clock stock_list cookies wait_time
  = Some (results, overall, avg) ->
  exists page,
    launch cookies = Some page
    /\ results = (scrape_loop page clock 1 stock_list (∅, 0%float, 1%nat)).1.1
    /\ forallb prints (Run.printed_lines clock page stock_list) = true
    /\ (stock_list = [] \/ sleep wait_time = true).
Proof.
  rewrite run_fetch_dynamic_data.
  destruct (launch cookies) as [page|]; [|done].
  destruct (forallb prints (Run.printed_lines clock page stock_list)) eqn:Hlines;
    [|done].
  cbn [andb]. intros Hrun. exists page.
  destruct (fetch_dynamic_data_returns page clock stock_list)
    as (overall' & avg' & Hpure).
  rewrite Hpure in Hrun.
  assert (Hpause : stock_list = [] \/ sleep wait_time = true).
  { destruct stock_list; [by left|]. right. by destruct (sleep wait_time). }
  destruct (match stock_list with [] => true | _ :: _ => sleep wait_time end); [|done].
  by injection Hrun as <- _ _.
Qed.

Lemma run_fetch_dynamic_data_is_Some (stock_list : list string) (cookies : Cookies)
  (wait_time : value) :
  is_Some (Run.fetch_dynamic_data launch clock stock_list cookies wait_time)
  <-> exists page,
      launch cookies = Some page
      /\ (stock_list = [] \/ sleep wait_time = true)
      /\ forallb prints (Run.printed_lines clock page stock_list) = true.
Proof.
  split.
  - intros [[[results overall] avg] Hrun].
    apply run_fetch_dynamic_data_Some in Hrun as (page & Hpage & _ & Hlines & Hpause).
    by eauto.
  - intros (page & Hpage & Hpause & Hlines).
    rewrite run_fetch_dynamic_data, Hpage, Hlines.
    destruct (fetch_dynamic_data_returns page clock stock_list)
      as (overall & avg & ->).
    destruct stock_list as [|symbol rest]; [by eexists|].
    destruct Hpause as [[=] | ->]. by eexists.
Qed.

(** C9, amended. Whenever the scrape returns, its mapping has for every
    symbol of the list an entry, read from the page of an iteration that
    typed the symbol, in which [price], [premarket_price] and
    [premarket_change_percent] are each the stripped text of their element
    when it is present and ["N/A"] when it is missing, and
    [premarket_change] is ["N/A"] whatever the page shows. A missing
    element is no error: the scrape returns whenever the browser opens,
    each of its lines prints and, on a list that is not empty, the pause
    returns. *)
Theorem fetch_dynamic_data_fields (stock_list : list string) (cookies : Cookies)
  (wait_time : value) :
  (forall results overall avg,
      Run.fetch_dynamic_data launch clock stock_list cookies wait_time
      = Some (results, overall, avg) ->
      exists page,
        launch cookies = Some page
        /\ forall symbol,
            symbol ∈ stock_list ->
            exists (i : nat) (entry : record),
              stock_list !! i = Some symbol
              /\ results !! symbol = Some entry
              /\ (forall field selector,
                     (field, selector) ∈ [("price", SEL_PRICE);
                                          ("premarket_price", SEL_PM_PRICE);
                                          (PCT, SEL_PM_PERCENT)] ->
                     entry !! field
                     = Some (VStr match page (S i) symbol selector with
                                  | Some inner_text => strip inner_text
                                  | None => "N/A"
                                  end))
              /\ entry !! "premarket_change" = Some (VStr "N/A"))
  /\ (forall page,
         launch cookies = Some page ->
         stock_list = [] \/ sleep wait_time = true ->
         forallb prints (Run.printed_lines clock page stock_list) = true ->
         is_Some (Run.fetch_dynamic_data launch clock stock_list cookies wait_time)).
Proof.
  split.
  - intros results overall avg Hrun.
    apply run_fetch_dynamic_data_Some in Hrun as (page & Hpage & -> & _).
    exists page. split; [exact Hpage|]. intros symbol Hin.
    destruct (scrape_loop_lookup page clock stock_list 1 (∅, 0%float, 1%nat) symbol Hin)
      as (i & Hi & Hlook).
    exists i, (scrape_record (page (S i) symbol)).
    split; [exact Hi|]. split; [exact Hlook|]. split; [|done].
    intros field selector Hfield. unfold scrape_record.
    repeat (apply elem_of_cons in Hfield as [[= -> ->] | Hfield];
            [simplify_map_eq; by destruct (page (S i) symbol _)|]).
    by apply elem_of_nil in Hfield.
  - intros page Hpage Hpause Hlines. apply run_fetch_dynamic_data_is_Some. by eauto.
Qed.

(** X5. Whenever the scrape returns, its mapping has an entry for exactly
    the symbols of the list, and every entry has exactly the four fields
    [price], [premarket_price], [premarket_change] and
    [premarket_change_percent], each a string, never [None]. It returns
    exactly when the browser opens, each of its lines prints and, on a list
    that is not empty, the pause returns. *)
Theorem fetch_dynamic_data_entries (stock_list : list string) (cookies : Cookies)
  (wait_time : value) :
  (forall results overall avg,
      Run.fetch_dynamic_data launch clock stock_list cookies wait_time
      = Some (results, overall, avg) ->
      dom results = list_to_set stock_list
      /\ forall symbol entry,
          results !! symbol = Some entry ->
          dom entry = ({[ "price"; "premarket_price"; "premarket_change"; PCT ]}
                         : gset string)
          /\ forall k v, entry !! k = Some v -> exists s, v = VStr s)
  /\ (is_Some (Run.fetch_dynamic_data launch clock stock_list cookies wait_time)
      <-> exists page,
          launch cookies = Some page
          /\ (stock_list = [] \/ sleep wait_time = true)
          /\ forallb prints (Run.printed_lines clock page stock_list) = true).
Proof.
  split; [|apply run_fetch_dynamic_data_is_Some].
  intros results overall avg Hrun.
  apply run_fetch_dynamic_data_Some in Hrun as (page & _ & -> & _).
  apply scrape_loop_entries.
Qed.

Variable get_analysis : string -> string -> lookup.

(** X9. Whenever the combined fetch returns, it returns the merged records
    of the list followed by one statistics record, which is a sentinel and
    carries the total and the average scrape time in the [.2f] format: one
    record more than the list has symbols, with one sentinel more than the
    list has symbols spelled like the reserved marker. It raises exactly
    when the scrape does. *)
Theorem fetch_all_stocks_shape (stock_list : list string) (cookies : Cookies)
  (wait_time : value) :
  (forall records,
      Run.fetch_all_stocks launch clock get_analysis stock_list cookies wait_time
      = Some records ->
      exists dynamic_data dyn_total dyn_avg,
        Run.fetch_dynamic_data launch clock stock_list cookies wait_time
        = Some (dynamic_data, dyn_total, dyn_avg)
        /\ records
           = (merge_results stock_list (fetch_static_data get_analysis stock_list)
                            dynamic_data
                ++ [stats_record dyn_total dyn_avg])%list
        /\ is_sentinel (stats_record dyn_total dyn_avg) = true
        /\ stats_record dyn_total dyn_avg !! "dynamic_scrape_total_seconds"
           = Some (VStr (format_2f dyn_total))
        /\ stats_record dyn_total dyn_avg !! "dynamic_scrape_avg_seconds"
           = Some (VStr (format_2f dyn_avg))
        /\ length records = S (length stock_list)
        /\ count_sentinel records
           = S (length (List.filter (fun symbol => String.eqb symbol SENTINEL)
                                    stock_list)))
  /\ (Run.fetch_all_stocks launch clock get_analysis stock_list cookies wait_time = None
      <-> Run.fetch_dynamic_data launch clock stock_list cookies wait_time = None).
Proof.
  unfold Run.fetch_all_stocks.
  destruct (Run.fetch_dynamic_data launch clock stock_list cookies wait_time)
    as [[[dynamic_data dyn_total] dyn_avg]|]; [|done].
  split; [|done]. intros records [= <-].
  exists dynamic_data, dyn_total, dyn_avg. split; [done|]. split; [done|].
  split; [apply is_sentinel_stats_record|].
  split; [unfold stats_record; by simplify_map_eq|].
  split; [unfold stats_record; by simplify_map_eq|].
  split.
  - rewrite length_app, merge_results_length. simpl. lia.
  - unfold count_sentinel. rewrite List.filter_app, length_app.
    fold (count_sentinel (merge_results stock_list
            (fetch_static_data get_analysis stock_list) dynamic_data)).
    rewrite count_sentinel_merge_results_eq.
    cbn [List.filter]. rewrite is_sentinel_stats_record. simpl. lia.
Qed.
End RunScrapeClaims.

Ltac listed := repeat first [apply list_elem_of_here | apply list_elem_of_further].

(** One symbol on a page whose price stands between no-break spaces, whose
    percent ends in a line feed and which shows no premarket price. *)
Lemma fetch_dynamic_data_fields_witness :
  Run.printed_lines Samples.steady_clock RunSamples.padded_page ["AAPL"]
  = ["(1/1) AAPL => Price: 189.84, PM: N/A, PM%: +1.23%, Time: 1.00s";
     "[green]Analyzed 1 stocks in 3.00 seconds total.[/green]";
     "[green]Average fetch time per stock: 1.00s[/green]"]
  /\ exists (results : gmap string record) (overall avg : float) (entry : record),
    Run.fetch_dynamic_data (RunSamples.launch RunSamples.padded_page)
      Samples.steady_clock ["AAPL"] tt (VNum 2)
    = Some (results, overall, avg)
    /\ results !! "AAPL" = Some entry
    /\ entry !! "price" = Some (VStr "189.84")
    /\ entry !! "premarket_price" = Some (VStr "N/A")
    /\ entry !! PCT = Some (VStr "+1.23%")
    /\ entry !! "premarket_change" = Some (VStr "N/A").
Proof.
  split; [vm_compute; reflexivity|].
  destruct (fetch_dynamic_data_fields (RunSamples.launch RunSamples.padded_page)
              Samples.steady_clock ["AAPL"] tt (VNum 2)) as [Hfields Hreturns].
  destruct (Hreturns RunSamples.padded_page eq_refl (or_intror eq_refl))
    as [[[results overall] avg] Hrun]; [vm_compute; reflexivity|].
  destruct (Hfields results overall avg Hrun) as (page & [= <-] & Hsymbol).
  destruct (Hsymbol "AAPL") as (i & entry & Hi & Hentry & Hfield & Hchange);
    [apply list_elem_of_here|].
  destruct i as [|i]; [|destruct i; discriminate Hi].
  exists results, overall, avg, entry.
  split; [exact Hrun|]. split; [exact Hentry|].
  split; [exact (Hfield "price" SEL_PRICE ltac:(listed))|].
  split; [exact (Hfield "premarket_price" SEL_PM_PRICE ltac:(listed))|].
  split; [exact (Hfield PCT SEL_PM_PERCENT ltac:(listed)) | exact Hchange].
Defined.

(** A scrape that raises: on a pause that is given a negative number, on a
    price that reads as a closing tag, and when the browser does not
    start. *)
Example fetch_dynamic_data_raises_examples :
  Run.fetch_dynamic_data (RunSamples.launch RunSamples.padded_page)
    Samples.steady_clock ["AAPL"] tt (VNum (-1)) = None
  /\ Run.fetch_dynamic_data (RunSamples.launch RunSamples.markup_page)
       Samples.steady_clock ["AAPL"] tt (VNum 2) = None
  /\ Run.fetch_dynamic_data RunSamples.no_browser
       Samples.steady_clock ["AAPL"] tt (VNum 2) = None
  /\ is_Some (Run.fetch_dynamic_data (RunSamples.launch RunSamples.padded_page)
                Samples.steady_clock [] tt (VNum (-1))).
Proof.
  split; [vm_compute; reflexivity|]. split; [vm_compute; reflexivity|].
  split; [reflexivity|]. apply run_fetch_dynamic_data_is_Some.
  exists RunSamples.padded_page. split; [done|]. split; [by left|].
  vm_compute. reflexivity.
Qed.

(** ** The CSV dump *)

Section RunDumpFacts.
Context `{PyRuntime} `{Library}.

Lemma run_writerows_known (data : list record) :
  Forall (fun row => known_fields row = true) data ->
  Run.writerows data = (csv_cells <$> data, None).
Proof.
  induction 1 as [|row rest Hrow _ IH]; [done|].
  cbn [Run.writerows]. unfold csv_row. by rewrite Hrow, IH.
Qed.

Lemma run_writerows_unknown (pre post : list record) (bad : record) :
  Forall (fun row => known_fields row = true) pre ->
  known_fields bad = false ->
  Run.writerows (pre ++ bad :: post) = (csv_cells <$> pre, Some bad).
Proof.
  intros Hpre Hbad. induction Hpre as [|row rest Hrow _ IH].
  - cbn [app Run.writerows]. unfold csv_row. by rewrite Hbad.
  - rewrite <- app_comm_cons. cbn [Run.writerows]. unfold csv_row. by rewrite Hrow, IH.
Qed.

(** X24. A record with a field that is not a column, such as [error],
    stops the dump: the file holds what the dump of the records before it
    alone would hold, the header and one row for each of them, and the
    record and those after it are not written. The function then returns
    when the line of its handler, which quotes the field, prints, and raises
    when it does not. *)
Theorem dump_data_to_csv_stops (pre post : list record) (bad : record)
  (filename : string) :
  Forall (fun row => known_fields row = true) pre ->
  known_fields bad = false ->
  fst (Run.dump_data_to_csv (pre ++ bad :: post) filename)
  = fst (Run.dump_data_to_csv pre filename)
  /\ length (fst (Run.dump_data_to_csv (pre ++ bad :: post) filename)) = S (length pre)
  /\ snd (Run.dump_data_to_csv (pre ++ bad :: post) filename)
     = prints ("[red]Error dumping CSV: " ++ fields_error bad ++ "[/red]").
Proof.
  intros Hpre Hbad. unfold Run.dump_data_to_csv.
  rewrite (run_writerows_unknown _ _ _ Hpre Hbad), (run_writerows_known _ Hpre).
  cbn [fst snd length]. by rewrite length_fmap.
Qed.
End RunDumpFacts.

(** An errored record between two good ones: only the first is written,
    and the function returns. A record with a field that reads as a closing
    tag: the function raises. *)
Lemma dump_data_to_csv_stops_witness :
  (fst (Run.dump_data_to_csv ([Samples.apple] ++ Samples.broken :: [Samples.apple])
          "2025-01-02.csv")
   = fst (Run.dump_data_to_csv [Samples.apple] "2025-01-02.csv")
   /\ length (fst (Run.dump_data_to_csv
                     ([Samples.apple] ++ Samples.broken :: [Samples.apple])
                     "2025-01-02.csv")) = 2
   /\ snd (Run.dump_data_to_csv ([Samples.apple] ++ Samples.broken :: [Samples.apple])
             "2025-01-02.csv") = true)
  /\ snd (Run.dump_data_to_csv ([Samples.apple] ++ RunSamples.tagged :: [])
            "2025-01-02.csv") = false.
Proof.
  assert (Hpre : Forall (fun row => known_fields row = true) [Samples.apple])
    by (constructor; [vm_compute; reflexivity | constructor]).
  split.
  - destruct (dump_data_to_csv_stops [Samples.apple] [Samples.apple] Samples.broken
                "2025-01-02.csv" Hpre) as (Hfile & Hlength & Hreturns);
      [vm_compute; reflexivity|].
    split; [exact Hfile|]. split; [exact Hlength|].
    rewrite Hreturns. vm_compute. reflexivity.
  - destruct (dump_data_to_csv_stops [Samples.apple] [] RunSamples.tagged
                "2025-01-02.csv" Hpre) as (_ & _ & Hreturns);
      [vm_compute; reflexivity|].
    rewrite Hreturns. vm_compute. reflexivity.
Defined.
